(** * Billing service: subscription lifecycle, proration, payments, sync

    A shallow embedding of the decision logic of the billing service
    (TypeScript): the payment service (refunds, webhook payment updates,
    invoice payment bookkeeping), the invoice service (line items), the
    subscription service (lifecycle operations), the billing service
    (proration, end-of-period billing, MRR) and the Ramp sync service
    (paginated transaction sync with retry).

    Modelling conventions.
    - A JavaScript [number] that holds money or a quantity is an IEEE 754
      binary64 value ([float]), with the arithmetic, the rounding, the
      infinities, the NaN and the signed zeros of the language.  Counts
      of days and of rows are integers ([Z], [nat]).
    - A [Date] is its time value, milliseconds since the epoch ([Z]),
      read in UTC.
    - An [async] method is a computation in a state-and-exception monad:
      a [throw] keeps every write made before it.
    - Repositories (not part of the service sources) are tables keyed by
      id; [update] merges the given fields into the stored row. *)

From Stdlib Require Import ZArith QArith Qround Qpower Qfield Floats Lia.
From stdpp Require Import gmap strings list fin_maps pretty.

Set Warnings "-inexact-float".

Open Scope Z_scope.

(** ** JavaScript numbers *)

Module JS.

(** A [number] is a binary64 value; [+], [-], [*] and [/] are the
    operations of IEEE 754 with rounding to nearest, ties to even. *)
Definition number : Type := float.

#[local] Bind Scope float_scope with number.

(** [x < y], [x <= y], [x > y], [x >= y] and [x === y]; each is false
    when an operand is NaN, and the two zeros are equal. *)
Definition lt (x y : number) : bool := (x <? y)%float.
Definition le (x y : number) : bool := (x <=? y)%float.
Definition gt (x y : number) : bool := (y <? x)%float.
Definition ge (x y : number) : bool := (y <=? x)%float.
Definition strict_eq (x y : number) : bool := (x =? y)%float.

Definition isNaN (x : number) : bool := PrimFloat.is_nan x.

(** [ToBoolean]: a number is falsy when it is a zero or NaN. *)
Definition truthy (x : number) : bool :=
  negb (strict_eq x 0) && negb (isNaN x).

(** [x || d]. *)
Definition or_else (x d : number) : number := if truthy x then x else d.

(** [x || d] on a number that may be [undefined]. *)
Definition opt_or_else (x : option number) (d : number) : number :=
  match x with
  | Some v => or_else v d
  | None => d
  end.

(** The number of an integer, exact below [2^53]. *)
Definition of_Z (z : Z) : number :=
  SF2Prim (binary_normalize prec emax z 0 false).

(** [Math.max(a, b)]: NaN when an operand is NaN; of the two zeros the
    positive one is the larger. *)
Definition Math_max (a b : number) : number :=
  if isNaN a || isNaN b then nan
  else if lt a b then b
  else if lt b a then a
  else if get_sign a then b else a.

(** [Math.min(a, b)]: NaN when an operand is NaN; of the two zeros the
    negative one is the smaller. *)
Definition Math_min (a b : number) : number :=
  if isNaN a || isNaN b then nan
  else if lt a b then a
  else if lt b a then b
  else if get_sign a then a else b.

(** [Math.round(x)]: the integer nearest to [x], a tie going to the
    larger one; NaN, the infinities, the zeros and the integers are
    returned as they are, and a result of zero keeps the sign of [x].
    The value [m * 2^e] of [x] is rounded exactly: [floor (x + 1/2)]. *)
Definition Math_round (x : number) : number :=
  match Prim2SF x with
  | S754_finite s m e =>
      if (0 <=? e)%Z then x
      else
        let n := Z.shiftr (cond_Zopp s (Z.pos m) + 2 ^ (- e - 1)) (- e) in
        if (n =? 0)%Z then (if s then neg_zero else zero) else of_Z n
  | _ => x
  end.

(** The exact value of a finite number. *)
Definition value (x : number) : option Q :=
  match Prim2SF x with
  | S754_zero _ => Some 0%Q
  | S754_finite s m e =>
      Some (inject_Z (cond_Zopp s (Z.pos m)) * 2 ^ e)%Q
  | _ => None
  end.

End JS.

Bind Scope float_scope with JS.number.

(** The rounding the specification names: the nearest integer, a tie
    going away from zero. *)
Definition round_half_away (q : Q) : Z :=
  if Qle_bool 0 q then Qfloor (q + (1 # 2))%Q else Qceiling (q - (1 # 2))%Q.

(** ** dayjs on UTC dates *)

Module Dayjs.

Definition Date := Z.

Definition MILLISECONDS_A_DAY : Z := 86400000.

Inductive Unit := day | week | month | year.

(** Days since the epoch of a civil date; the month is 0-based as in
    JavaScript. *)
Definition days_from_civil (y m0 d : Z) : Z :=
  let m := m0 + 1 in
  let y' := if m <=? 2 then y - 1 else y in
  let era := y' / 400 in
  let yoe := y' - era * 400 in
  let mp := if 2 <? m then m - 3 else m + 9 in
  let doy := (153 * mp + 2) / 5 + d - 1 in
  let doe := yoe * 365 + yoe / 4 - yoe / 100 + doy in
  era * 146097 + doe - 719468.

(** The civil date (year, 0-based month, day of month) of a day number. *)
Definition civil_from_days (z0 : Z) : Z * Z * Z :=
  let z := z0 + 719468 in
  let era := z / 146097 in
  let doe := z - era * 146097 in
  let yoe := (doe - doe / 1460 + doe / 36524 - doe / 146096) / 365 in
  let doy := doe - (365 * yoe + yoe / 4 - yoe / 100) in
  let mp := (5 * doy + 2) / 153 in
  let d := doy - (153 * mp + 2) / 5 + 1 in
  let m := if mp <? 10 then mp + 3 else mp - 9 in
  let y := yoe + era * 400 + (if m <=? 2 then 1 else 0) in
  (y, m - 1, d).

Definition is_leap (y : Z) : bool :=
  ((y mod 4 =? 0) && negb (y mod 100 =? 0)) || (y mod 400 =? 0).

Definition daysInMonth (y m0 : Z) : Z :=
  match m0 with
  | 1 => if is_leap y then 29 else 28
  | 3 | 5 | 8 | 10 => 30
  | _ => 31
  end.

(** [Date.UTC(y, m0, d)] plus a time of day. *)
Definition make (y m0 d ms : Z) : Date :=
  days_from_civil y m0 d * MILLISECONDS_A_DAY + ms.

(** [set(M, m)] / [set(Y, y)]: go to day 1, set the month (which may
    overflow into other years) or the year, then restore the day of
    month clamped to the length of the target month. *)
Definition set_month (t : Date) (y' m' : Z) : Date :=
  let days := t / MILLISECONDS_A_DAY in
  let ms := t mod MILLISECONDS_A_DAY in
  let '(_, _, d) := civil_from_days days in
  let y := y' + m' / 12 in
  let m := m' mod 12 in
  make y m (Z.min d (daysInMonth y m)) ms.

(** [dayjs(t).add(n, unit).toDate()]. *)
Definition add (t : Date) (n : Z) (u : Unit) : Date :=
  match u with
  | day => t + n * MILLISECONDS_A_DAY
  | week => t + 7 * n * MILLISECONDS_A_DAY
  | month =>
      let '(y, m, _) := civil_from_days (t / MILLISECONDS_A_DAY) in
      set_month t y (m + n)
  | year =>
      let '(y, m, _) := civil_from_days (t / MILLISECONDS_A_DAY) in
      set_month t (y + n) m
  end.

(** [dayjs(a).diff(b, 'day')]: whole days, truncated toward zero. *)
Definition diff_days (a b : Date) : Z := Z.quot (a - b) MILLISECONDS_A_DAY.

End Dayjs.

(** ** Thrown errors and asynchronous computations *)

(** The source throws plain [Error] objects that carry a message; the
    kind is the class that section 7 of the specification gives to the
    throw site. *)
Inductive ErrorKind := NotFound | InvalidState | InvalidInput | GatewayError.

Record Error := mkError { kind : ErrorKind; message : string }.

Inductive result (A : Type) : Type :=
| Ok (a : A)
| Throw (e : Error).

Arguments Ok {A} a.
Arguments Throw {A} e.

Definition is_ok {A} (r : result A) : bool :=
  match r with Ok _ => true | Throw _ => false end.

(** A computation over a store [S]: the store after a [Throw] is the
    store at the point of the throw. *)
Definition M (S A : Type) : Type := S -> result A * S.

Definition ret {S A} (a : A) : M S A := fun s => (Ok a, s).

Definition throw {S A} (e : Error) : M S A := fun s => (Throw e, s).

Definition bind {S A B} (m : M S A) (k : A -> M S B) : M S B :=
  fun s =>
    match m s with
    | (Ok a, s') => k a s'
    | (Throw e, s') => (Throw e, s')
    end.

Definition lift {S A} (r : result A) : M S A := fun s => (r, s).

Definition gets {S A} (f : S -> A) : M S A := fun s => (Ok (f s), s).

Definition modify {S} (f : S -> S) : M S unit := fun s => (Ok tt, f s).

(** [try { m } catch (error) { h error }]. *)
Definition try_catch {S A} (m : M S A) (h : Error -> M S A) : M S A :=
  fun s =>
    match m s with
    | (Ok a, s') => (Ok a, s')
    | (Throw e, s') => h e s'
    end.

Notation "'do' x <- c ; k" := (bind c (fun x => k))
  (at level 10, x name, c at level 100, k at level 200).
Notation "'exec' c ; k" := (bind c (fun _ => k))
  (at level 10, c at level 100, k at level 200).

(** [when c (throw e)]: the guard clauses of the services. *)
Definition throw_if {S} (c : bool) (e : Error) : M S unit :=
  if c then throw e else ret tt.

(** ** Domain types (types/billing.ts) *)

Inductive Currency := USD | EUR | GBP | CAD | AUD | JPY.

#[global] Instance Currency_eq_dec : EqDecision Currency.
Proof. solve_decision. Defined.

(** A metadata value ([Record<string, unknown>]). *)
Inductive MetaValue :=
| MStr (s : string)
| MNum (q : JS.number)
| MUndefined.

Definition Metadata := gmap string MetaValue.

Inductive PaymentStatus :=
| pending | processing | succeeded | failed | pay_canceled
| refunded | partially_refunded.

#[global] Instance PaymentStatus_eq_dec : EqDecision PaymentStatus.
Proof. solve_decision. Defined.

Inductive InvoiceStatus :=
| draft | open | paid | void | uncollectible | inv_past_due.

#[global] Instance InvoiceStatus_eq_dec : EqDecision InvoiceStatus.
Proof. solve_decision. Defined.

Inductive SubscriptionStatus :=
| active | past_due | unpaid | canceled | incomplete
| incomplete_expired | trialing | paused.

#[global] Instance SubscriptionStatus_eq_dec : EqDecision SubscriptionStatus.
Proof. solve_decision. Defined.

Inductive RefundReason :=
| duplicate | fraudulent | requested_by_customer | expired_uncaptured_charge.

Module Payment.
Record t := mk {
  id : string;
  customerId : string;
  invoiceId : option string;
  stripePaymentIntentId : option string;
  amount : JS.number;
  currency : Currency;
  status : PaymentStatus;
  refundedAmount : JS.number;
  createdAt : Dayjs.Date;
  updatedAt : Dayjs.Date
}.

Definition with_status (v : PaymentStatus) (p : t) : t :=
  mk (id p) (customerId p) (invoiceId p) (stripePaymentIntentId p) (amount p)
     (currency p) v (refundedAmount p) (createdAt p) (updatedAt p).

Definition with_refundedAmount (v : JS.number) (p : t) : t :=
  mk (id p) (customerId p) (invoiceId p) (stripePaymentIntentId p) (amount p)
     (currency p) (status p) v (createdAt p) (updatedAt p).

Definition with_updatedAt (v : Dayjs.Date) (p : t) : t :=
  mk (id p) (customerId p) (invoiceId p) (stripePaymentIntentId p) (amount p)
     (currency p) (status p) (refundedAmount p) (createdAt p) v.

Definition with_amount (v : JS.number) (p : t) : t :=
  mk (id p) (customerId p) (invoiceId p) (stripePaymentIntentId p) v
     (currency p) (status p) (refundedAmount p) (createdAt p) (updatedAt p).

Definition with_stripePaymentIntentId (v : option string) (p : t) : t :=
  mk (id p) (customerId p) (invoiceId p) v (amount p)
     (currency p) (status p) (refundedAmount p) (createdAt p) (updatedAt p).
End Payment.

Module Refund.
Record t := mk {
  id : string;
  paymentId : string;
  stripeRefundId : option string;
  amount : JS.number;
  currency : Currency;
  reason : RefundReason;
  status : PaymentStatus;
  createdAt : Dayjs.Date;
  updatedAt : Dayjs.Date
}.
End Refund.

Module InvoiceLineItem.
Record t := mk {
  id : string;
  invoiceId : string;
  description : string;
  quantity : JS.number;
  unitPrice : JS.number;
  amount : JS.number;
  taxRate : option JS.number;
  taxAmount : option JS.number
}.

Definition with_invoiceId (v : string) (l : t) : t :=
  mk (id l) v (description l) (quantity l) (unitPrice l) (amount l)
     (taxRate l) (taxAmount l).
End InvoiceLineItem.

Module Invoice.
Record t := mk {
  id : string;
  customerId : string;
  subscriptionId : option string;
  stripeInvoiceId : option string;
  number : string;
  status : InvoiceStatus;
  currency : Currency;
  subtotal : JS.number;
  tax : JS.number;
  total : JS.number;
  amountPaid : JS.number;
  amountDue : JS.number;
  lineItems : list InvoiceLineItem.t;
  dueDate : Dayjs.Date;
  paidAt : option Dayjs.Date;
  createdAt : Dayjs.Date;
  updatedAt : Dayjs.Date
}.

(** The fields a payment writes. *)
Definition with_payment (paid due : JS.number) (st : InvoiceStatus)
    (at_ : option Dayjs.Date) (now : Dayjs.Date) (i : t) : t :=
  mk (id i) (customerId i) (subscriptionId i) (stripeInvoiceId i) (number i)
     st (currency i) (subtotal i) (tax i) (total i) paid due (lineItems i)
     (dueDate i) at_ (createdAt i) now.

(** The fields a change of the line items writes. *)
Definition with_lineItems (items : list InvoiceLineItem.t)
    (sub tx tot due : JS.number) (now : Dayjs.Date) (i : t) : t :=
  mk (id i) (customerId i) (subscriptionId i) (stripeInvoiceId i) (number i)
     (status i) (currency i) sub tx tot (amountPaid i) due items
     (dueDate i) (paidAt i) (createdAt i) now.

(** The fields a change of status writes. *)
Definition with_status (st : InvoiceStatus) (now : Dayjs.Date) (i : t) : t :=
  mk (id i) (customerId i) (subscriptionId i) (stripeInvoiceId i) (number i)
     st (currency i) (subtotal i) (tax i) (total i) (amountPaid i)
     (amountDue i) (lineItems i) (dueDate i) (paidAt i) (createdAt i) now.

Definition with_dueDate (d : Dayjs.Date) (now : Dayjs.Date) (i : t) : t :=
  mk (id i) (customerId i) (subscriptionId i) (stripeInvoiceId i) (number i)
     (status i) (currency i) (subtotal i) (tax i) (total i) (amountPaid i)
     (amountDue i) (lineItems i) d (paidAt i) (createdAt i) now.

(** [update(id, { lineItems })]. *)
Definition with_lineItems_only (items : list InvoiceLineItem.t) (i : t) : t :=
  mk (id i) (customerId i) (subscriptionId i) (stripeInvoiceId i) (number i)
     (status i) (currency i) (subtotal i) (tax i) (total i) (amountPaid i)
     (amountDue i) items (dueDate i) (paidAt i) (createdAt i) (updatedAt i).
End Invoice.

Module Plan.
Record t := mk {
  id : string;
  name : string;
  stripePriceId : option string;
  amount : JS.number;
  currency : Currency;
  interval : Dayjs.Unit;
  intervalCount : Z;
  trialPeriodDays : option Z;
  active : bool
}.
End Plan.

(** The fields of a customer that the services read. *)
Module Customer.
Record t := mk {
  id : string;
  stripeCustomerId : option string
}.
End Customer.

Module Subscription.
Record t := mk {
  id : string;
  customerId : string;
  stripeSubscriptionId : option string;
  status : SubscriptionStatus;
  planId : string;
  quantity : JS.number;
  currency : Currency;
  currentPeriodStart : Dayjs.Date;
  currentPeriodEnd : Dayjs.Date;
  cancelAtPeriodEnd : bool;
  canceledAt : option Dayjs.Date;
  endedAt : option Dayjs.Date;
  trialStart : option Dayjs.Date;
  trialEnd : option Dayjs.Date;
  metadata : Metadata;
  createdAt : Dayjs.Date;
  updatedAt : Dayjs.Date
}.

Definition with_status (v : SubscriptionStatus) (s : t) : t :=
  mk (id s) (customerId s) (stripeSubscriptionId s) v (planId s) (quantity s)
     (currency s) (currentPeriodStart s) (currentPeriodEnd s)
     (cancelAtPeriodEnd s) (canceledAt s) (endedAt s) (trialStart s)
     (trialEnd s) (metadata s) (createdAt s) (updatedAt s).

Definition with_plan (pid : string) (c : Currency) (s : t) : t :=
  mk (id s) (customerId s) (stripeSubscriptionId s) (status s) pid (quantity s)
     c (currentPeriodStart s) (currentPeriodEnd s)
     (cancelAtPeriodEnd s) (canceledAt s) (endedAt s) (trialStart s)
     (trialEnd s) (metadata s) (createdAt s) (updatedAt s).

Definition with_planId (pid : string) (s : t) : t := with_plan pid (currency s) s.

Definition with_quantity (q : JS.number) (s : t) : t :=
  mk (id s) (customerId s) (stripeSubscriptionId s) (status s) (planId s) q
     (currency s) (currentPeriodStart s) (currentPeriodEnd s)
     (cancelAtPeriodEnd s) (canceledAt s) (endedAt s) (trialStart s)
     (trialEnd s) (metadata s) (createdAt s) (updatedAt s).

Definition with_period (start stop : Dayjs.Date) (s : t) : t :=
  mk (id s) (customerId s) (stripeSubscriptionId s) (status s) (planId s)
     (quantity s) (currency s) start stop
     (cancelAtPeriodEnd s) (canceledAt s) (endedAt s) (trialStart s)
     (trialEnd s) (metadata s) (createdAt s) (updatedAt s).

Definition with_cancel (flag : bool) (at_ : option Dayjs.Date) (s : t) : t :=
  mk (id s) (customerId s) (stripeSubscriptionId s) (status s) (planId s)
     (quantity s) (currency s) (currentPeriodStart s) (currentPeriodEnd s)
     flag at_ (endedAt s) (trialStart s)
     (trialEnd s) (metadata s) (createdAt s) (updatedAt s).

Definition with_metadata (m : Metadata) (s : t) : t :=
  mk (id s) (customerId s) (stripeSubscriptionId s) (status s) (planId s)
     (quantity s) (currency s) (currentPeriodStart s) (currentPeriodEnd s)
     (cancelAtPeriodEnd s) (canceledAt s) (endedAt s) (trialStart s)
     (trialEnd s) m (createdAt s) (updatedAt s).

Definition with_updatedAt (v : Dayjs.Date) (s : t) : t :=
  mk (id s) (customerId s) (stripeSubscriptionId s) (status s) (planId s)
     (quantity s) (currency s) (currentPeriodStart s) (currentPeriodEnd s)
     (cancelAtPeriodEnd s) (canceledAt s) (endedAt s) (trialStart s)
     (trialEnd s) (metadata s) (createdAt s) v.

Definition with_endedAt (v : option Dayjs.Date) (s : t) : t :=
  mk (id s) (customerId s) (stripeSubscriptionId s) (status s) (planId s)
     (quantity s) (currency s) (currentPeriodStart s) (currentPeriodEnd s)
     (cancelAtPeriodEnd s) (canceledAt s) v (trialStart s)
     (trialEnd s) (metadata s) (createdAt s) (updatedAt s).

Definition with_trialEnd (v : option Dayjs.Date) (s : t) : t :=
  mk (id s) (customerId s) (stripeSubscriptionId s) (status s) (planId s)
     (quantity s) (currency s) (currentPeriodStart s) (currentPeriodEnd s)
     (cancelAtPeriodEnd s) (canceledAt s) (endedAt s) (trialStart s)
     v (metadata s) (createdAt s) (updatedAt s).
End Subscription.

(** ** The store and the repositories *)

Record Db := mkDb {
  payments : gmap string Payment.t;
  refunds : list Refund.t;
  invoices : gmap string Invoice.t;
  subscriptions : gmap string Subscription.t;
  plans : gmap string Plan.t
}.

Definition set_payments (f : gmap string Payment.t -> gmap string Payment.t)
    (db : Db) : Db :=
  mkDb (f (payments db)) (refunds db) (invoices db) (subscriptions db) (plans db).

Definition set_refunds (f : list Refund.t -> list Refund.t) (db : Db) : Db :=
  mkDb (payments db) (f (refunds db)) (invoices db) (subscriptions db) (plans db).

Definition set_invoices (f : gmap string Invoice.t -> gmap string Invoice.t)
    (db : Db) : Db :=
  mkDb (payments db) (refunds db) (f (invoices db)) (subscriptions db) (plans db).

Definition set_subscriptions
    (f : gmap string Subscription.t -> gmap string Subscription.t)
    (db : Db) : Db :=
  mkDb (payments db) (refunds db) (invoices db) (f (subscriptions db)) (plans db).

(** [update(id, fields)] of every repository: merge the fields into the
    row when it exists and return the new row, else return null. *)
Definition update_row {A} (get : Db -> gmap string A)
    (set : (gmap string A -> gmap string A) -> Db -> Db)
    (id : string) (patch : A -> A) : M Db (option A) :=
  fun db =>
    match get db !! id with
    | Some row => (Ok (Some (patch row)), set (insert id (patch row)) db)
    | None => (Ok None, db)
    end.

Module PaymentRepository.
Definition findById (id : string) : M Db (option Payment.t) :=
  gets (fun db => payments db !! id).

Definition findByStripePaymentIntentId (pi : string) : M Db (option Payment.t) :=
  gets (fun db =>
    snd <$> List.find
      (fun kv => bool_decide (Payment.stripePaymentIntentId (snd kv) = Some pi))
      (map_to_list (payments db))).

Definition update (id : string) (patch : Payment.t -> Payment.t)
  : M Db (option Payment.t) := update_row payments set_payments id patch.

Definition createRefund (r : Refund.t) : M Db unit :=
  modify (set_refunds (fun rs => rs ++ [r])).

Definition findByCustomerId (cid : string) : M Db (list Payment.t) :=
  gets (fun db =>
    List.filter (fun p => String.eqb (Payment.customerId p) cid)
      (snd <$> map_to_list (payments db))).

Definition create (p : Payment.t) : M Db Payment.t :=
  fun db => (Ok p, set_payments (insert (Payment.id p) p) db).
End PaymentRepository.

Module InvoiceRepository.
Definition findById (id : string) : M Db (option Invoice.t) :=
  gets (fun db => invoices db !! id).

Definition update (id : string) (patch : Invoice.t -> Invoice.t)
  : M Db (option Invoice.t) := update_row invoices set_invoices id patch.

Definition create (i : Invoice.t) : M Db Invoice.t :=
  fun db => (Ok i, set_invoices (insert (Invoice.id i) i) db).

Definition findByStripeId (sid : string) : M Db (option Invoice.t) :=
  gets (fun db =>
    snd <$> List.find
      (fun kv => bool_decide (Invoice.stripeInvoiceId (snd kv) = Some sid))
      (map_to_list (invoices db))).
End InvoiceRepository.

Module SubscriptionRepository.
Definition findById (id : string) : M Db (option Subscription.t) :=
  gets (fun db => subscriptions db !! id).

Definition findByStatus (st : SubscriptionStatus) : M Db (list Subscription.t) :=
  gets (fun db =>
    List.filter (fun s => bool_decide (Subscription.status s = st))
      (snd <$> map_to_list (subscriptions db))).

Definition update (id : string) (patch : Subscription.t -> Subscription.t)
  : M Db (option Subscription.t) :=
  update_row subscriptions set_subscriptions id patch.

Definition create (s : Subscription.t) : M Db Subscription.t :=
  fun db => (Ok s, set_subscriptions (insert (Subscription.id s) s) db).

Definition findByStripeId (sid : string) : M Db (option Subscription.t) :=
  gets (fun db =>
    snd <$> List.find
      (fun kv => bool_decide (Subscription.stripeSubscriptionId (snd kv) = Some sid))
      (map_to_list (subscriptions db))).
End SubscriptionRepository.

Module PlanRepository.
Definition findById (id : string) : M Db (option Plan.t) :=
  gets (fun db => plans db !! id).
End PlanRepository.

(** ** The payment gateway *)

(** The calls the modelled operations make.  A call returns or throws;
    request fields that no modelled operation reads back are elided. *)
Module Stripe.
Record Client := mk {
  createRefund : string -> JS.number -> RefundReason -> result string;
  getSubscription : string -> result (list string);
  updateSubscription : string -> result unit;
  resumeSubscription : string -> result unit
}.

(** A verified webhook event: its type and the id of [data.object]. *)
Record Event := mkEvent {
  event_type : string;
  object_id : string
}.

(** The whole client: the calls above and those of the other
    operations.  [confirmPaymentIntent] and [createPaymentIntent]
    return the status of the intent (the latter with its id),
    [createInvoice] returns the id of the gateway invoice,
    [constructWebhookEvent] throws on a bad signature. *)
Record Api := mkApi {
  client : Client;
  createPaymentIntent : JS.number -> result (string * string);
  createInvoice : string -> result string;
  createInvoiceItem : string -> JS.number -> result unit;
  confirmPaymentIntent : string -> result string;
  capturePaymentIntent : string -> option JS.number -> result unit;
  cancelPaymentIntent : string -> result unit;
  finalizeInvoice : string -> result unit;
  sendInvoice : string -> result unit;
  payInvoice : string -> result unit;
  voidInvoice : string -> result unit;
  cancelSubscription : string -> bool -> result unit;
  constructWebhookEvent : string -> string -> result Event
}.
End Stripe.

(** A string is truthy when it is not empty. *)
Definition truthy_string (s : string) : bool := negb (String.eqb s "").

(** ** PaymentService *)

Module PaymentService.

Record RefundInput := mkRefundInput {
  paymentId : string;
  amount : option JS.number;
  reason : RefundReason
}.

Definition mapStripePaymentStatus (stripeStatus : string) : PaymentStatus :=
  match stripeStatus with
  | "succeeded" => succeeded
  | "processing" => processing
  | "requires_payment_method"
  | "requires_confirmation"
  | "requires_action" => pending
  | "canceled" => pay_canceled
  | _ => failed
  end%string.

Section Service.
Variable stripeClient : Stripe.Client.
Variable now : Dayjs.Date.
Variable uuidv4 : string.

Definition updateInvoicePayment (invoiceId : string) (amount : JS.number) : M Db unit :=
  do invoice <- InvoiceRepository.findById invoiceId;
  match invoice with
  | None => ret tt
  | Some invoice =>
      let newAmountPaid := (Invoice.amountPaid invoice + amount)%float in
      let newAmountDue := JS.Math_max 0 (Invoice.total invoice - newAmountPaid)%float in
      let newStatus :=
        if JS.strict_eq newAmountDue 0 then paid else Invoice.status invoice in
      exec InvoiceRepository.update invoiceId
        (Invoice.with_payment newAmountPaid newAmountDue newStatus
           (if bool_decide (newStatus = paid) then Some now else None) now);
      ret tt
  end.

Definition refundPayment (input : RefundInput) : M Db Refund.t :=
  do payment <- PaymentRepository.findById (paymentId input);
  match payment with
  | None => throw (mkError NotFound "Payment not found")
  | Some payment =>
      exec throw_if (negb (bool_decide (Payment.status payment = succeeded)))
        (mkError InvalidState "Can only refund succeeded payments");
      let available := (Payment.amount payment - Payment.refundedAmount payment)%float in
      let refundAmount := JS.opt_or_else (amount input) available in
      exec throw_if (JS.gt refundAmount available)
        (mkError InvalidInput "Refund amount exceeds available amount");
      do stripeRefundId <-
        match Payment.stripePaymentIntentId payment with
        | Some pi =>
            if truthy_string pi then
              do r <- lift (Stripe.createRefund stripeClient pi
                              (JS.Math_round (refundAmount * 100)) (reason input));
              ret (Some r)
            else ret None
        | None => ret None
        end;
      let refund :=
        Refund.mk uuidv4 (paymentId input) stripeRefundId refundAmount
          (Payment.currency payment) (reason input) succeeded now now in
      exec PaymentRepository.createRefund refund;
      let newRefundedAmount := (Payment.refundedAmount payment + refundAmount)%float in
      let newStatus :=
        if JS.ge newRefundedAmount (Payment.amount payment)
        then refunded else partially_refunded in
      exec PaymentRepository.update (paymentId input)
        (fun p => Payment.with_updatedAt now
                    (Payment.with_status newStatus
                       (Payment.with_refundedAmount newRefundedAmount p)));
      ret refund
  end.

Definition processWebhookPaymentUpdate (stripePaymentIntentId status : string)
  : M Db unit :=
  do payment <- PaymentRepository.findByStripePaymentIntentId stripePaymentIntentId;
  match payment with
  | None => ret tt
  | Some payment =>
      let newStatus := mapStripePaymentStatus status in
      exec PaymentRepository.update (Payment.id payment)
        (fun p => Payment.with_updatedAt now (Payment.with_status newStatus p));
      match Payment.invoiceId payment with
      | Some invoiceId =>
          if bool_decide (newStatus = succeeded) && truthy_string invoiceId
          then updateInvoicePayment invoiceId (Payment.amount payment)
          else ret tt
      | None => ret tt
      end
  end.

End Service.

(** [getPaymentSummary]: the totals of a customer's payments. *)
Record PaymentSummary := mkSummary {
  totalPaid : JS.number;
  totalRefunded : JS.number;
  pendingAmount : JS.number;
  failedAmount : JS.number
}.

(** The reducer of [getPaymentSummary]. *)
Definition summarize (acc : PaymentSummary) (payment : Payment.t)
  : PaymentSummary :=
  match Payment.status payment with
  | succeeded | partially_refunded =>
      mkSummary
        (totalPaid acc + (Payment.amount payment - Payment.refundedAmount payment))%float
        (totalRefunded acc + Payment.refundedAmount payment)%float
        (pendingAmount acc) (failedAmount acc)
  | refunded =>
      mkSummary (totalPaid acc) (totalRefunded acc + Payment.amount payment)%float
        (pendingAmount acc) (failedAmount acc)
  | pending | processing =>
      mkSummary (totalPaid acc) (totalRefunded acc)
        (pendingAmount acc + Payment.amount payment)%float (failedAmount acc)
  | failed =>
      mkSummary (totalPaid acc) (totalRefunded acc) (pendingAmount acc)
        (failedAmount acc + Payment.amount payment)%float
  | pay_canceled => acc
  end.

(** The summary and its currency, [payments[0]?.currency || 'USD']. *)
Definition getPaymentSummary (customerId : string)
  : M Db (PaymentSummary * Currency) :=
  do payments <- PaymentRepository.findByCustomerId customerId;
  ret (fold_left summarize payments (mkSummary 0 0 0 0),
       from_option Payment.currency USD (head payments)).

Section Lifecycle.
Variable stripeClient : Stripe.Api.
Variable now : Dayjs.Date.

Definition confirmPayment (paymentId : string) : M Db (option Payment.t) :=
  do payment <- PaymentRepository.findById paymentId;
  match payment with
  | None => throw (mkError NotFound "Payment not found")
  | Some payment =>
      exec throw_if
        (negb (bool_decide (Payment.status payment = pending))
         && negb (bool_decide (Payment.status payment = processing)))
        (mkError InvalidState "Payment cannot be confirmed in its current state");
      match Payment.stripePaymentIntentId payment with
      | Some pi =>
          if truthy_string pi then
            do intentStatus <- lift (Stripe.confirmPaymentIntent stripeClient pi);
            let status := mapStripePaymentStatus intentStatus in
            do updated <- PaymentRepository.update paymentId
              (fun p => Payment.with_updatedAt now (Payment.with_status status p));
            exec match Payment.invoiceId payment with
                 | Some invoiceId =>
                     if bool_decide (status = succeeded) && truthy_string invoiceId
                     then updateInvoicePayment now invoiceId (Payment.amount payment)
                     else ret tt
                 | None => ret tt
                 end;
            ret updated
          else throw (mkError InvalidState
                        "No Stripe payment intent associated with this payment")
      | None => throw (mkError InvalidState
                         "No Stripe payment intent associated with this payment")
      end
  end.

(** [amount] is truthy when it is given and not zero. *)
Definition capturePayment (paymentId : string) (amount : option JS.number)
  : M Db (option Payment.t) :=
  do payment <- PaymentRepository.findById paymentId;
  match payment with
  | None => throw (mkError NotFound "Payment not found")
  | Some payment =>
      let given :=
        match amount with
        | Some a => if JS.truthy a then Some a else None
        | None => None
        end in
      match Payment.stripePaymentIntentId payment with
      | Some pi =>
          if truthy_string pi then
            let amountToCapture :=
              (fun a => JS.Math_round (a * 100)) <$> given in
            exec lift (Stripe.capturePaymentIntent stripeClient pi amountToCapture);
            let capturedAmount := default (Payment.amount payment) given in
            do updated <- PaymentRepository.update paymentId
              (fun p => Payment.with_updatedAt now
                          (Payment.with_amount capturedAmount
                             (Payment.with_status succeeded p)));
            exec match Payment.invoiceId payment with
                 | Some invoiceId =>
                     if truthy_string invoiceId
                     then updateInvoicePayment now invoiceId capturedAmount
                     else ret tt
                 | None => ret tt
                 end;
            ret updated
          else throw (mkError InvalidState
                        "No Stripe payment intent associated with this payment")
      | None => throw (mkError InvalidState
                         "No Stripe payment intent associated with this payment")
      end
  end.

Definition cancelPayment (paymentId : string) : M Db (option Payment.t) :=
  do payment <- PaymentRepository.findById paymentId;
  match payment with
  | None => throw (mkError NotFound "Payment not found")
  | Some payment =>
      exec throw_if (bool_decide (Payment.status payment = succeeded))
        (mkError InvalidState
           "Cannot cancel a succeeded payment, use refund instead");
      exec match Payment.stripePaymentIntentId payment with
           | Some pi =>
               if truthy_string pi
               then lift (Stripe.cancelPaymentIntent stripeClient pi)
               else ret tt
           | None => ret tt
           end;
      PaymentRepository.update paymentId
        (fun p => Payment.with_updatedAt now (Payment.with_status pay_canceled p))
  end.

End Lifecycle.

Record CreatePaymentInput := mkCreatePayment {
  cp_customerId : string;
  cp_invoiceId : option string;
  cp_amount : JS.number;
  cp_currency : Currency
}.

Section Create.
Variable stripeClient : Stripe.Api.
Variable customers : gmap string Customer.t.
Variable now : Dayjs.Date.
Variable uuidv4 : string.

Definition createPayment (input : CreatePaymentInput) : M Db Payment.t :=
  match customers !! cp_customerId input with
  | None => throw (mkError NotFound "Customer not found")
  | Some customer =>
      do intent <-
        match Customer.stripeCustomerId customer with
        | Some cus =>
            if truthy_string cus then
              do paymentIntent <-
                lift (Stripe.createPaymentIntent stripeClient
                        (JS.Math_round (cp_amount input * 100)));
              ret (Some (fst paymentIntent),
                   mapStripePaymentStatus (snd paymentIntent))
            else ret (None, pending)
        | None => ret (None, pending)
        end;
      let status := snd intent in
      do created <- PaymentRepository.create
        (Payment.mk uuidv4 (cp_customerId input) (cp_invoiceId input)
           (fst intent) (cp_amount input) (cp_currency input) status 0 now now);
      exec match cp_invoiceId input with
           | Some invoiceId =>
               if truthy_string invoiceId && bool_decide (status = succeeded)
               then updateInvoicePayment now invoiceId (cp_amount input)
               else ret tt
           | None => ret tt
           end;
      ret created
  end.

End Create.

Section Retry.
Variable stripeClient : Stripe.Api.
Variable customers : gmap string Customer.t.
Variable now : Dayjs.Date.

Definition retryFailedPayment (paymentId : string) : M Db (option Payment.t) :=
  do payment <- PaymentRepository.findById paymentId;
  match payment with
  | None => throw (mkError NotFound "Payment not found")
  | Some payment =>
      exec throw_if (negb (bool_decide (Payment.status payment = failed)))
        (mkError InvalidState "Can only retry failed payments");
      exec throw_if
        (negb (from_option
                 (fun c => from_option truthy_string false
                             (Customer.stripeCustomerId c))
                 false (customers !! Payment.customerId payment)))
        (mkError NotFound "Customer not found or no Stripe customer ID");
      do newPaymentIntent <-
        lift (Stripe.createPaymentIntent stripeClient
                (JS.Math_round (Payment.amount payment * 100)));
      PaymentRepository.update paymentId
        (fun p =>
           Payment.with_updatedAt now
             (Payment.with_status (mapStripePaymentStatus (snd newPaymentIntent))
                (Payment.with_stripePaymentIntentId
                   (Some (fst newPaymentIntent)) p)))
  end.

End Retry.
End PaymentService.

(** ** InvoiceService *)

Module InvoiceService.

Record CreateLineItemInput := mkLineItemInput {
  description : string;
  quantity : JS.number;
  unitPrice : JS.number;
  taxRate : option JS.number
}.

(** [items.reduce((sum, item) => sum + item.amount, 0)]. *)
Definition sum_amounts (items : list InvoiceLineItem.t) : JS.number :=
  fold_left (fun sum item => (sum + InvoiceLineItem.amount item)%float) items 0%float.

(** [items.reduce((sum, item) => sum + (item.taxAmount || 0), 0)]. *)
Definition sum_taxes (items : list InvoiceLineItem.t) : JS.number :=
  fold_left
    (fun sum item =>
       (sum + JS.opt_or_else (InvoiceLineItem.taxAmount item) 0)%float)
    items 0%float.

Section Service.
Variable now : Dayjs.Date.
Variable uuidv4 : string.

Definition addLineItem (invoiceId : string) (input : CreateLineItemInput)
  : M Db (option Invoice.t) :=
  do invoice <- InvoiceRepository.findById invoiceId;
  match invoice with
  | None => throw (mkError NotFound "Invoice not found")
  | Some invoice =>
      exec throw_if (negb (bool_decide (Invoice.status invoice = draft)))
        (mkError InvalidState "Can only add line items to draft invoices");
      let amount := (quantity input * unitPrice input)%float in
      let taxAmount :=
        match taxRate input with
        | Some r => if JS.truthy r then (amount * (r / 100))%float else 0%float
        | None => 0%float
        end in
      let lineItem :=
        InvoiceLineItem.mk uuidv4 invoiceId (description input) (quantity input)
          (unitPrice input) amount (taxRate input) (Some taxAmount) in
      let newLineItems := Invoice.lineItems invoice ++ [lineItem] in
      let subtotal := sum_amounts newLineItems in
      let tax := sum_taxes newLineItems in
      let total := (subtotal + tax)%float in
      InvoiceRepository.update invoiceId
        (Invoice.with_lineItems newLineItems subtotal tax total
           (total - Invoice.amountPaid invoice)%float now)
  end.

Definition removeLineItem (invoiceId lineItemId : string)
  : M Db (option Invoice.t) :=
  do invoice <- InvoiceRepository.findById invoiceId;
  match invoice with
  | None => throw (mkError NotFound "Invoice not found")
  | Some invoice =>
      exec throw_if (negb (bool_decide (Invoice.status invoice = draft)))
        (mkError InvalidState "Can only remove line items from draft invoices");
      let newLineItems :=
        List.filter
          (fun item => negb (String.eqb (InvoiceLineItem.id item) lineItemId))
          (Invoice.lineItems invoice) in
      let subtotal := sum_amounts newLineItems in
      let tax := sum_taxes newLineItems in
      let total := (subtotal + tax)%float in
      InvoiceRepository.update invoiceId
        (Invoice.with_lineItems newLineItems subtotal tax total
           (total - Invoice.amountPaid invoice)%float now)
  end.

End Service.

Section Lifecycle.
Variable stripeClient : Stripe.Api.
Variable now : Dayjs.Date.

(** [if (invoice.stripeInvoiceId) { await call(id) }]. *)
Definition when_linked (i : Invoice.t) (call : string -> result unit)
  : M Db unit :=
  match Invoice.stripeInvoiceId i with
  | Some sid => if truthy_string sid then lift (call sid) else ret tt
  | None => ret tt
  end.

(** [updateInvoice] with the [dueDate] of the input (the invoice
    metadata is not part of the model). *)
Definition updateInvoice (invoiceId : string) (dueDate : option Dayjs.Date)
  : M Db (option Invoice.t) :=
  do invoice <- InvoiceRepository.findById invoiceId;
  match invoice with
  | None => throw (mkError NotFound "Invoice not found")
  | Some invoice =>
      exec throw_if (negb (bool_decide (Invoice.status invoice = draft)))
        (mkError InvalidState "Can only update draft invoices");
      InvoiceRepository.update invoiceId
        (fun i => Invoice.with_dueDate (default (Invoice.dueDate i) dueDate) now i)
  end.

Definition finalizeInvoice (invoiceId : string) : M Db (option Invoice.t) :=
  do invoice <- InvoiceRepository.findById invoiceId;
  match invoice with
  | None => throw (mkError NotFound "Invoice not found")
  | Some invoice =>
      exec throw_if (negb (bool_decide (Invoice.status invoice = draft)))
        (mkError InvalidState "Can only finalize draft invoices");
      exec when_linked invoice (Stripe.finalizeInvoice stripeClient);
      InvoiceRepository.update invoiceId (Invoice.with_status open now)
  end.

Definition sendInvoice (invoiceId : string) : M Db (option Invoice.t) :=
  do invoice <- InvoiceRepository.findById invoiceId;
  match invoice with
  | None => throw (mkError NotFound "Invoice not found")
  | Some invoice =>
      exec (if bool_decide (Invoice.status invoice = draft)
            then exec finalizeInvoice invoiceId; ret tt
            else ret tt);
      exec when_linked invoice (Stripe.sendInvoice stripeClient);
      InvoiceRepository.findById invoiceId
  end.

Definition payInvoice (invoiceId : string) : M Db (option Invoice.t) :=
  do invoice <- InvoiceRepository.findById invoiceId;
  match invoice with
  | None => throw (mkError NotFound "Invoice not found")
  | Some invoice =>
      exec throw_if (bool_decide (Invoice.status invoice = paid))
        (mkError InvalidState "Invoice is already paid");
      exec when_linked invoice (Stripe.payInvoice stripeClient);
      InvoiceRepository.update invoiceId
        (Invoice.with_payment (Invoice.total invoice) 0 paid (Some now) now)
  end.

(** [voidInvoice]; the [voidedAt] stamp is not part of the model. *)
Definition voidInvoice (invoiceId : string) : M Db (option Invoice.t) :=
  do invoice <- InvoiceRepository.findById invoiceId;
  match invoice with
  | None => throw (mkError NotFound "Invoice not found")
  | Some invoice =>
      exec throw_if (bool_decide (Invoice.status invoice = paid))
        (mkError InvalidState "Cannot void a paid invoice");
      exec when_linked invoice (Stripe.voidInvoice stripeClient);
      InvoiceRepository.update invoiceId (Invoice.with_status void now)
  end.

Definition markUncollectible (invoiceId : string) : M Db (option Invoice.t) :=
  do invoice <- InvoiceRepository.findById invoiceId;
  match invoice with
  | None => throw (mkError NotFound "Invoice not found")
  | Some invoice =>
      InvoiceRepository.update invoiceId (Invoice.with_status uncollectible now)
  end.

End Lifecycle.

Record CreateInvoiceInput := mkCreateInvoice {
  ci_customerId : string;
  ci_subscriptionId : option string;
  ci_currency : option Currency;
  ci_dueDate : option Dayjs.Date;
  ci_lineItems : list CreateLineItemInput
}.

(** The character [0]. *)
Definition zero_digit : Ascii.ascii := Ascii.ascii_of_nat 48.

(** [s.padStart(n, c)]. *)
Definition padStart (n : nat) (c : Ascii.ascii) (s : string) : string :=
  String.string_of_list_ascii (repeat c (n - String.length s)) +:+ s.

(** [dayjs(d).format('YYYYMM')]. *)
Definition format_YYYYMM (d : Dayjs.Date) : string :=
  let '(y, m, _) := Dayjs.civil_from_days (d / Dayjs.MILLISECONDS_A_DAY) in
  padStart 4 zero_digit (pretty y) +:+ padStart 2 zero_digit (pretty (m + 1)).

Section Create.
Variable stripeClient : Stripe.Api.
Variable customers : gmap string Customer.t.
(** The repository count of the invoices of a month. *)
Variable countByMonth : Dayjs.Date -> Db -> Z.
Variable now : Dayjs.Date.
(** The successive results of [uuidv4()]. *)
Variable uuid : nat -> string.

Definition generateInvoiceNumber : M Db string :=
  do count <- gets (countByMonth now);
  ret ("INV-" +:+ format_YYYYMM now +:+ "-" +:+ padStart 5 zero_digit (pretty (count + 1))).

(** The line item built from the [index]-th input. *)
Definition line_item_of (index : nat) (item : CreateLineItemInput)
  : InvoiceLineItem.t :=
  let amount := (quantity item * unitPrice item)%float in
  let taxAmount :=
    match taxRate item with
    | Some r => if JS.truthy r then (amount * (r / 100))%float else 0%float
    | None => 0%float
    end in
  InvoiceLineItem.mk (uuid index) "" (description item) (quantity item)
    (unitPrice item) amount (taxRate item) (Some taxAmount).

(** [for (const item of input.lineItems) await createInvoiceItem(...)]. *)
Fixpoint push_items (stripeInvoice : string) (items : list CreateLineItemInput)
  : M Db unit :=
  match items with
  | [] => ret tt
  | item :: rest =>
      exec lift (Stripe.createInvoiceItem stripeClient stripeInvoice
                   (JS.Math_round (quantity item * unitPrice item * 100)));
      push_items stripeInvoice rest
  end.

Definition createInvoice (input : CreateInvoiceInput) : M Db Invoice.t :=
  match customers !! ci_customerId input with
  | None => throw (mkError NotFound "Customer not found")
  | Some customer =>
      let lineItems := imap line_item_of (ci_lineItems input) in
      let subtotal := sum_amounts lineItems in
      let tax := sum_taxes lineItems in
      let total := (subtotal + tax)%float in
      do stripeInvoiceId <-
        match Customer.stripeCustomerId customer with
        | Some cus =>
            if truthy_string cus then
              do stripeInvoice <- lift (Stripe.createInvoice stripeClient cus);
              exec push_items stripeInvoice (ci_lineItems input);
              ret (Some stripeInvoice)
            else ret None
        | None => ret None
        end;
      do invoiceNumber <- generateInvoiceNumber;
      do created <- InvoiceRepository.create
        (Invoice.mk (uuid (length (ci_lineItems input))) (ci_customerId input)
           (ci_subscriptionId input) stripeInvoiceId invoiceNumber draft
           (default USD (ci_currency input)) subtotal tax total 0 total
           (InvoiceLineItem.with_invoiceId "" <$> lineItems)
           (default (Dayjs.add now 30 Dayjs.day) (ci_dueDate input))
           None now now);
      let items :=
        InvoiceLineItem.with_invoiceId (Invoice.id created)
          <$> Invoice.lineItems created in
      exec InvoiceRepository.update (Invoice.id created)
        (Invoice.with_lineItems_only items);
      ret (Invoice.with_lineItems_only items created)
  end.

(** [duplicateInvoice]: a new invoice from the lines of an old one. *)
Definition duplicateInvoice (invoiceId : string) : M Db Invoice.t :=
  do invoice <- InvoiceRepository.findById invoiceId;
  match invoice with
  | None => throw (mkError NotFound "Invoice not found")
  | Some invoice =>
      createInvoice
        (mkCreateInvoice (Invoice.customerId invoice)
           (Invoice.subscriptionId invoice) (Some (Invoice.currency invoice))
           (Some (Dayjs.add now 30 Dayjs.day))
           ((fun item =>
               mkLineItemInput (InvoiceLineItem.description item)
                 (InvoiceLineItem.quantity item) (InvoiceLineItem.unitPrice item)
                 (InvoiceLineItem.taxRate item))
              <$> Invoice.lineItems invoice))
  end.

End Create.

Section Overdue.
(** The repository query for the overdue invoices. *)
Variable findOverdueUnpaginated : Db -> list Invoice.t.
Variable now : Dayjs.Date.

(** The body of the loop of [processOverdueInvoices]; [acc] is
    [(processed, failed)]. *)
Definition mark_past_due (acc : Z * Z) (invoice : Invoice.t) : M Db (Z * Z) :=
  try_catch
    (exec InvoiceRepository.update (Invoice.id invoice)
       (Invoice.with_status inv_past_due now);
     ret (fst acc + 1, snd acc))
    (fun error => ret (fst acc, snd acc + 1)).

Fixpoint mark_all_past_due (acc : Z * Z) (invoices : list Invoice.t)
  : M Db (Z * Z) :=
  match invoices with
  | [] => ret acc
  | i :: rest =>
      do acc' <- mark_past_due acc i;
      mark_all_past_due acc' rest
  end.

Definition processOverdueInvoices : M Db (Z * Z) :=
  do overdueInvoices <- gets findOverdueUnpaginated;
  mark_all_past_due (0, 0) overdueInvoices.

End Overdue.
End InvoiceService.

(** ** SubscriptionService *)

Module SubscriptionService.

Inductive PauseBehavior := keep_as_draft | mark_uncollectible | pause_void.

Definition PauseBehavior_name (b : PauseBehavior) : string :=
  match b with
  | keep_as_draft => "keep_as_draft"
  | mark_uncollectible => "mark_uncollectible"
  | pause_void => "void"
  end.

(** The fields of [UpdateSubscriptionInput] that reach the local row;
    [trialEnd] and [pauseCollection] only shape the gateway request. *)
Record UpdateSubscriptionInput := mkUpdateInput {
  planId : option string;
  quantity : option JS.number;
  cancelAtPeriodEnd : option bool;
  metadata : option Metadata
}.

(** [date.toISOString()]; the text is the decimal time value. *)
Definition toISOString (d : Dayjs.Date) : string := pretty d.

Definition calculatePeriodEnd (start : Dayjs.Date) (interval : Dayjs.Unit)
    (intervalCount : Z) : Dayjs.Date :=
  Dayjs.add start intervalCount interval.

Section Service.
Variable stripeClient : Stripe.Client.
Variable now : Dayjs.Date.

(** [if (subscription.stripeSubscriptionId) { await call(id) }]. *)
Definition when_linked (s : Subscription.t) (call : string -> M Db unit)
  : M Db unit :=
  match Subscription.stripeSubscriptionId s with
  | Some sid => if truthy_string sid then call sid else ret tt
  | None => ret tt
  end.

Definition updateSubscription (subscriptionId : string)
    (input : UpdateSubscriptionInput) : M Db (option Subscription.t) :=
  do subscription <- SubscriptionRepository.findById subscriptionId;
  match subscription with
  | None => throw (mkError NotFound "Subscription not found")
  | Some subscription =>
      exec when_linked subscription (fun sid =>
        exec match planId input with
             | Some pid =>
                 if truthy_string pid then
                   do plan <- PlanRepository.findById pid;
                   match plan with
                   | Some plan =>
                       throw_if
                         (negb (from_option truthy_string false
                                  (Plan.stripePriceId plan)))
                         (mkError NotFound "Plan not found or has no Stripe price")
                   | None =>
                       throw (mkError NotFound "Plan not found or has no Stripe price")
                   end
                 else ret tt
             | None => ret tt
             end;
        lift (Stripe.updateSubscription stripeClient sid));
      SubscriptionRepository.update subscriptionId
        (fun s =>
           Subscription.with_updatedAt now
             (Subscription.with_metadata
                (default ∅ (metadata input) ∪ Subscription.metadata subscription)
                (Subscription.with_cancel
                   (default (Subscription.cancelAtPeriodEnd subscription)
                      (cancelAtPeriodEnd input))
                   (Subscription.canceledAt s)
                   (Subscription.with_quantity
                      (default (Subscription.quantity subscription) (quantity input))
                      (Subscription.with_planId
                         (match planId input with
                          | Some pid =>
                              if truthy_string pid then pid
                              else Subscription.planId subscription
                          | None => Subscription.planId subscription
                          end) s)))))
  end.

Definition resumeSubscription (subscriptionId : string)
  : M Db (option Subscription.t) :=
  do subscription <- SubscriptionRepository.findById subscriptionId;
  match subscription with
  | None => throw (mkError NotFound "Subscription not found")
  | Some subscription =>
      exec throw_if (bool_decide (Subscription.status subscription = canceled))
        (mkError InvalidState "Cannot resume a canceled subscription");
      exec when_linked subscription (fun sid =>
        lift (Stripe.updateSubscription stripeClient sid));
      SubscriptionRepository.update subscriptionId
        (fun s => Subscription.with_updatedAt now
                    (Subscription.with_cancel false None s))
  end.

Definition pauseSubscription (subscriptionId : string)
    (behavior : PauseBehavior) (resumesAt : option Dayjs.Date)
  : M Db (option Subscription.t) :=
  do subscription <- SubscriptionRepository.findById subscriptionId;
  match subscription with
  | None => throw (mkError NotFound "Subscription not found")
  | Some subscription =>
      exec when_linked subscription (fun sid =>
        lift (Stripe.updateSubscription stripeClient sid));
      SubscriptionRepository.update subscriptionId
        (fun s =>
           Subscription.with_updatedAt now
             (Subscription.with_metadata
                (<["resumesAt" :=
                     from_option (fun d => MStr (toISOString d)) MUndefined resumesAt]>
                   (<["pauseBehavior" := MStr (PauseBehavior_name behavior)]>
                      (<["pausedAt" := MStr (toISOString now)]>
                         (Subscription.metadata subscription))))
                (Subscription.with_status paused s)))
  end.

Definition unpauseSubscription (subscriptionId : string)
  : M Db (option Subscription.t) :=
  do subscription <- SubscriptionRepository.findById subscriptionId;
  match subscription with
  | None => throw (mkError NotFound "Subscription not found")
  | Some subscription =>
      exec when_linked subscription (fun sid =>
        lift (Stripe.resumeSubscription stripeClient sid));
      SubscriptionRepository.update subscriptionId
        (fun s =>
           Subscription.with_updatedAt now
             (Subscription.with_metadata
                (<["unpausedAt" := MStr (toISOString now)]>
                   (Subscription.metadata subscription))
                (Subscription.with_status active s)))
  end.

Definition changePlan (subscriptionId newPlanId : string) (prorate : bool)
  : M Db (option Subscription.t) :=
  do subscription <- SubscriptionRepository.findById subscriptionId;
  do newPlan <- PlanRepository.findById newPlanId;
  match subscription, newPlan with
  | None, _ => throw (mkError NotFound "Subscription not found")
  | Some _, None => throw (mkError NotFound "Plan not found")
  | Some subscription, Some newPlan =>
      exec throw_if (negb (Plan.active newPlan))
        (mkError InvalidState "Cannot change to an inactive plan");
      exec when_linked subscription (fun sid =>
        if from_option truthy_string false (Plan.stripePriceId newPlan) then
          do items <- lift (Stripe.getSubscription stripeClient sid);
          lift (Stripe.updateSubscription stripeClient sid)
        else ret tt);
      SubscriptionRepository.update subscriptionId
        (fun s =>
           Subscription.with_updatedAt now
             (Subscription.with_metadata
                (<["planChangedAt" := MStr (toISOString now)]>
                   (<["previousPlanId" := MStr (Subscription.planId subscription)]>
                      (Subscription.metadata subscription)))
                (Subscription.with_plan newPlanId (Plan.currency newPlan) s)))
  end.

Definition updateQuantity (subscriptionId : string) (quantity : JS.number)
    (prorate : bool) : M Db (option Subscription.t) :=
  do subscription <- SubscriptionRepository.findById subscriptionId;
  match subscription with
  | None => throw (mkError NotFound "Subscription not found")
  | Some subscription =>
      exec throw_if (JS.lt quantity 1)
        (mkError InvalidInput "Quantity must be at least 1");
      exec when_linked subscription (fun sid =>
        do items <- lift (Stripe.getSubscription stripeClient sid);
        lift (Stripe.updateSubscription stripeClient sid));
      SubscriptionRepository.update subscriptionId
        (fun s =>
           Subscription.with_updatedAt now
             (Subscription.with_metadata
                (<["quantityChangedAt" := MStr (toISOString now)]>
                   (<["previousQuantity" := MNum (Subscription.quantity subscription)]>
                      (Subscription.metadata subscription)))
                (Subscription.with_quantity quantity s)))
  end.

End Service.

Section Cancellation.
Variable stripeClient : Stripe.Api.
Variable now : Dayjs.Date.

Definition cancelSubscription (subscriptionId : string) (immediate : bool)
  : M Db (option Subscription.t) :=
  do subscription <- SubscriptionRepository.findById subscriptionId;
  match subscription with
  | None => throw (mkError NotFound "Subscription not found")
  | Some subscription =>
      exec when_linked subscription (fun sid =>
        lift (Stripe.cancelSubscription stripeClient sid (negb immediate)));
      SubscriptionRepository.update subscriptionId
        (fun s =>
           let s' :=
             Subscription.with_updatedAt now
               (Subscription.with_cancel (Subscription.cancelAtPeriodEnd s)
                  (Some now) s) in
           if immediate
           then Subscription.with_endedAt (Some now)
                  (Subscription.with_status canceled s')
           else Subscription.with_cancel true (Some now) s')
  end.

End Cancellation.

Section Trials.
(** The repository query for the trials that have run out. *)
Variable findExpiredTrials : Db -> list Subscription.t.
Variable now : Dayjs.Date.

(** The body of the loop of [processExpiredTrials]; [acc] is
    [(processed, failed)]. *)
Definition expire_trial (acc : Z * Z) (subscription : Subscription.t)
  : M Db (Z * Z) :=
  try_catch
    (exec SubscriptionRepository.update (Subscription.id subscription)
       (fun s => Subscription.with_updatedAt now
                   (Subscription.with_trialEnd None
                      (Subscription.with_status active s)));
     ret (fst acc + 1, snd acc))
    (fun error => ret (fst acc, snd acc + 1)).

Fixpoint expire_trials (acc : Z * Z) (subs : list Subscription.t)
  : M Db (Z * Z) :=
  match subs with
  | [] => ret acc
  | s :: rest =>
      do acc' <- expire_trial acc s;
      expire_trials acc' rest
  end.

Definition processExpiredTrials : M Db (Z * Z) :=
  do expiredTrials <- gets findExpiredTrials;
  expire_trials (0, 0) expiredTrials.

End Trials.

(** The fields of [CreateSubscriptionInput] that reach the local row. *)
Record CreateSubscriptionInput := mkCreateInput {
  cs_customerId : string;
  cs_planId : string;
  cs_quantity : option JS.number;
  cs_trialDays : option Z;
  cs_cancelAtPeriodEnd : option bool;
  cs_metadata : option Metadata
}.

(** The fields of the gateway subscription that are read back; the
    times are in seconds. *)
Record StripeSubscription := mkStripeSubscription {
  ss_id : string;
  current_period_start : Z;
  current_period_end : Z;
  ss_status : SubscriptionStatus;
  trial_start : option Z;
  trial_end : option Z
}.

(** A number that may be absent is truthy when present and not 0. *)
Definition truthy_number (x : option Z) : bool :=
  match x with
  | Some v => negb (v =? 0)
  | None => false
  end.

Section Create.
(** [stripeClient.createSubscription] for a customer, a price and a
    quantity. *)
Variable createStripeSubscription :
  string -> string -> JS.number -> result StripeSubscription.
Variable customers : gmap string Customer.t.
Variable now : Dayjs.Date.
Variable uuidv4 : string.

Definition createSubscription (input : CreateSubscriptionInput)
  : M Db Subscription.t :=
  do plan <- PlanRepository.findById (cs_planId input);
  match customers !! cs_customerId input, plan with
  | None, _ => throw (mkError NotFound "Customer not found")
  | Some _, None => throw (mkError NotFound "Plan not found")
  | Some customer, Some plan =>
      exec throw_if (negb (Plan.active plan))
        (mkError InvalidState "Cannot subscribe to an inactive plan");
      let quantity := JS.opt_or_else (cs_quantity input) 1 in
      let currentPeriodStart := now in
      let currentPeriodEnd :=
        calculatePeriodEnd currentPeriodStart (Plan.interval plan)
          (Plan.intervalCount plan) in
      let unlinked :=
        if truthy_number (cs_trialDays input)
        then (None, currentPeriodStart, currentPeriodEnd, trialing, Some now,
              Some (Dayjs.add now (default 0 (cs_trialDays input)) Dayjs.day))
        else (None, currentPeriodStart, currentPeriodEnd, active, None, None) in
      do fields <-
        match Customer.stripeCustomerId customer, Plan.stripePriceId plan with
        | Some cus, Some price =>
            if truthy_string cus && truthy_string price then
              do stripeSubscription <-
                lift (createStripeSubscription cus price quantity);
              ret (if truthy_number (trial_start stripeSubscription)
                   then (Some (ss_id stripeSubscription),
                         current_period_start stripeSubscription * 1000,
                         current_period_end stripeSubscription * 1000,
                         trialing,
                         Some (default 0 (trial_start stripeSubscription) * 1000),
                         Some (default 0 (trial_end stripeSubscription) * 1000))
                   else (Some (ss_id stripeSubscription),
                         current_period_start stripeSubscription * 1000,
                         current_period_end stripeSubscription * 1000,
                         ss_status stripeSubscription, None, None))
            else ret unlinked
        | _, _ => ret unlinked
        end;
      let '(stripeSubscriptionId, currentPeriodStart, currentPeriodEnd, status,
            trialStart, trialEnd) := fields in
      SubscriptionRepository.create
        (Subscription.mk uuidv4 (cs_customerId input) stripeSubscriptionId status
           (cs_planId input) quantity (Plan.currency plan)
           currentPeriodStart currentPeriodEnd
           (default false (cs_cancelAtPeriodEnd input)) None None
           trialStart trialEnd (default ∅ (cs_metadata input)) now now)
  end.

End Create.
End SubscriptionService.

(** ** BillingService *)

Module BillingService.

Record Proration := mkProration {
  credit : JS.number;
  charge : JS.number;
  netAmount : JS.number
}.

Record BillingOverview := mkOverview {
  totalRevenue : JS.number;
  totalOutstanding : JS.number;
  activeSubscriptions : nat;
  monthlyRecurringRevenue : JS.number;
  annualRecurringRevenue : JS.number;
  currency : Currency
}.

(** The plan lookup of the billing service is a fixed plan. *)
Definition getPlanById (planId : string) : Plan.t :=
  Plan.mk planId "Mock Plan" None 9900 USD Dayjs.month 1 None true.

Definition normalizeToMonthly (amount : JS.number) (interval : string) : JS.number :=
  match interval with
  | "day" => amount * 30
  | "week" => amount * 4
  | "month" => amount
  | "year" => amount / 12
  | _ => amount
  end%string%float.

(** [Math.round(x * 100) / 100]. *)
Definition round2 (x : JS.number) : JS.number :=
  (JS.Math_round (x * 100) / 100)%float.

(** The arithmetic of [calculateProration] once the subscription, the
    plan and the two day counts are known. *)
Definition proration (quantity planAmount : JS.number) (totalDays remainingDays : Z)
  : Proration :=
  let currentDailyRate := (quantity / JS.of_Z totalDays)%float in
  let credit := (currentDailyRate * JS.of_Z remainingDays)%float in
  let newDailyRate := (planAmount / JS.of_Z totalDays)%float in
  let charge := (newDailyRate * JS.of_Z remainingDays)%float in
  mkProration (round2 credit) (round2 charge) (round2 (charge - credit)%float).

Definition calculateProration (subscriptionId newPlanId : string)
    (changeDate : Dayjs.Date) : M Db Proration :=
  do subscription <- SubscriptionRepository.findById subscriptionId;
  match subscription with
  | None => throw (mkError NotFound "Subscription not found")
  | Some subscription =>
      let periodStart := Subscription.currentPeriodStart subscription in
      let periodEnd := Subscription.currentPeriodEnd subscription in
      let totalDays := Dayjs.diff_days periodEnd periodStart in
      let remainingDays := Dayjs.diff_days periodEnd changeDate in
      let newPlan := getPlanById newPlanId in
      ret (proration (Subscription.quantity subscription) (Plan.amount newPlan)
             totalDays remainingDays)
  end.

Definition calculateTotalRevenue (currency : Currency) : M Db JS.number :=
  gets (fun db =>
    fold_left
      (fun sum p => (sum + Payment.amount p - Payment.refundedAmount p)%float)
      (List.filter
         (fun p => bool_decide (Payment.status p = succeeded)
                   && bool_decide (Payment.currency p = currency))
         (snd <$> map_to_list (payments db)))
      0%float).

Definition calculateOutstandingAmount (currency : Currency) : M Db JS.number :=
  gets (fun db =>
    fold_left (fun sum i => (sum + Invoice.amountDue i)%float)
      (List.filter
         (fun i => bool_decide (Invoice.status i = open)
                   && bool_decide (Invoice.currency i = currency))
         (snd <$> map_to_list (invoices db)))
      0%float).

Definition calculateMRR (currency : Currency) : M Db JS.number :=
  do subscriptions <- SubscriptionRepository.findByStatus active;
  ret (fold_left
         (fun sum s =>
            let monthlyAmount :=
              normalizeToMonthly (Subscription.quantity s) "month" in
            (sum + monthlyAmount)%float)
         (List.filter
            (fun s => bool_decide (Subscription.currency s = currency))
            subscriptions)
         0%float).

(** The figures of the overview that are computed from the payment,
    invoice and subscription tables (the churn rate and the revenue per
    customer come from other repository counts). *)
Definition getBillingOverview (currency : Currency) : M Db BillingOverview :=
  do totalRevenue <- calculateTotalRevenue currency;
  do totalOutstanding <- calculateOutstandingAmount currency;
  do actives <- SubscriptionRepository.findByStatus active;
  do mrr <- calculateMRR currency;
  let arr := (mrr * 12)%float in
  ret (mkOverview totalRevenue totalOutstanding (length actives) mrr arr currency).

Section Service.
Variable now : Dayjs.Date.
Variable uuidv4 : string.

Definition createInvoiceFromSubscription (subscription : Subscription.t)
  : M Db Invoice.t :=
  InvoiceRepository.create
    (Invoice.mk uuidv4 (Subscription.customerId subscription)
       (Some (Subscription.id subscription)) None ("INV-" +:+ pretty now) open
       (Subscription.currency subscription)
       (Subscription.quantity subscription) 0 (Subscription.quantity subscription)
       0 (Subscription.quantity subscription) []
       (Dayjs.add now 30 Dayjs.day) None now now).

Definition advanceSubscriptionPeriod (subscription : Subscription.t)
  : M Db unit :=
  let newPeriodStart := Subscription.currentPeriodEnd subscription in
  let newPeriodEnd := Dayjs.add newPeriodStart 1 Dayjs.month in
  exec SubscriptionRepository.update (Subscription.id subscription)
    (Subscription.with_period newPeriodStart newPeriodEnd);
  ret tt.

Definition processEndOfPeriodBilling (subscriptionId : string)
  : M Db (option Invoice.t) :=
  do subscription <- SubscriptionRepository.findById subscriptionId;
  match subscription with
  | None => throw (mkError NotFound "Subscription not found")
  | Some subscription =>
      if negb (bool_decide (Subscription.status subscription = active))
      then ret None
      else
        do invoice <- createInvoiceFromSubscription subscription;
        exec advanceSubscriptionPeriod subscription;
        ret (Some invoice)
  end.

End Service.

Record DateRange := mkRange {
  startDate : Dayjs.Date;
  endDate : Dayjs.Date
}.

Record RevenueBreakdown := mkBreakdown {
  rb_subscriptions : JS.number;
  rb_oneTimeCharges : JS.number;
  rb_usage : JS.number;
  rb_refunds : JS.number;
  rb_total : JS.number
}.

(** A string that may be absent is truthy when present and not empty. *)
Definition truthy_id (o : option string) : bool :=
  from_option truthy_string false o.

Section Revenue.
(** The repository queries by creation date. *)
Variable findByDateRange : DateRange -> Db -> list Payment.t.
Variable findRefundsByDateRange : DateRange -> Db -> list Refund.t.

Definition calculateSubscriptionRevenue (dateRange : DateRange)
    (currency : Currency) : M Db JS.number :=
  gets (fun db =>
    fold_left (fun sum p => (sum + Payment.amount p)%float)
      (List.filter
         (fun p => bool_decide (Payment.currency p = currency)
                   && truthy_id (Payment.invoiceId p))
         (findByDateRange dateRange db))
      0%float).

Definition calculateOneTimeRevenue (dateRange : DateRange)
    (currency : Currency) : M Db JS.number :=
  gets (fun db =>
    fold_left (fun sum p => (sum + Payment.amount p)%float)
      (List.filter
         (fun p => bool_decide (Payment.currency p = currency)
                   && negb (truthy_id (Payment.invoiceId p)))
         (findByDateRange dateRange db))
      0%float).

Definition calculateUsageRevenue (dateRange : DateRange)
    (currency : Currency) : M Db JS.number := ret 0%float.

Definition calculateRefundAmount (dateRange : DateRange)
    (currency : Currency) : M Db JS.number :=
  gets (fun db =>
    fold_left (fun sum r => (sum + Refund.amount r)%float)
      (List.filter (fun r => bool_decide (Refund.currency r = currency))
         (findRefundsByDateRange dateRange db))
      0%float).

Definition getRevenueBreakdown (dateRange : DateRange) (currency : Currency)
  : M Db RevenueBreakdown :=
  do subscriptions <- calculateSubscriptionRevenue dateRange currency;
  do oneTimeCharges <- calculateOneTimeRevenue dateRange currency;
  do usage <- calculateUsageRevenue dateRange currency;
  do refunds <- calculateRefundAmount dateRange currency;
  ret (mkBreakdown subscriptions oneTimeCharges usage (- refunds)%float
         (subscriptions + oneTimeCharges + usage - refunds)%float).

End Revenue.


(** The credit ledger of the billing service is empty. *)
Definition getCustomerCredits (customerId : string) : M Db JS.number := ret 0%float.

Definition deductCustomerCredits (customerId : string) (amount : JS.number)
  : M Db unit := ret tt.

Section Credits.
Variable customers : gmap string Customer.t.

Definition applyCredits (customerId invoiceId : string)
  : M Db (option Invoice.t) :=
  do invoice <- InvoiceRepository.findById invoiceId;
  match customers !! customerId, invoice with
  | Some customer, Some invoice =>
      do availableCredits <- getCustomerCredits customerId;
      let creditToApply := JS.Math_min availableCredits (Invoice.amountDue invoice) in
      if JS.le creditToApply 0 then ret (Some invoice)
      else
        do updatedInvoice <- InvoiceRepository.update invoiceId
          (fun i =>
             Invoice.with_payment
               (Invoice.amountPaid invoice + creditToApply)%float
               (Invoice.amountDue invoice - creditToApply)%float
               (if JS.strict_eq (Invoice.amountDue invoice - creditToApply) 0
                then paid else Invoice.status invoice)
               (Invoice.paidAt i) (Invoice.updatedAt i) i);
        exec deductCustomerCredits customerId creditToApply;
        ret updatedInvoice
  | _, _ => throw (mkError NotFound "Customer or invoice not found")
  end.

End Credits.

(** [retryFailedPayment] of the billing service pays an invoice again:
    [payStripeInvoice] is [stripeClient.payInvoice] with a payment
    method, and answers with the payment intent of the invoice. *)
Section RetryInvoice.
Variable payStripeInvoice : string -> option string -> result (option string).
Variable customers : gmap string Customer.t.
Variable now : Dayjs.Date.
Variable uuidv4 : string.

Definition retryFailedPayment (invoiceId : string)
    (paymentMethodId : option string) : M Db Payment.t :=
  do invoice <- InvoiceRepository.findById invoiceId;
  match invoice with
  | None => throw (mkError NotFound "Invoice not found")
  | Some invoice =>
      exec throw_if (bool_decide (Invoice.status invoice = paid))
        (mkError InvalidState "Invoice is already paid");
      exec throw_if
        (negb (from_option
                 (fun c => from_option truthy_string false
                             (Customer.stripeCustomerId c))
                 false (customers !! Invoice.customerId invoice)))
        (mkError NotFound "Customer not found or no Stripe customer ID");
      do paymentIntent <-
        match Invoice.stripeInvoiceId invoice with
        | Some sid =>
            if truthy_string sid
            then lift (payStripeInvoice sid paymentMethodId)
            else ret None
        | None => ret None
        end;
      do payment <- PaymentRepository.create
        (Payment.mk uuidv4 (Invoice.customerId invoice)
           (Some (Invoice.id invoice)) paymentIntent (Invoice.amountDue invoice)
           (Invoice.currency invoice) succeeded 0 now now);
      exec InvoiceRepository.update invoiceId
        (fun i => Invoice.with_payment (Invoice.total invoice) 0 paid (Some now)
                    (Invoice.updatedAt i) i);
      ret payment
  end.

End RetryInvoice.

(** The subscription and the invoice of the gateway, as the sync reads
    them: the times are in seconds, the amounts of the invoice in
    cents; [price] and [item_quantity] are those of the first item. *)
Record StripeSubscription := mkStripeSubscription {
  ss_id : string;
  ss_status : SubscriptionStatus;
  ss_current_period_start : Z;
  ss_current_period_end : Z;
  ss_cancel_at_period_end : bool;
  ss_price : option string;
  ss_item_quantity : option JS.number;
  ss_currency : Currency
}.

Record StripeInvoice := mkStripeInvoice {
  si_id : string;
  si_status : InvoiceStatus;
  si_subtotal : JS.number;
  si_tax : option JS.number;
  si_total : JS.number;
  si_amount_paid : JS.number;
  si_amount_due : JS.number;
  si_number : option string;
  si_currency : Currency;
  si_due_date : option Z
}.

Section StripeSync.
Variable listSubscriptions : string -> result (list StripeSubscription).
Variable listInvoices : string -> result (list StripeInvoice).
Variable customers : gmap string Customer.t.
Variable now : Dayjs.Date.
(** The successive results of [uuidv4()]. *)
Variable uuid : nat -> string.

(** [syncStripeSubscription]; [n] results of [uuidv4()] were taken
    before the call, and the result is their number after it. *)
Definition syncStripeSubscription (n : nat) (customerId : string)
    (stripeSubscription : StripeSubscription) : M Db nat :=
  do existingSub <-
    SubscriptionRepository.findByStripeId (ss_id stripeSubscription);
  let currentPeriodStart := ss_current_period_start stripeSubscription * 1000 in
  let currentPeriodEnd := ss_current_period_end stripeSubscription * 1000 in
  match existingSub with
  | Some existingSub =>
      exec SubscriptionRepository.update (Subscription.id existingSub)
        (fun s =>
           Subscription.mk (Subscription.id s) customerId
             (Some (ss_id stripeSubscription)) (ss_status stripeSubscription)
             (Subscription.planId s) (Subscription.quantity s)
             (Subscription.currency s) currentPeriodStart currentPeriodEnd
             (ss_cancel_at_period_end stripeSubscription)
             (Subscription.canceledAt s) (Subscription.endedAt s)
             (Subscription.trialStart s) (Subscription.trialEnd s)
             (Subscription.metadata s) (Subscription.createdAt s) now);
      ret n
  | None =>
      exec SubscriptionRepository.create
        (Subscription.mk (uuid n) customerId (Some (ss_id stripeSubscription))
           (ss_status stripeSubscription)
           (default "" (ss_price stripeSubscription))
           (JS.opt_or_else (ss_item_quantity stripeSubscription) 1)
           (ss_currency stripeSubscription) currentPeriodStart currentPeriodEnd
           (ss_cancel_at_period_end stripeSubscription) None None None None ∅
           now now);
      ret (S n)
  end.

(** [syncStripeInvoice]: the amounts of the gateway are divided by 100,
    but for the tax, which is [stripeInvoice.tax || 0]. *)
Definition syncStripeInvoice (n : nat) (customerId : string)
    (stripeInvoice : StripeInvoice) : M Db nat :=
  do existingInv <- InvoiceRepository.findByStripeId (si_id stripeInvoice);
  let subtotal := (si_subtotal stripeInvoice / 100)%float in
  let tax := JS.opt_or_else (si_tax stripeInvoice) 0 in
  let total := (si_total stripeInvoice / 100)%float in
  let amountPaid := (si_amount_paid stripeInvoice / 100)%float in
  let amountDue := (si_amount_due stripeInvoice / 100)%float in
  match existingInv with
  | Some existingInv =>
      exec InvoiceRepository.update (Invoice.id existingInv)
        (fun i =>
           Invoice.mk (Invoice.id i) customerId (Invoice.subscriptionId i)
             (Some (si_id stripeInvoice)) (Invoice.number i)
             (si_status stripeInvoice) (Invoice.currency i) subtotal tax total
             amountPaid amountDue (Invoice.lineItems i) (Invoice.dueDate i)
             (Invoice.paidAt i) (Invoice.createdAt i) now);
      ret n
  | None =>
      exec InvoiceRepository.create
        (Invoice.mk (uuid n) customerId None (Some (si_id stripeInvoice))
           (match si_number stripeInvoice with
            | Some number =>
                if truthy_string number then number else "INV-" +:+ pretty now
            | None => "INV-" +:+ pretty now
            end)
           (si_status stripeInvoice) (si_currency stripeInvoice) subtotal tax
           total amountPaid amountDue []
           (match si_due_date stripeInvoice with
            | Some due => if (due =? 0)%Z then now else due * 1000
            | None => now
            end)
           None now now);
      ret (S n)
  end.

Fixpoint sync_subscriptions (n : nat) (customerId : string)
    (l : list StripeSubscription) : M Db nat :=
  match l with
  | [] => ret n
  | stripeSub :: rest =>
      do n' <- syncStripeSubscription n customerId stripeSub;
      sync_subscriptions n' customerId rest
  end.

Fixpoint sync_invoices (n : nat) (customerId : string)
    (l : list StripeInvoice) : M Db nat :=
  match l with
  | [] => ret n
  | stripeInv :: rest =>
      do n' <- syncStripeInvoice n customerId stripeInv;
      sync_invoices n' customerId rest
  end.

(** [syncBillingWithStripe]: both listings are read before anything is
    written. *)
Definition syncBillingWithStripe (customerId : string) : M Db unit :=
  match customers !! customerId with
  | Some customer =>
      match Customer.stripeCustomerId customer with
      | Some cus =>
          if truthy_string cus then
            do stripeSubscriptions <- lift (listSubscriptions cus);
            do stripeInvoices <- lift (listInvoices cus);
            do n <- sync_subscriptions 0 customerId stripeSubscriptions;
            exec sync_invoices n customerId stripeInvoices;
            ret tt
          else throw (mkError NotFound
                        "Customer not found or no Stripe customer ID")
      | None => throw (mkError NotFound
                         "Customer not found or no Stripe customer ID")
      end
  | None => throw (mkError NotFound "Customer not found or no Stripe customer ID")
  end.

End StripeSync.
End BillingService.

(** ** RampSyncService *)

Module RampSyncService.

Record RampTransaction := mkTransaction {
  id : string;
  amount : JS.number;
  merchant_name : string;
  state : string
}.

(** A page of the listing: [response.transactions || response.data || []]
    and [response.page?.next]. *)
Record Page := mkPage {
  transactions : list RampTransaction;
  next : option string
}.

Record ListParams := mkParams {
  page_size : Z;
  start : option string;
  created_after : option Dayjs.Date;
  created_before : option Dayjs.Date
}.

Record TransactionSyncOptions := mkOptions {
  startDate : option Dayjs.Date;
  endDate : option Dayjs.Date;
  includeCleared : option bool;
  includePending : option bool;
  batchSize : option Z
}.

Record SyncError := mkSyncError {
  err_id : string;
  err_message : string
}.

Record ProcessedTransaction := mkProcessed {
  rampTransactionId : string;
  p_amount : JS.number;
  merchantName : string;
  p_state : string
}.

(** The ledger gateway and the timer.  The [n]-th call of
    [listTransactions] gets the [n]-th scripted outcome; [delays]
    records every [delay(ms)] in order. *)
Record World := mkWorld {
  script : nat -> result Page;
  calls : nat;
  delays : list Z
}.

Definition DEFAULT_BATCH_SIZE : Z := 100.
Definition MAX_RETRIES : Z := 3.
Definition RETRY_DELAY_MS : Z := 1000.

Definition listTransactions (businessId : string) (params : ListParams)
  : M World Page :=
  fun w => (script w (calls w), mkWorld (script w) (S (calls w)) (delays w)).

Definition delay (ms : Z) : M World unit :=
  modify (fun w => mkWorld (script w) (calls w) (delays w ++ [ms])).

(** [fetchTransactionsWithRetry(businessId, params, attempt)]; the
    recursion is on the attempts that are left. *)
Fixpoint fetchTransactionsWithRetry_from (left : nat) (businessId : string)
    (params : ListParams) (attempt : Z) : M World Page :=
  try_catch (listTransactions businessId params)
    (fun error =>
       if attempt <? MAX_RETRIES then
         match left with
         | O => throw error
         | S left' =>
             exec delay (RETRY_DELAY_MS * attempt);
             fetchTransactionsWithRetry_from left' businessId params (attempt + 1)
         end
       else throw error).

(** The call with the default [attempt = 1]. *)
Definition fetchTransactionsWithRetry (businessId : string)
    (params : ListParams) : M World Page :=
  fetchTransactionsWithRetry_from (Z.to_nat MAX_RETRIES) businessId params 1.

Definition processTransaction (transaction : RampTransaction)
  : M World ProcessedTransaction :=
  ret (mkProcessed (id transaction) (amount transaction)
         (merchant_name transaction) (state transaction)).

(** The body of [for (const transaction of transactions)]. *)
Definition process_item (options : option TransactionSyncOptions)
    (acc : Z * list SyncError) (transaction : RampTransaction)
  : M World (Z * list SyncError) :=
  let skip (flag : TransactionSyncOptions -> option bool) (st : string) :=
    match options with
    | Some o => bool_decide (flag o = Some false)
                && String.eqb (state transaction) st
    | None => false
    end in
  if skip includeCleared "cleared" then ret acc
  else if skip includePending "pending" then ret acc
  else
    try_catch
      (exec processTransaction transaction;
       ret (fst acc + 1, snd acc))
      (fun error =>
         ret (fst acc,
              snd acc ++ [mkSyncError (id transaction) (message error)])).

Fixpoint process_items (options : option TransactionSyncOptions)
    (acc : Z * list SyncError) (items : list RampTransaction)
  : M World (Z * list SyncError) :=
  match items with
  | [] => ret acc
  | t :: rest =>
      do acc' <- process_item options acc t;
      process_items options acc' rest
  end.

(** The [do { ... } while (cursor)] loop; [pages] bounds the number of
    pages, [None] reports that the bound was reached.  A [Page] always
    holds an array, so the [Array.isArray] exit is never taken. *)
Fixpoint sync_loop (pages : nat) (businessId : string)
    (options : option TransactionSyncOptions) (batchSize : Z)
    (cursor : option string) (acc : Z * list SyncError)
  : M World (option (Z * list SyncError)) :=
  match pages with
  | O => ret None
  | S pages' =>
      let params :=
        mkParams batchSize cursor
          (from_option startDate None options)
          (from_option endDate None options) in
      do response <- fetchTransactionsWithRetry businessId params;
      do acc' <- process_items options acc (transactions response);
      match next response with
      | Some c =>
          if truthy_string c
          then sync_loop pages' businessId options batchSize (Some c) acc'
          else ret (Some acc')
      | None => ret (Some acc')
      end
  end.

Definition syncTransactions (pages : nat) (businessId : string)
    (options : option TransactionSyncOptions)
  : M World (option (Z * list SyncError)) :=
  let batchSize :=
    match from_option batchSize None options with
    | Some b => if b =? 0 then DEFAULT_BATCH_SIZE else b
    | None => DEFAULT_BATCH_SIZE
    end in
  sync_loop pages businessId options batchSize None (0, []).


Record Discrepancy := mkDiscrepancy {
  transactionId : string;
  issue : string
}.

(** The checks of [validateTransactionIntegrity] on one transaction:
    a missing id ends them; the amount check,
    [!transaction.amount && transaction.amount !== 0], fires on an
    amount that is not a number. *)
Definition check_transaction (transaction : RampTransaction)
  : list Discrepancy :=
  if negb (truthy_string (id transaction)) then
    [mkDiscrepancy "unknown" "Missing transaction ID"]
  else
    (if negb (JS.truthy (amount transaction))
        && negb (JS.strict_eq (amount transaction) 0)
     then [mkDiscrepancy (id transaction) "Missing amount"]
     else [])
    ++ (if negb (truthy_string (merchant_name transaction))
        then [mkDiscrepancy (id transaction) "Missing merchant name"]
        else []).

(** One page of 100, fetched without retry. *)
Definition validateTransactionIntegrity (businessId : string)
  : M World (bool * list Discrepancy) :=
  do response <- listTransactions businessId (mkParams 100 None None None);
  let discrepancies := concat (check_transaction <$> transactions response) in
  ret (bool_decide (length discrepancies = 0%nat), discrepancies).
End RampSyncService.

(** ** WebhookController *)

Module WebhookController.

Record Reply := mkReply {
  statusCode : Z;
  received : bool
}.

Section Controller.
Variable stripeClient : Stripe.Api.
Variable now : Dayjs.Date.

Definition handlePaymentIntentSucceeded (paymentIntentId : string) : M Db unit :=
  PaymentService.processWebhookPaymentUpdate now paymentIntentId "succeeded".

Definition handlePaymentIntentFailed (paymentIntentId : string) : M Db unit :=
  PaymentService.processWebhookPaymentUpdate now paymentIntentId "failed".

(** The [switch (event.type)]: the other handled types only log. *)
Definition dispatch (event : Stripe.Event) : M Db unit :=
  if String.eqb (Stripe.event_type event) "payment_intent.succeeded" then
    handlePaymentIntentSucceeded (Stripe.object_id event)
  else if String.eqb (Stripe.event_type event) "payment_intent.payment_failed" then
    handlePaymentIntentFailed (Stripe.object_id event)
  else ret tt.

Definition handleStripeWebhook (payload signature : string) : M Db Reply :=
  try_catch
    (match Stripe.constructWebhookEvent stripeClient payload signature with
     | Throw _ => ret (mkReply 401 false)
     | Ok event =>
         exec dispatch event;
         ret (mkReply 200 true)
     end)
    (fun error => ret (mkReply 500 false)).

End Controller.
End WebhookController.

(** ** RampClient: the access token *)

Module RampClient.

Record TokenState := mkTokenState {
  accessToken : option string;
  tokenExpiresAt : Z
}.

(** [getAccessToken] at the time [now]; [endpoint] is the answer of the
    token endpoint, the token and [expires_in] in seconds, were it
    called. *)
Definition getAccessToken (now : Z) (endpoint : result (string * Z))
  : M TokenState string :=
  fun st =>
    let refresh :=
      match endpoint with
      | Ok (token, expires_in) =>
          (Ok token, mkTokenState (Some token) (now + expires_in * 1000))
      | Throw e => (Throw e, st)
      end in
    match accessToken st with
    | Some token =>
        if truthy_string token && (now <? tokenExpiresAt st - 60000)
        then (Ok token, st)
        else refresh
    | None => refresh
    end.

End RampClient.

(** ** Runs and sample data *)

(** One call of [refundPayment]: the gateway, the clock and the id
    generator of the call, and its input. *)
Record RefundCall := mkRefundCall {
  call_gateway : Stripe.Client;
  call_now : Dayjs.Date;
  call_uuid : string;
  call_input : PaymentService.RefundInput
}.

Definition refund_step (db : Db) (c : RefundCall) : result Refund.t * Db :=
  PaymentService.refundPayment (call_gateway c) (call_now c) (call_uuid c)
    (call_input c) db.

(** The store after a sequence of [refundPayment] calls. *)
Definition run_refunds (cs : list RefundCall) (db : Db) : Db :=
  fold_left (fun db c => snd (refund_step db c)) cs db.

(** The number of calls of the sequence that return a refund for the
    payment [id]. *)
Fixpoint count_refunded (id : string) (cs : list RefundCall) (db : Db) : nat :=
  match cs with
  | [] => 0
  | c :: rest =>
      (if is_ok (fst (refund_step db c))
          && String.eqb (PaymentService.paymentId (call_input c)) id
       then 1 else 0)%nat
      + count_refunded id rest (snd (refund_step db c))
  end.

(** [amountPaid + amountDue == total]. *)
Definition balanced (i : Invoice.t) : Prop :=
  JS.strict_eq (Invoice.amountPaid i + Invoice.amountDue i) (Invoice.total i)
  = true.

(** [i'] has the total, the amount paid and the amount due of [i]. *)
Definition same_amounts (i i' : Invoice.t) : Prop :=
  Invoice.total i' = Invoice.total i
  /\ Invoice.amountPaid i' = Invoice.amountPaid i
  /\ Invoice.amountDue i' = Invoice.amountDue i.

(** [i'] is [i] with a payment of [amt] booked: the amount is added to
    the amount paid and the amount due is [Math.max(0, total - paid)]. *)
Definition payment_booked (amt : JS.number) (i i' : Invoice.t) : Prop :=
  Invoice.total i' = Invoice.total i
  /\ Invoice.amountPaid i' = (Invoice.amountPaid i + amt)%float
  /\ Invoice.amountDue i'
     = JS.Math_max 0 (Invoice.total i - Invoice.amountPaid i')%float
  /\ Invoice.status i'
     = if JS.strict_eq (Invoice.amountDue i') 0 then paid else Invoice.status i.

(** [i'] is [i] paid in full. *)
Definition settled (i i' : Invoice.t) : Prop :=
  Invoice.total i' = Invoice.total i
  /\ Invoice.amountPaid i' = Invoice.total i
  /\ Invoice.amountDue i' = 0%float
  /\ Invoice.status i' = paid.

(** [i'] is [i] with other line items: the amount paid is kept, the
    total is the subtotal plus the tax and the amount due is stored as
    [total - amountPaid]. *)
Definition relined (i i' : Invoice.t) : Prop :=
  Invoice.amountPaid i' = Invoice.amountPaid i
  /\ Invoice.subtotal i' = InvoiceService.sum_amounts (Invoice.lineItems i')
  /\ Invoice.tax i' = InvoiceService.sum_taxes (Invoice.lineItems i')
  /\ Invoice.total i' = (Invoice.subtotal i' + Invoice.tax i')%float
  /\ Invoice.amountDue i' = (Invoice.total i' - Invoice.amountPaid i')%float.

(** A new invoice: nothing is paid, the total is due. *)
Definition opened (i : Invoice.t) : Prop :=
  Invoice.amountPaid i = 0%float /\ Invoice.amountDue i = Invoice.total i.

(** Every invoice of [db'] is an invoice of [db] with the same three
    amounts, or one related to it by [R]. *)
Definition invoice_step (R : Invoice.t -> Invoice.t -> Prop) (db db' : Db)
  : Prop :=
  forall id i', invoices db' !! id = Some i' ->
    exists i, invoices db !! id = Some i /\ (same_amounts i i' \/ R i i').

(** Every invoice of [db'] has the amounts it had in [db]. *)
Definition amounts_kept (db db' : Db) : Prop :=
  invoice_step (fun _ _ => False) db db'.

(** [i'] carries the amounts of the gateway invoice [g]. *)
Definition mirrors (g : BillingService.StripeInvoice) (i' : Invoice.t) : Prop :=
  Invoice.total i' = (BillingService.si_total g / 100)%float
  /\ Invoice.amountPaid i' = (BillingService.si_amount_paid g / 100)%float
  /\ Invoice.amountDue i' = (BillingService.si_amount_due g / 100)%float.

(** Every invoice of [db'] carries the amounts of a gateway invoice of
    [gs], or is an invoice of [db]. *)
Definition invoices_synced (gs : list BillingService.StripeInvoice)
    (db db' : Db) : Prop :=
  forall id i', invoices db' !! id = Some i' ->
    (exists g, In g gs /\ mirrors g i') \/ invoices db !! id = Some i'.

(** Every invoice of [db'] is new, or in [db] with the same amounts. *)
Definition invoice_added (db db' : Db) : Prop :=
  forall id i', invoices db' !! id = Some i' ->
    opened i' \/ exists i, invoices db !! id = Some i /\ same_amounts i i'.

(** A gateway on which every call returns. *)
Definition gateway_up : Stripe.Client :=
  Stripe.mk (fun _ _ _ => Ok "re_1") (fun _ => Ok ["si_1"])
    (fun _ => Ok tt) (fun _ => Ok tt).

(** The whole client of a gateway on which every call returns: a new
    intent is [pi_new] and succeeds at once, a confirmed intent
    succeeds, and a webhook signed [sig_ok] is the event whose type is
    the payload, about the payment intent [pi_1]. *)
Definition api_up : Stripe.Api :=
  Stripe.mkApi gateway_up
    (fun _ => Ok ("pi_new", "succeeded")) (fun _ => Ok "in_new")
    (fun _ _ => Ok tt) (fun _ => Ok "succeeded") (fun _ _ => Ok tt)
    (fun _ => Ok tt) (fun _ => Ok tt) (fun _ => Ok tt) (fun _ => Ok tt)
    (fun _ => Ok tt) (fun _ _ => Ok tt)
    (fun payload signature =>
       if String.eqb signature "sig_ok" then Ok (Stripe.mkEvent payload "pi_1")
       else Throw (mkError InvalidInput "No signatures found")).

(** The store after [n] deliveries of the event [succeeded] for the
    payment intent [pi]. *)
Definition deliveries (n : nat) (now : Dayjs.Date) (pi : string) (db : Db) : Db :=
  Nat.iter n
    (fun db => snd (PaymentService.processWebhookPaymentUpdate now pi "succeeded" db))
    db.

(** No other payment carries the payment intent of the row [id]. *)
Definition sole_intent (pi id : string) (db : Db) : Prop :=
  forall id' p', payments db !! id' = Some p' ->
                 Payment.stripePaymentIntentId p' = Some pi -> id' = id.

(** The amount [refundPayment] refunds: [input.amount || available]. *)
Definition refund_amount_of (input : PaymentService.RefundInput)
    (p : Payment.t) : JS.number :=
  let available := (Payment.amount p - Payment.refundedAmount p)%float in
  JS.opt_or_else (PaymentService.amount input) available.

(** The row [refundPayment] writes back after refunding [ra]. *)
Definition refunded_row (now : Dayjs.Date) (ra : JS.number) (p : Payment.t) : Payment.t :=
  let total' := (Payment.refundedAmount p + ra)%float in
  Payment.with_updatedAt now
    (Payment.with_status
       (if JS.ge total' (Payment.amount p) then refunded else partially_refunded)
       (Payment.with_refundedAmount total' p)).

(** The world after [k] more gateway calls and the delays [ds]. *)
Definition advanced (w : RampSyncService.World) (k : nat) (ds : list Z)
  : RampSyncService.World :=
  RampSyncService.mkWorld (RampSyncService.script w)
    (k + RampSyncService.calls w) (RampSyncService.delays w ++ ds).

(** A ledger gateway that is down: every call throws. *)
Definition gateway_down : RampSyncService.World :=
  RampSyncService.mkWorld (fun _ => Throw (mkError GatewayError "503")) 0 [].

(** Three pages; the fetch of the second one fails twice, then
    returns. *)
Definition flaky_script (n : nat) : result RampSyncService.Page :=
  let tx (i : string) := RampSyncService.mkTransaction i 10 "shop" "cleared" in
  match n with
  | 0%nat => Ok (RampSyncService.mkPage [tx "t1"; tx "t2"] (Some "c1"))
  | 1%nat | 2%nat => Throw (mkError GatewayError "timeout")
  | 3%nat => Ok (RampSyncService.mkPage [tx "t3"; tx "t4"] (Some "c2"))
  | _ => Ok (RampSyncService.mkPage [tx "t5"] None)
  end.

(** The buckets of [getPaymentSummary], by status, and what a payment
    adds to the refunded total. *)
Definition in_paid (p : Payment.t) : bool :=
  match Payment.status p with
  | succeeded | partially_refunded => true
  | _ => false
  end.

Definition in_refunded (p : Payment.t) : bool :=
  match Payment.status p with
  | succeeded | partially_refunded | refunded => true
  | _ => false
  end.

Definition in_pending (p : Payment.t) : bool :=
  match Payment.status p with
  | pending | processing => true
  | _ => false
  end.

Definition in_failed (p : Payment.t) : bool :=
  match Payment.status p with
  | failed => true
  | _ => false
  end.

Definition refunded_part (p : Payment.t) : JS.number :=
  match Payment.status p with
  | refunded => Payment.amount p
  | _ => Payment.refundedAmount p
  end.

(** The sum of [f], taken from [start] in the order of the list, over
    the elements that [keep] selects. *)
Definition sum_over {A : Type} (keep : A -> bool) (f : A -> JS.number)
    (xs : list A) (start : JS.number) : JS.number :=
  fold_left (fun sum x => (sum + f x)%float) (List.filter keep xs) start.

(** The tax of a new line: [taxRate ? amount * (taxRate / 100) : 0]. *)
Definition line_tax (input : InvoiceService.CreateLineItemInput) : JS.number :=
  match InvoiceService.taxRate input with
  | Some r =>
      if JS.truthy r
      then (InvoiceService.quantity input * InvoiceService.unitPrice input
            * (r / 100))%float
      else 0%float
  | None => 0%float
  end.

(** [db'] differs from [db] in the subscription [id] at most. *)
Definition only_subscription (id : string) (db db' : Db) : Prop :=
  payments db' = payments db
  /\ refunds db' = refunds db
  /\ invoices db' = invoices db
  /\ plans db' = plans db
  /\ forall id', id' <> id -> subscriptions db' !! id' = subscriptions db !! id'.

(** The outcome of a lifecycle operation on the subscription [id]: a
    throw with the store as it was, or the new row, stored under [id],
    with the identity and the metadata keys of the old one, and the
    rest of the store as it was. *)
Definition lifecycle_scope (id : string) (db : Db)
    (run : result (option Subscription.t) * Db) : Prop :=
  (is_ok (fst run) = false /\ snd run = db)
  \/ (exists s s',
        subscriptions db !! id = Some s
        /\ fst run = Ok (Some s')
        /\ subscriptions (snd run) !! id = Some s'
        /\ only_subscription id db (snd run)
        /\ Subscription.id s' = Subscription.id s
        /\ Subscription.customerId s' = Subscription.customerId s
        /\ Subscription.createdAt s' = Subscription.createdAt s
        /\ forall k, is_Some (Subscription.metadata s !! k) ->
                     is_Some (Subscription.metadata s' !! k)).

(** [options?.flag === false && transaction.state === st]. *)
Definition skipped (options : option RampSyncService.TransactionSyncOptions)
    (flag : RampSyncService.TransactionSyncOptions -> option bool) (st : string)
    (t : RampSyncService.RampTransaction) : bool :=
  match options with
  | Some o => bool_decide (flag o = Some false)
              && String.eqb (RampSyncService.state t) st
  | None => false
  end.

(** The transactions the options do not filter out. *)
Definition kept (options : option RampSyncService.TransactionSyncOptions)
    (t : RampSyncService.RampTransaction) : bool :=
  negb (skipped options RampSyncService.includeCleared "cleared" t)
  && negb (skipped options RampSyncService.includePending "pending" t).

(** The number of transactions of the pages that are kept. *)
Definition synced_count (options : option RampSyncService.TransactionSyncOptions)
    (ps : list RampSyncService.Page) : Z :=
  fold_right
    (fun p n =>
       Z.of_nat (length (List.filter (kept options) (RampSyncService.transactions p)))
       + n)
    0 ps.

(** The next calls of the gateway return the pages [ps], in order;
    every page but the last carries a cursor. *)
Definition healthy_run (w : RampSyncService.World)
    (ps : list RampSyncService.Page) : Prop :=
  forall i p, ps !! i = Some p ->
    RampSyncService.script w (i + RampSyncService.calls w) = Ok p
    /\ from_option truthy_string false (RampSyncService.next p)
       = bool_decide (S i < length ps)%nat.

(** Two pages, of two and of one transaction. *)
Definition two_pages : list RampSyncService.Page :=
  [RampSyncService.mkPage
     [RampSyncService.mkTransaction "t1" 10 "shop" "cleared";
      RampSyncService.mkTransaction "t2" 20 "shop" "pending"] (Some "c1");
   RampSyncService.mkPage
     [RampSyncService.mkTransaction "t3" 30 "shop" "cleared"] None].

Definition two_pages_script (n : nat) : result RampSyncService.Page :=
  match two_pages !! n with
  | Some p => Ok p
  | None => Throw (mkError GatewayError "no more pages")
  end.

Module Sample.

Definition t0 : Dayjs.Date := Dayjs.make 2024 0 1 0.

(** An open invoice of 100 with nothing paid. *)
Definition inv_1 : Invoice.t :=
  Invoice.mk "inv_1" "cus_1" None None "INV-202401-00001" open USD
    100 0 100 0 100 [] t0 None t0 t0.

(** A draft invoice with one line of 100 on which 60 was paid. *)
Definition inv_2 : Invoice.t :=
  Invoice.mk "inv_2" "cus_1" None None "INV-202401-00002" draft USD
    100 0 100 60 40
    [InvoiceLineItem.mk "li_1" "inv_2" "seat" 1 100 100 None (Some 0%float)]
    t0 None t0 t0.

(** A payment of 50 for [inv_1], still processing. *)
Definition pay_1 : Payment.t :=
  Payment.mk "pay_1" "cus_1" (Some "inv_1") (Some "pi_1") 50 USD processing
    0 t0 t0.

(** A succeeded payment of 100 with nothing refunded. *)
Definition pay_2 : Payment.t :=
  Payment.mk "pay_2" "cus_1" None (Some "pi_2") 100 USD succeeded 0 t0 t0.

Definition plan_year : Plan.t :=
  Plan.mk "plan_year" "Yearly" None 1200 USD Dayjs.year 1 None true.

Definition plan_day : Plan.t :=
  Plan.mk "plan_day" "Daily" None 10 USD Dayjs.day 1 None true.

(** An active subscription to the yearly plan for 2024. *)
Definition sub_1 : Subscription.t :=
  Subscription.mk "sub_1" "cus_1" None active "plan_year" 1 USD
    (Dayjs.make 2024 0 1 0) (Dayjs.make 2025 0 1 0) false None None None None
    ∅ t0 t0.

(** A canceled subscription. *)
Definition sub_2 : Subscription.t :=
  Subscription.mk "sub_2" "cus_1" None canceled "plan_year" 1 USD
    (Dayjs.make 2024 0 1 0) (Dayjs.make 2025 0 1 0) false (Some t0) (Some t0)
    None None ∅ t0 t0.

(** An active subscription whose period starts and ends at the same
    instant. *)
Definition sub_3 : Subscription.t :=
  Subscription.mk "sub_3" "cus_1" None active "plan_day" 1 USD
    t0 t0 false None None None None ∅ t0 t0.

(** A subscription of quantity 9901 with a period of eight days. *)
Definition sub_4 : Subscription.t :=
  Subscription.mk "sub_4" "cus_1" None active "plan_day" 9901 USD
    (Dayjs.make 2024 0 1 0) (Dayjs.make 2024 0 9 0) false None None None None
    ∅ t0 t0.

(** A subscription of quantity 30 with a period of thirty days. *)
Definition sub_5 : Subscription.t :=
  Subscription.mk "sub_5" "cus_1" None active "plan_day" 30 USD
    (Dayjs.make 2024 3 1 0) (Dayjs.make 2024 4 1 0) false None None None None
    ∅ t0 t0.

Definition db : Db :=
  mkDb
    (<["pay_1" := pay_1]> (<["pay_2" := pay_2]> ∅))
    []
    (<["inv_1" := inv_1]> (<["inv_2" := inv_2]> ∅))
    (<["sub_1" := sub_1]> (<["sub_2" := sub_2]> (<["sub_3" := sub_3]>
       (<["sub_4" := sub_4]> (<["sub_5" := sub_5]> ∅)))))
    (<["plan_year" := plan_year]> (<["plan_day" := plan_day]> ∅)).

(** A succeeded payment of 0.11 with nothing refunded. *)
Definition pay_3 : Payment.t :=
  Payment.mk "pay_3" "cus_1" None (Some "pi_3") 0.11 USD succeeded 0 t0 t0.

(** An open invoice of 0.11 with nothing paid. *)
Definition inv_3 : Invoice.t :=
  Invoice.mk "inv_3" "cus_1" None None "INV-202401-00003" open USD
    0.11 0 0.11 0 0.11 [] t0 None t0 t0.

(** A store of amounts in cents. *)
Definition db_cents : Db :=
  mkDb (<["pay_3" := pay_3]> ∅) [] (<["inv_3" := inv_3]> ∅) ∅ ∅.

(** A plan of amount 60, a subscription of quantity 23 with a period
    of forty days, and a store that holds them with [sub_5]. *)
Definition plan_60 : Plan.t :=
  Plan.mk "plan_60" "Sixty" None 60 USD Dayjs.month 1 None true.

Definition sub_6 : Subscription.t :=
  Subscription.mk "sub_6" "cus_1" None active "plan_day" 23 USD
    (Dayjs.make 2024 0 1 0) (Dayjs.make 2024 1 10 0) false None None None None
    ∅ t0 t0.

Definition db_proration : Db :=
  mkDb ∅ [] ∅ (<["sub_5" := sub_5]> (<["sub_6" := sub_6]> ∅))
    (<["plan_60" := plan_60]> ∅).

(** A store whose only subscription is active, in USD, of quantity 1,
    on the daily plan of amount 10. *)
Definition db_daily : Db :=
  mkDb ∅ [] ∅
    (<["sub_d" :=
         Subscription.mk "sub_d" "cus_1" None active "plan_day" 1 USD
           (Dayjs.make 2024 0 1 0) (Dayjs.make 2024 0 2 0) false None None
           None None ∅ t0 t0]> ∅)
    (<["plan_day" := plan_day]> ∅).

End Sample.

(** * Properties *)

(** ** Numbers *)

(** The comparison of two numbers, on their specification. *)
Lemma SFcompare_refl (s : spec_float) :
  s <> S754_nan -> SFcompare s s = Some Eq.
Proof.
  destruct s as [b|b| |b m e]; intros H; try (destruct b; reflexivity);
    [contradiction|].
  simpl. rewrite Z.compare_refl, Pos.compare_cont_refl. destruct b; reflexivity.
Qed.

Lemma SFcompare_antisym (x y : spec_float) :
  SFcompare y x = option_map CompOpp (SFcompare x y).
Proof.
  destruct x as [sx|sx| |sx mx ex], y as [sy|sy| |sy my ey]; simpl;
    try reflexivity; try (destruct sx; reflexivity);
    try (destruct sy; reflexivity); try (destruct sx, sy; reflexivity).
  destruct sx, sy; try reflexivity;
    rewrite (Z.compare_antisym ex ey);
    destruct (ex ?= ey)%Z; simpl; try reflexivity;
    rewrite (Pos.compare_cont_antisym mx my Eq); simpl;
    rewrite ?CompOpp_involutive; reflexivity.
Qed.

Lemma isNaN_spec (x : JS.number) :
  JS.isNaN x = true <-> Prim2SF x = S754_nan.
Proof.
  unfold JS.isNaN, is_nan. rewrite FloatAxioms.eqb_spec. unfold SFeqb.
  destruct (Prim2SF x) eqn:E; try (rewrite SFcompare_refl by discriminate);
    simpl; split; congruence.
Qed.

Lemma isNaN_false (x : JS.number) :
  JS.isNaN x = false <-> Prim2SF x <> S754_nan.
Proof.
  rewrite <- isNaN_spec. destruct (JS.isNaN x); split; congruence.
Qed.

Lemma strict_eq_refl (x : JS.number) :
  JS.isNaN x = false -> JS.strict_eq x x = true.
Proof. unfold JS.isNaN, is_nan, JS.strict_eq. now destruct (x =? x)%float. Qed.

Lemma lt_le (x y : JS.number) : JS.lt x y = true -> JS.le x y = true.
Proof.
  unfold JS.lt, JS.le. rewrite ltb_spec, leb_spec. unfold SFltb, SFleb.
  destruct (SFcompare (Prim2SF x) (Prim2SF y)) as [[]|]; congruence.
Qed.

(** Two numbers are ordered: when [x > y] is false, [x <= y]. *)
Lemma not_gt_le (x y : JS.number) :
  JS.isNaN x = false -> JS.isNaN y = false ->
  JS.gt x y = false -> JS.le x y = true.
Proof.
  rewrite !isNaN_false. unfold JS.gt, JS.le. rewrite ltb_spec, leb_spec.
  unfold SFltb, SFleb. rewrite (SFcompare_antisym (Prim2SF x) (Prim2SF y)).
  destruct (Prim2SF x) as [sx|sx| |sx mx ex] eqn:Ex; [| |contradiction|];
    (destruct (Prim2SF y) as [sy|sy| |sy my ey] eqn:Ey; [| |contradiction|]);
    intros _ _;
    match goal with |- context [SFcompare ?a ?b] =>
      destruct (SFcompare a b) as [[]|] eqn:C end;
    simpl; try congruence; simpl in C; try discriminate;
    try (destruct sx; discriminate); try (destruct sy; discriminate);
    try (destruct sx, sy; discriminate).
Qed.

Lemma le_gt_false (x y : JS.number) : JS.le x y = true -> JS.gt x y = false.
Proof.
  unfold JS.gt, JS.le. rewrite ltb_spec, leb_spec. unfold SFltb, SFleb.
  rewrite (SFcompare_antisym (Prim2SF x) (Prim2SF y)).
  destruct (SFcompare (Prim2SF x) (Prim2SF y)) as [[]|]; simpl; congruence.
Qed.

(** [x - 0] is [x], whatever [x] is. *)
Lemma sub_zero (x : JS.number) : (x - 0)%float = x.
Proof.
  apply Prim2SF_inj. rewrite sub_spec.
  change (Prim2SF 0) with (S754_zero false). unfold SF64sub.
  destruct (Prim2SF x) as [sx|sx| |sx mx ex]; try reflexivity;
    destruct sx; reflexivity.
Qed.

(** [0 + x] and [x + 0] compare as [x] does (they are [x], or [+0] for
    [-0]). *)
Lemma zero_add_spec (x : JS.number) :
  Prim2SF (0 + x)%float = Prim2SF x
  \/ (Prim2SF x = S754_zero true /\ Prim2SF (0 + x)%float = S754_zero false).
Proof.
  rewrite add_spec. change (Prim2SF 0) with (S754_zero false). unfold SF64add.
  destruct (Prim2SF x) as [sx|sx| |sx mx ex]; simpl; try (left; reflexivity).
  destruct sx; [right; split; reflexivity | left; reflexivity].
Qed.

Lemma add_zero_spec (x : JS.number) :
  Prim2SF (x + 0)%float = Prim2SF x
  \/ (Prim2SF x = S754_zero true /\ Prim2SF (x + 0)%float = S754_zero false).
Proof.
  rewrite add_spec. change (Prim2SF 0) with (S754_zero false). unfold SF64add.
  destruct (Prim2SF x) as [sx|sx| |sx mx ex]; simpl; try (left; reflexivity).
  destruct sx; [right; split; reflexivity | left; reflexivity].
Qed.

Lemma SFcompare_zero_sign (s : bool) (y : spec_float) :
  SFcompare (S754_zero s) y = SFcompare (S754_zero false) y.
Proof. destruct y; reflexivity. Qed.

Lemma SFcompare_zero_sign_r (s : bool) (x : spec_float) :
  SFcompare x (S754_zero s) = SFcompare x (S754_zero false).
Proof. destruct x; reflexivity. Qed.

Lemma zero_add_le (x y : JS.number) : JS.le (0 + x) y = JS.le x y.
Proof.
  unfold JS.le. rewrite !leb_spec. unfold SFleb.
  destruct (zero_add_spec x) as [-> | [E ->]]; [reflexivity|].
  rewrite E, (SFcompare_zero_sign true). reflexivity.
Qed.

Lemma zero_add_eq (x : JS.number) :
  JS.isNaN x = false -> JS.strict_eq (0 + x) x = true.
Proof.
  intros H. apply isNaN_false in H. unfold JS.strict_eq.
  rewrite FloatAxioms.eqb_spec. unfold SFeqb.
  destruct (zero_add_spec x) as [-> | [E ->]].
  - now rewrite SFcompare_refl.
  - rewrite E. reflexivity.
Qed.

Lemma add_zero_eq (x : JS.number) :
  JS.isNaN x = false -> JS.strict_eq (x + 0) x = true.
Proof.
  intros H. apply isNaN_false in H. unfold JS.strict_eq.
  rewrite FloatAxioms.eqb_spec. unfold SFeqb.
  destruct (add_zero_spec x) as [-> | [E ->]].
  - now rewrite SFcompare_refl.
  - rewrite E. reflexivity.
Qed.

(** [Math.max(0, x)] is NaN for NaN, [x] when [0 < x], and [0]
    otherwise. *)
Lemma Math_max_zero_cases (x : JS.number) :
  (JS.isNaN x = true /\ JS.Math_max 0 x = nan)
  \/ (JS.isNaN x = false /\ JS.lt 0 x = true /\ JS.Math_max 0 x = x)
  \/ (JS.isNaN x = false /\ JS.lt 0 x = false /\ JS.Math_max 0 x = 0%float).
Proof.
  unfold JS.Math_max. change (JS.isNaN 0) with false. simpl orb.
  destruct (JS.isNaN x); [left; split; reflexivity|]. right.
  destruct (JS.lt 0 x); [left; repeat split; reflexivity|]. right.
  change (get_sign 0) with false.
  destruct (JS.lt x 0); repeat split; reflexivity.
Qed.

Lemma Math_max_zero_not_negative (x : JS.number) :
  JS.lt (JS.Math_max 0 x) 0 = false.
Proof.
  destruct (Math_max_zero_cases x) as [[_ ->] | [(_ & H & ->) | (_ & _ & ->)]];
    try reflexivity.
  apply lt_le, le_gt_false in H. exact H.
Qed.

Lemma Math_max_zero_nonneg (x : JS.number) :
  JS.isNaN x = false -> JS.le 0 (JS.Math_max 0 x) = true.
Proof.
  intros Hx.
  destruct (Math_max_zero_cases x) as [[H _] | [(_ & H & ->) | (_ & _ & ->)]];
    [congruence | now apply lt_le | reflexivity].
Qed.

(** [Math.min(0, x)] is never above [0]. *)
Lemma Math_min_zero_nonpos (x : JS.number) :
  JS.isNaN x = false -> JS.le (JS.Math_min 0 x) 0 = true.
Proof.
  intros Hx. unfold JS.Math_min. change (JS.isNaN 0) with false. simpl orb.
  rewrite Hx. destruct (JS.lt 0 x) eqn:H1; [reflexivity|].
  destruct (JS.lt x 0) eqn:H2; [now apply lt_le|].
  change (get_sign 0) with false. cbv iota.
  apply not_gt_le; [exact Hx | reflexivity | exact H1].
Qed.

Lemma le_numbers (x y : JS.number) :
  JS.le x y = true -> JS.isNaN x = false /\ JS.isNaN y = false.
Proof.
  unfold JS.le. rewrite leb_spec, !isNaN_false. unfold SFleb.
  destruct (Prim2SF x), (Prim2SF y); simpl; intros H;
    split; congruence.
Qed.

Lemma truthy_is_number (x : JS.number) :
  JS.truthy x = true -> JS.isNaN x = false.
Proof.
  unfold JS.truthy. intros H. apply andb_true_iff in H as [_ H].
  now apply negb_true_iff in H.
Qed.

(** [x || d] is [x] or [d], and a number when [d] is one. *)
Lemma opt_or_else_cases (x : option JS.number) (d : JS.number) :
  (exists v, x = Some v /\ JS.truthy v = true /\ JS.opt_or_else x d = v)
  \/ JS.opt_or_else x d = d.
Proof.
  destruct x as [v|]; [|right; reflexivity].
  unfold JS.opt_or_else, JS.or_else.
  destruct (JS.truthy v) eqn:E; [left; eauto | right; reflexivity].
Qed.

Lemma opt_or_else_number (x : option JS.number) (d : JS.number) :
  JS.isNaN d = false -> JS.isNaN (JS.opt_or_else x d) = false.
Proof.
  intros Hd. destruct (opt_or_else_cases x d) as [(v & _ & Hv & ->) | ->];
    [now apply truthy_is_number | exact Hd].
Qed.

(** ** Repository rows *)

Lemma update_row_invoices id patch db inv :
  invoices db !! id = Some inv ->
  InvoiceRepository.update id patch db
  = (Ok (Some (patch inv)), set_invoices (insert id (patch inv)) db).
Proof.
  intros H. unfold InvoiceRepository.update, update_row. now rewrite H.
Qed.

Lemma update_row_payments id patch db p :
  payments db !! id = Some p ->
  PaymentRepository.update id patch db
  = (Ok (Some (patch p)), set_payments (insert id (patch p)) db).
Proof.
  intros H. unfold PaymentRepository.update, update_row. now rewrite H.
Qed.

(** ** Invoice bookkeeping *)

(** What [updateInvoicePayment] writes on an invoice that exists. *)
Lemma updateInvoicePayment_run now id amt db inv :
  invoices db !! id = Some inv ->
  let paid' := (Invoice.amountPaid inv + amt)%float in
  let due' := JS.Math_max 0 (Invoice.total inv - paid')%float in
  let st' := if JS.strict_eq due' 0 then paid else Invoice.status inv in
  PaymentService.updateInvoicePayment now id amt db
  = (Ok tt,
     set_invoices
       (insert id
          (Invoice.with_payment paid' due' st'
             (if bool_decide (st' = paid) then Some now else None) now inv))
       db).
Proof.
  intros H. cbv zeta.
  unfold PaymentService.updateInvoicePayment, bind, InvoiceRepository.findById, gets.
  rewrite H. rewrite (update_row_invoices _ _ _ _ H). reflexivity.
Qed.

Lemma addLineItem_run now uuid id input db inv :
  invoices db !! id = Some inv ->
  Invoice.status inv = draft ->
  exists items sub tx,
    InvoiceService.addLineItem now uuid id input db
    = (Ok (Some (Invoice.with_lineItems items sub tx (sub + tx)%float
                   (sub + tx - Invoice.amountPaid inv)%float now inv)),
       set_invoices
         (insert id
            (Invoice.with_lineItems items sub tx (sub + tx)%float
               (sub + tx - Invoice.amountPaid inv)%float now inv))
         db).
Proof.
  intros H Hd.
  unfold InvoiceService.addLineItem, bind, InvoiceRepository.findById, gets.
  rewrite H, Hd. simpl.
  rewrite (update_row_invoices _ _ _ _ H). eauto.
Qed.

Lemma removeLineItem_run now id item db inv :
  invoices db !! id = Some inv ->
  Invoice.status inv = draft ->
  exists items sub tx,
    InvoiceService.removeLineItem now id item db
    = (Ok (Some (Invoice.with_lineItems items sub tx (sub + tx)%float
                   (sub + tx - Invoice.amountPaid inv)%float now inv)),
       set_invoices
         (insert id
            (Invoice.with_lineItems items sub tx (sub + tx)%float
               (sub + tx - Invoice.amountPaid inv)%float now inv))
         db).
Proof.
  intros H Hd.
  unfold InvoiceService.removeLineItem, bind, InvoiceRepository.findById, gets.
  rewrite H, Hd. simpl.
  rewrite (update_row_invoices _ _ _ _ H). eauto.
Qed.

Lemma lookup_set_invoices id row db :
  invoices (set_invoices (insert id row) db) !! id = Some row.
Proof. simpl. apply lookup_insert_eq. Qed.

(** ** Webhook payment updates *)

(** Applying the same payment to an invoice a second time adds the
    amount a second time. *)
Lemma updateInvoicePayment_twice now id amt db inv :
  invoices db !! id = Some inv ->
  exists inv'',
    invoices
      (snd (PaymentService.updateInvoicePayment now id amt
              (snd (PaymentService.updateInvoicePayment now id amt db)))) !! id
    = Some inv''
    /\ Invoice.amountPaid inv'' = (Invoice.amountPaid inv + amt + amt)%float.
Proof.
  intros H.
  rewrite (updateInvoicePayment_run now id amt db inv H). cbv zeta. simpl snd.
  erewrite updateInvoicePayment_run by apply lookup_set_invoices.
  cbv zeta. eexists. split; [apply lookup_set_invoices|]. simpl. reflexivity.
Qed.

(** C1 (the code departs from the claim): the event
    [payment_intent.succeeded] for the payment intent [pi_1] (a payment
    of 50 linked to an open invoice of 100) is delivered once, then a
    second time.  After one delivery the invoice has [amountPaid = 50]
    and is still open; after the second it has [amountPaid = 100] and
    is paid. *)
Theorem webhook_redelivery_changes_invoice :
  let deliver := PaymentService.processWebhookPaymentUpdate Sample.t0
                   "pi_1" "succeeded" in
  let once := snd (deliver Sample.db) in
  let twice := snd (deliver once) in
  fst (deliver Sample.db) = Ok tt
  /\ fst (deliver once) = Ok tt
  /\ Payment.status <$> payments once !! "pay_1" = Some succeeded
  /\ Invoice.amountPaid <$> invoices once !! "inv_1" = Some 50%float
  /\ Invoice.status <$> invoices once !! "inv_1" = Some open
  /\ Invoice.amountPaid <$> invoices twice !! "inv_1" = Some 100%float
  /\ Invoice.status <$> invoices twice !! "inv_1" = Some paid.
Proof. vm_compute. repeat split. Qed.

(** ** Refunds *)

(** A call of [refundPayment] either throws and leaves the store as it
    was, or finds a succeeded payment, refunds an amount that does not
    exceed what is available, records the refund and rewrites the
    payment row. *)
Lemma refundPayment_outcome gw now uuid input db :
  (exists e, PaymentService.refundPayment gw now uuid input db = (Throw e, db))
  \/ (exists p r,
        payments db !! PaymentService.paymentId input = Some p
        /\ Payment.status p = succeeded
        /\ JS.gt (refund_amount_of input p)
             (Payment.amount p - Payment.refundedAmount p) = false
        /\ Refund.amount r = refund_amount_of input p
        /\ PaymentService.refundPayment gw now uuid input db
           = (Ok r,
              set_payments
                (insert (PaymentService.paymentId input)
                   (refunded_row now (refund_amount_of input p) p))
                (set_refunds (fun rs => rs ++ [r]) db))).
Proof.
  unfold PaymentService.refundPayment, bind, PaymentRepository.findById, gets.
  destruct (payments db !! PaymentService.paymentId input) as [p|] eqn:Hp;
    [|left; eexists; reflexivity].
  unfold throw_if.
  destruct (bool_decide (Payment.status p = succeeded)) eqn:Hs; simpl;
    [|left; eexists; reflexivity].
  apply bool_decide_eq_true in Hs.
  fold (refund_amount_of input p).
  destruct (JS.gt (refund_amount_of input p)
              (Payment.amount p - Payment.refundedAmount p)) eqn:Hg; simpl;
    [left; eexists; reflexivity|].
  assert (Hupd : forall r,
    PaymentRepository.update (PaymentService.paymentId input)
      (fun p0 => Payment.with_updatedAt now
         (Payment.with_status
            (if JS.ge (Payment.refundedAmount p + refund_amount_of input p)
                  (Payment.amount p)
             then refunded else partially_refunded)
            (Payment.with_refundedAmount
               (Payment.refundedAmount p + refund_amount_of input p) p0)))
      (set_refunds (fun rs => rs ++ [r]) db)
    = (Ok (Some (refunded_row now (refund_amount_of input p) p)),
       set_payments
         (insert (PaymentService.paymentId input)
            (refunded_row now (refund_amount_of input p) p))
         (set_refunds (fun rs => rs ++ [r]) db))).
  { intros r. unfold PaymentRepository.update, update_row. simpl.
    rewrite Hp. reflexivity. }
  destruct (Payment.stripePaymentIntentId p) as [pi|] eqn:Hpi.
  - destruct (truthy_string pi) eqn:Ht.
    + unfold lift, ret.
      destruct (Stripe.createRefund gw pi _ _) as [rid|e] eqn:Hgw;
        [|left; eexists; reflexivity].
      right. eexists p, _. repeat split; try assumption; cycle 1.
      * unfold PaymentRepository.createRefund, modify. rewrite Hupd. reflexivity.
      * reflexivity.
    + right. eexists p, _. repeat split; try assumption; cycle 1.
      * unfold ret, PaymentRepository.createRefund, modify. rewrite Hupd. reflexivity.
      * reflexivity.
  - right. eexists p, _. repeat split; try assumption; cycle 1.
    + unfold ret, PaymentRepository.createRefund, modify. rewrite Hupd. reflexivity.
    + reflexivity.
Qed.

(** A payment that is not [succeeded] cannot be refunded. *)
Lemma refundPayment_not_succeeded gw now uuid input db p :
  payments db !! PaymentService.paymentId input = Some p ->
  Payment.status p <> succeeded ->
  PaymentService.refundPayment gw now uuid input db
  = (Throw (mkError InvalidState "Can only refund succeeded payments"), db).
Proof.
  intros Hp Hs.
  unfold PaymentService.refundPayment, bind, PaymentRepository.findById, gets.
  rewrite Hp. unfold throw_if.
  rewrite bool_decide_eq_false_2 by exact Hs. reflexivity.
Qed.

(** A request within what is available on a succeeded payment is
    served whenever the gateway call returns. *)
Lemma refundPayment_returns gw now uuid input db p :
  payments db !! PaymentService.paymentId input = Some p ->
  Payment.status p = succeeded ->
  JS.gt (refund_amount_of input p)
    (Payment.amount p - Payment.refundedAmount p) = false ->
  (forall pi, Payment.stripePaymentIntentId p = Some pi ->
     is_ok (Stripe.createRefund gw pi
              (JS.Math_round (refund_amount_of input p * 100))
              (PaymentService.reason input)) = true) ->
  exists r,
    PaymentService.refundPayment gw now uuid input db
    = (Ok r,
       set_payments
         (insert (PaymentService.paymentId input)
            (refunded_row now (refund_amount_of input p) p))
         (set_refunds (fun rs => rs ++ [r]) db))
    /\ Refund.paymentId r = PaymentService.paymentId input
    /\ Refund.amount r = refund_amount_of input p.
Proof.
  intros Hp Hs Hg Hgw.
  unfold PaymentService.refundPayment, bind, PaymentRepository.findById, gets.
  rewrite Hp. unfold throw_if.
  rewrite bool_decide_eq_true_2 by exact Hs. simpl.
  fold (refund_amount_of input p). rewrite Hg. simpl.
  assert (Hupd : forall r,
    PaymentRepository.update (PaymentService.paymentId input)
      (fun p0 => Payment.with_updatedAt now
         (Payment.with_status
            (if JS.ge (Payment.refundedAmount p + refund_amount_of input p)
                  (Payment.amount p)
             then refunded else partially_refunded)
            (Payment.with_refundedAmount
               (Payment.refundedAmount p + refund_amount_of input p) p0)))
      (set_refunds (fun rs => rs ++ [r]) db)
    = (Ok (Some (refunded_row now (refund_amount_of input p) p)),
       set_payments
         (insert (PaymentService.paymentId input)
            (refunded_row now (refund_amount_of input p) p))
         (set_refunds (fun rs => rs ++ [r]) db))).
  { intros r. unfold PaymentRepository.update, update_row. simpl.
    rewrite Hp. reflexivity. }
  destruct (Payment.stripePaymentIntentId p) as [pi|] eqn:Hpi.
  - destruct (truthy_string pi) eqn:Ht.
    + unfold lift, ret. specialize (Hgw pi eq_refl).
      destruct (Stripe.createRefund gw pi _ _) as [rid|e]; [|discriminate].
      unfold PaymentRepository.createRefund, modify. rewrite Hupd.
      eexists. split; [reflexivity|]. split; reflexivity.
    + unfold ret, PaymentRepository.createRefund, modify. rewrite Hupd.
      eexists. split; [reflexivity|]. split; reflexivity.
  - unfold ret, PaymentRepository.createRefund, modify. rewrite Hupd.
    eexists. split; [reflexivity|]. split; reflexivity.
Qed.

(** The row of a payment after one call: untouched, or rewritten by a
    refund of that payment. *)
Lemma refund_step_row db c id p :
  payments db !! id = Some p ->
  payments (snd (refund_step db c)) !! id = Some p
  \/ (PaymentService.paymentId (call_input c) = id
      /\ Payment.status p = succeeded
      /\ is_ok (fst (refund_step db c)) = true
      /\ JS.gt (refund_amount_of (call_input c) p)
           (Payment.amount p - Payment.refundedAmount p) = false
      /\ payments (snd (refund_step db c)) !! id
         = Some (refunded_row (call_now c) (refund_amount_of (call_input c) p) p)).
Proof.
  intros Hp. unfold refund_step.
  destruct (refundPayment_outcome (call_gateway c) (call_now c) (call_uuid c)
              (call_input c) db) as [[e ->] | (p0 & r & Hp0 & Hs & Hle & _ & ->)].
  - left. exact Hp.
  - simpl. destruct (decide (PaymentService.paymentId (call_input c) = id)) as [E|N].
    + right. subst id. rewrite Hp in Hp0. injection Hp0 as <-.
      repeat split; try assumption. apply lookup_insert_eq.
    + left. rewrite lookup_insert_ne by exact N. exact Hp.
Qed.

Lemma refunded_row_amount now ra p :
  Payment.amount (refunded_row now ra p) = Payment.amount p.
Proof. reflexivity. Qed.

Lemma refunded_row_status now ra p :
  Payment.status (refunded_row now ra p) = refunded
  \/ Payment.status (refunded_row now ra p) = partially_refunded.
Proof.
  unfold refunded_row. simpl.
  destruct (JS.ge _ _); [left | right]; reflexivity.
Qed.

(** A payment that left [succeeded] keeps its row through any sequence
    of calls. *)
Lemma run_refunds_frozen cs : forall db id p,
  payments db !! id = Some p ->
  Payment.status p <> succeeded ->
  payments (run_refunds cs db) !! id = Some p.
Proof.
  induction cs as [|c cs IH]; intros db id p Hp Hs; [exact Hp|].
  simpl. apply IH; [|exact Hs].
  destruct (refund_step_row db c id p Hp) as [H | (_ & Hsucc & _)];
    [exact H | contradiction].
Qed.

(** The first refund of a payment keeps the refunded amount within the
    amount: the request is compared with [amount - 0], which is the
    amount, and [0 + request] is stored. *)
Lemma first_refund_bound now input p :
  Payment.refundedAmount p = 0%float ->
  JS.le 0 (Payment.amount p) = true ->
  JS.gt (refund_amount_of input p)
    (Payment.amount p - Payment.refundedAmount p) = false ->
  JS.le (Payment.refundedAmount (refunded_row now (refund_amount_of input p) p))
    (Payment.amount (refunded_row now (refund_amount_of input p) p)) = true.
Proof.
  intros H0 Ha Hg. simpl. unfold refund_amount_of in *. rewrite H0 in *.
  rewrite sub_zero in *. rewrite zero_add_le.
  apply not_gt_le; [|apply (le_numbers _ _ Ha)|exact Hg].
  apply opt_or_else_number, (le_numbers _ _ Ha).
Qed.

(** The refund bound is kept by any sequence of calls on a payment
    that has no refund yet. *)
Lemma run_refunds_bound cs : forall db id p,
  payments db !! id = Some p ->
  (Payment.refundedAmount p = 0%float \/ Payment.status p <> succeeded) ->
  JS.le (Payment.refundedAmount p) (Payment.amount p) = true ->
  JS.le 0 (Payment.amount p) = true ->
  exists p',
    payments (run_refunds cs db) !! id = Some p'
    /\ Payment.amount p' = Payment.amount p
    /\ JS.le (Payment.refundedAmount p') (Payment.amount p') = true.
Proof.
  induction cs as [|c cs IH]; intros db id p Hp Hfresh Hb Ha.
  - exists p. repeat split; assumption.
  - simpl.
    destruct (refund_step_row db c id p Hp) as [H | (_ & Hs & _ & Hg & H)].
    + exact (IH _ _ _ H Hfresh Hb Ha).
    + destruct Hfresh as [H0 | Hn]; [|contradiction].
      destruct (IH _ id _ H) as (p' & H1 & H2 & H3).
      * right.
        destruct (refunded_row_status (call_now c)
                    (refund_amount_of (call_input c) p) p) as [-> | ->];
          discriminate.
      * now apply first_refund_bound.
      * exact Ha.
      * exists p'. split; [exact H1|]. split; [|exact H3].
        rewrite H2. reflexivity.
Qed.




Lemma count_refunded_frozen id cs : forall db p,
  payments db !! id = Some p ->
  Payment.status p <> succeeded ->
  count_refunded id cs db = 0%nat.
Proof.
  induction cs as [|c cs IH]; intros db p Hp Hs; [reflexivity|].
  simpl. rewrite (IH _ p).
  - destruct (String.eqb_spec (PaymentService.paymentId (call_input c)) id) as [E|N].
    + unfold refund_step.
      rewrite (refundPayment_not_succeeded _ _ _ _ db p) by (rewrite ?E; assumption).
      reflexivity.
    + rewrite andb_false_r. reflexivity.
  - destruct (refund_step_row db c id p Hp) as [H | (_ & Hsucc & _)];
      [exact H | contradiction].
  - exact Hs.
Qed.

(** In any sequence of calls at most one refund of a given payment
    returns. *)
Lemma count_refunded_le_1 id cs : forall db, (count_refunded id cs db <= 1)%nat.
Proof.
  induction cs as [|c cs IH]; intros db; [simpl; lia|].
  simpl.
  destruct (is_ok (fst (refund_step db c))
            && String.eqb (PaymentService.paymentId (call_input c)) id) eqn:E.
  - apply andb_true_iff in E as [Hok Hid]. apply String.eqb_eq in Hid.
    unfold refund_step in *.
    destruct (refundPayment_outcome (call_gateway c) (call_now c) (call_uuid c)
                (call_input c) db) as [[e He] | (p & r & Hp & Hs & _ & _ & Hrun)].
    + rewrite He in Hok. discriminate.
    + rewrite Hrun. simpl snd.
      rewrite (count_refunded_frozen id cs _
                 (refunded_row (call_now c) (refund_amount_of (call_input c) p) p)).
      * lia.
      * simpl. rewrite Hid. apply lookup_insert_eq.
      * destruct (refunded_row_status (call_now c)
                    (refund_amount_of (call_input c) p) p) as [-> | ->]; discriminate.
  - specialize (IH (snd (refund_step db c))). lia.
Qed.

(** C10, as stated, fails: [pay_2] is refunded 30, which leaves it
    [partially_refunded]; a webhook update, or a capture, writes
    [succeeded] again, and a second [refundPayment] of 30 then
    returns. *)
Lemma refund_after_status_rewrite_counterexample :
  let refund :=
    PaymentService.refundPayment gateway_up Sample.t0 "ref_1"
      (PaymentService.mkRefundInput "pay_2" (Some 30%float)
         requested_by_customer) in
  let db1 := snd (refund Sample.db) in
  let db2 := snd (PaymentService.processWebhookPaymentUpdate Sample.t0 "pi_2"
                    "succeeded" db1) in
  let db2' := snd (PaymentService.capturePayment api_up Sample.t0 "pay_2" None
                     db1) in
  let db3 := snd (refund db2) in
  is_ok (fst (refund Sample.db)) = true
  /\ Payment.status <$> payments db1 !! "pay_2" = Some partially_refunded
  /\ is_ok (fst (refund db1)) = false
  /\ Payment.status <$> payments db2 !! "pay_2" = Some succeeded
  /\ is_ok (fst (refund db2)) = true
  /\ Payment.refundedAmount <$> payments db3 !! "pay_2" = Some 60%float
  /\ Payment.status <$> payments db2' !! "pay_2" = Some succeeded
  /\ is_ok (fst (refund db2')) = true.
Proof. vm_compute. repeat split. Qed.

(** C10 (amended): when a call of [refundPayment] returns, the payment
    was [succeeded] before the call and is [partially_refunded] or
    [refunded] after it; from then on, after any further sequence of
    [refundPayment] calls, every [refundPayment] on that payment
    throws, whatever amount it asks for, and no call of such a
    sequence returns a refund for it.  In any sequence of
    [refundPayment] calls on any store at most one refund of a given
    payment returns. *)
Theorem refund_succeeds_at_most_once
    (db : Db) (gw : Stripe.Client) (now : Dayjs.Date) (uuid : string)
    (input : PaymentService.RefundInput) (r : Refund.t) (db' : Db)
    (Hok : PaymentService.refundPayment gw now uuid input db = (Ok r, db')) :
  (exists p, payments db !! PaymentService.paymentId input = Some p
             /\ Payment.status p = succeeded)
  /\ (exists p', payments db' !! PaymentService.paymentId input = Some p'
                 /\ (Payment.status p' = partially_refunded
                     \/ Payment.status p' = refunded))
  /\ (forall cs gw2 now2 uuid2 amt reason,
        PaymentService.refundPayment gw2 now2 uuid2
          (PaymentService.mkRefundInput (PaymentService.paymentId input) amt reason)
          (run_refunds cs db')
        = (Throw (mkError InvalidState "Can only refund succeeded payments"),
           run_refunds cs db'))
  /\ (forall cs, count_refunded (PaymentService.paymentId input) cs db' = 0%nat)
  /\ (forall id0 cs0 db0, (count_refunded id0 cs0 db0 <= 1)%nat).
Proof.
  destruct (refundPayment_outcome gw now uuid input db)
    as [[e He] | (p & r0 & Hp & Hs & _ & _ & Hrun)].
  { rewrite He in Hok. discriminate. }
  rewrite Hrun in Hok. injection Hok as <- <-.
  set (p' := refunded_row now (refund_amount_of input p) p).
  assert (Hp' : payments
                  (set_payments (insert (PaymentService.paymentId input) p')
                     (set_refunds (fun rs => rs ++ [r0]) db))
                !! PaymentService.paymentId input = Some p')
    by (simpl; apply lookup_insert_eq).
  assert (Hs' : Payment.status p' <> succeeded).
  { destruct (refunded_row_status now (refund_amount_of input p) p) as [E | E];
      unfold p'; rewrite E; discriminate. }
  split; [exists p; split; assumption|].
  split.
  { exists p'. split; [exact Hp'|].
    destruct (refunded_row_status now (refund_amount_of input p) p) as [E | E];
      [right | left]; exact E. }
  split.
  { intros cs gw2 now2 uuid2 amt reason.
    apply (refundPayment_not_succeeded _ _ _ _ _ p'); [|exact Hs'].
    simpl. apply run_refunds_frozen; assumption. }
  split.
  { intros cs. apply (count_refunded_frozen _ _ _ p'); assumption. }
  intros id0 cs0 db0. apply count_refunded_le_1.
Qed.

Lemma refund_succeeds_at_most_once_witness :
  let input :=
    PaymentService.mkRefundInput "pay_2" (Some 30%float) requested_by_customer in
  let db' := snd (PaymentService.refundPayment gateway_up Sample.t0 "ref_1" input
                    Sample.db) in
  PaymentService.refundPayment gateway_up Sample.t0 "ref_1" input Sample.db
  = (Ok (Refund.mk "ref_1" "pay_2" (Some "re_1") 30 USD requested_by_customer
           succeeded Sample.t0 Sample.t0), db')
  /\ forall cs gw2 now2 uuid2 amt reason,
       PaymentService.refundPayment gw2 now2 uuid2
         (PaymentService.mkRefundInput "pay_2" amt reason) (run_refunds cs db')
       = (Throw (mkError InvalidState "Can only refund succeeded payments"),
          run_refunds cs db').
Proof.
  intros input db'.
  assert (H : PaymentService.refundPayment gateway_up Sample.t0 "ref_1" input
                Sample.db
              = (Ok (Refund.mk "ref_1" "pay_2" (Some "re_1") 30 USD
                       requested_by_customer succeeded Sample.t0 Sample.t0), db'))
    by (vm_compute; reflexivity).
  split; [exact H|].
  apply (refund_succeeds_at_most_once _ _ _ _ _ _ _ H).
Defined.

(** ** Subscription lifecycle *)

(** [resumeSubscription] refuses a canceled subscription and leaves the
    store as it was. *)
Lemma resumeSubscription_canceled gw now id db s :
  subscriptions db !! id = Some s ->
  Subscription.status s = canceled ->
  SubscriptionService.resumeSubscription gw now id db
  = (Throw (mkError InvalidState "Cannot resume a canceled subscription"), db).
Proof.
  intros Hs Hc.
  unfold SubscriptionService.resumeSubscription, bind,
    SubscriptionRepository.findById, gets.
  rewrite Hs, Hc. reflexivity.
Qed.

(** C8 (the code departs from the claim): [sub_2] is canceled.
    [resumeSubscription] throws [InvalidState] and leaves the store as
    it was, but [unpauseSubscription] returns and makes the
    subscription active again, [pauseSubscription] makes it paused, and
    [updateQuantity], [changePlan] and [updateSubscription] rewrite its
    quantity and plan. *)
Theorem canceled_subscription_is_mutated :
  let now := Dayjs.make 2024 5 1 0 in
  let after (run : M Db (option Subscription.t)) :=
    subscriptions (snd (run Sample.db)) !! "sub_2" in
  Subscription.status <$> subscriptions Sample.db !! "sub_2" = Some canceled
  /\ SubscriptionService.resumeSubscription gateway_up now "sub_2" Sample.db
     = (Throw (mkError InvalidState "Cannot resume a canceled subscription"),
        Sample.db)
  /\ is_ok (fst (SubscriptionService.unpauseSubscription gateway_up now "sub_2"
                   Sample.db)) = true
  /\ Subscription.status
       <$> after (SubscriptionService.unpauseSubscription gateway_up now "sub_2")
     = Some active
  /\ Subscription.status
       <$> after (SubscriptionService.pauseSubscription gateway_up now "sub_2"
                    SubscriptionService.keep_as_draft None)
     = Some paused
  /\ Subscription.quantity
       <$> after (SubscriptionService.updateQuantity gateway_up now "sub_2" 5 true)
     = Some 5%float
  /\ Subscription.planId
       <$> after (SubscriptionService.changePlan gateway_up now "sub_2"
                    "plan_day" true)
     = Some "plan_day"
  /\ Subscription.quantity
       <$> after (SubscriptionService.updateSubscription gateway_up now "sub_2"
                    (SubscriptionService.mkUpdateInput None (Some 7%float) None
                       None))
     = Some 7%float.
Proof. vm_compute. repeat split. Qed.

(** ** End-of-period billing *)

(** What [processEndOfPeriodBilling] does to the period of an active
    subscription: the new start is the old end, the new end is one
    calendar month later, whatever the plan. *)
Lemma processEndOfPeriodBilling_period now uuid id db s :
  subscriptions db !! id = Some s ->
  Subscription.id s = id ->
  Subscription.status s = active ->
  exists inv s',
    fst (BillingService.processEndOfPeriodBilling now uuid id db) = Ok (Some inv)
    /\ subscriptions (snd (BillingService.processEndOfPeriodBilling now uuid id db))
       !! id = Some s'
    /\ Subscription.currentPeriodStart s' = Subscription.currentPeriodEnd s
    /\ Subscription.currentPeriodEnd s'
       = Dayjs.add (Subscription.currentPeriodEnd s) 1 Dayjs.month.
Proof.
  intros Hs Hid Ha.
  unfold BillingService.processEndOfPeriodBilling, bind,
    SubscriptionRepository.findById, gets.
  rewrite Hs, Ha. simpl.
  unfold BillingService.advanceSubscriptionPeriod, bind,
    SubscriptionRepository.update, update_row. simpl.
  rewrite Hid, Hs. simpl.
  eexists _, _. split; [reflexivity|]. split; [apply lookup_insert_eq|].
  split; reflexivity.
Qed.

(** C4 (the code departs from the claim): [sub_1] is active, on a plan
    billed every year, with the period 2024-01-01 to 2025-01-01.
    After [processEndOfPeriodBilling] the period starts on 2025-01-01,
    the old end, and ends on 2025-02-01, one month later; one plan
    interval later, as [calculatePeriodEnd] computes it, is
    2026-01-01. *)
Theorem end_of_period_adds_one_month :
  let run := BillingService.processEndOfPeriodBilling
               (Dayjs.make 2025 0 1 0) "inv_new" "sub_1" Sample.db in
  let sub' := subscriptions (snd run) !! "sub_1" in
  is_ok (fst run) = true
  /\ (Plan.interval <$> plans Sample.db !! "plan_year",
      Plan.intervalCount <$> plans Sample.db !! "plan_year")
     = (Some Dayjs.year, Some 1)
  /\ Subscription.planId <$> subscriptions Sample.db !! "sub_1" = Some "plan_year"
  /\ Subscription.currentPeriodEnd <$> subscriptions Sample.db !! "sub_1"
     = Some (Dayjs.make 2025 0 1 0)
  /\ Subscription.currentPeriodStart <$> sub' = Some (Dayjs.make 2025 0 1 0)
  /\ Subscription.currentPeriodEnd <$> sub' = Some (Dayjs.make 2025 1 1 0)
  /\ SubscriptionService.calculatePeriodEnd (Dayjs.make 2025 0 1 0) Dayjs.year 1
     = Dayjs.make 2026 0 1 0
  /\ Dayjs.make 2025 1 1 0 <> Dayjs.make 2026 0 1 0.
Proof. vm_compute. repeat split. discriminate. Qed.

(** ** Recurring revenue *)

Lemma normalizeToMonthly_month (amount : JS.number) :
  BillingService.normalizeToMonthly amount "month" = amount.
Proof. reflexivity. Qed.

(** C5 (the code departs from the claim): the only subscription of
    [db_daily] is active, in USD, of quantity 1, on a plan of amount 10
    billed every day.  [getBillingOverview] reports an MRR of 1 (the
    quantity, taken as a monthly amount) and an ARR of 12; normalizing
    by the interval of the plan gives 300 for the amount of the plan
    and 30 for the quantity. *)
Theorem mrr_ignores_plan_interval :
  let overview := fst (BillingService.getBillingOverview USD Sample.db_daily) in
  BillingService.monthlyRecurringRevenue
    <$> (match overview with Ok o => Some o | Throw _ => None end)
  = Some 1%float
  /\ BillingService.annualRecurringRevenue
       <$> (match overview with Ok o => Some o | Throw _ => None end)
     = Some 12%float
  /\ (Plan.interval <$> plans Sample.db_daily !! "plan_day",
      Plan.amount <$> plans Sample.db_daily !! "plan_day")
     = (Some Dayjs.day, Some 10%float)
  /\ BillingService.normalizeToMonthly 10 "day" = 300%float
  /\ BillingService.normalizeToMonthly 1 "day" = 30%float.
Proof. vm_compute. repeat split. Qed.

(** ** Proration *)

(** [calculateProration] on a subscription that exists. *)
Lemma calculateProration_run id planId t db s :
  subscriptions db !! id = Some s ->
  BillingService.calculateProration id planId t db
  = (Ok (BillingService.proration (Subscription.quantity s)
           (Plan.amount (BillingService.getPlanById planId))
           (Dayjs.diff_days (Subscription.currentPeriodEnd s)
              (Subscription.currentPeriodStart s))
           (Dayjs.diff_days (Subscription.currentPeriodEnd s) t)),
     db).
Proof.
  intros Hs.
  unfold BillingService.calculateProration, bind,
    SubscriptionRepository.findById, gets.
  rewrite Hs. reflexivity.
Qed.

(** C2 (the code departs from the claim): the period of [sub_3] starts
    and ends at the same instant, so [totalDays = 0].
    [calculateProration] divides by it and returns NaN for the credit,
    the charge and the net amount; the claim asks for a credit of 0 and
    a charge and a net amount equal to the amount of the plan, 9900. *)
Theorem proration_same_day_period_is_nan :
  let s := Sample.sub_3 in
  let run := BillingService.calculateProration "sub_3" "plan_day" Sample.t0
               Sample.db in
  subscriptions Sample.db !! "sub_3" = Some s
  /\ Dayjs.diff_days (Subscription.currentPeriodEnd s)
       (Subscription.currentPeriodStart s) = 0
  /\ Plan.amount (BillingService.getPlanById "plan_day") = 9900%float
  /\ fst run = Ok (BillingService.mkProration nan nan nan)
  /\ fst run <> Ok (BillingService.mkProration 0 9900 9900).
Proof.
  vm_compute. repeat split. intros H.
  apply (f_equal (fun r => match r with
                           | Ok p => JS.isNaN (BillingService.credit p)
                           | Throw _ => false
                           end)) in H.
  vm_compute in H. discriminate H.
Qed.

(** [Math.round] on a finite number that is not zero, of value [q]: a
    number with no fractional bit is returned as it is; otherwise the
    result is the integer [floor (q + 1/2)], the nearest integer with a
    tie sent toward plus infinity (and a zero of the sign of the
    number when that integer is 0). *)
Lemma floor_half_shift (k e : Z) :
  e < 0 ->
  Qfloor (inject_Z k * 2 ^ e + (1 # 2))%Q
  = Z.shiftr (k + 2 ^ (- e - 1)) (- e).
Proof.
  intros He.
  rewrite Z.shiftr_div_pow2 by lia.
  rewrite Zdiv_Qdiv. apply Qfloor_comp.
  replace e with (- (- e)) at 1 by lia.
  rewrite Qpower_opp.
  set (n := - e - 1). assert (Hn : 0 <= n) by lia.
  replace (- e) with (n + 1) by lia.
  rewrite Z.pow_add_r by lia. change (2 ^ 1) with 2.
  rewrite inject_Z_plus, inject_Z_mult.
  rewrite Qpower_plus' by lia.
  rewrite (Zpower_Qpower 2 n Hn).
  change (inject_Z 2) with 2%Q.
  assert (Hp : ~ (2 ^ n == 0)%Q).
  { apply Qpower_not_0. discriminate. }
  change (2 ^ 1)%Q with 2%Q.
  field. exact Hp.
Qed.

Lemma Math_round_finite (x : JS.number) (s : bool) (m : positive) (e : Z) :
  Prim2SF x = S754_finite s m e ->
  exists q,
    JS.value x = Some q
    /\ (0 <= e -> JS.Math_round x = x)
    /\ (e < 0 ->
        JS.Math_round x
        = let n := Qfloor (q + (1 # 2))%Q in
          if (n =? 0)%Z then (if s then neg_zero else zero) else JS.of_Z n).
Proof.
  intros H. unfold JS.value, JS.Math_round. rewrite H.
  eexists. split; [reflexivity|]. split; intros He.
  - destruct (Z.leb_spec 0 e); [reflexivity | lia].
  - destruct (Z.leb_spec 0 e); [lia|].
    cbv zeta. rewrite floor_half_shift by exact He. reflexivity.
Qed.




(** ** Transaction sync *)

Section TransactionSync.
Import RampSyncService.

(** The four runs of [fetchTransactionsWithRetry], by the outcomes of
    the next three gateway calls. *)
Lemma fetch_first_try b p w page :
  script w (calls w) = Ok page ->
  fetchTransactionsWithRetry b p w = (Ok page, mkWorld (script w) (1 + calls w) (delays w)).
Proof.
  intros H. unfold fetchTransactionsWithRetry. simpl.
  unfold try_catch, listTransactions. rewrite H. reflexivity.
Qed.

Lemma fetch_second_try b p w e1 page :
  script w (calls w) = Throw e1 ->
  script w (1 + calls w) = Ok page ->
  fetchTransactionsWithRetry b p w
  = (Ok page, advanced w 2 [RETRY_DELAY_MS * 1]).
Proof.
  intros H1 H2. simpl in H2. unfold fetchTransactionsWithRetry. simpl.
  unfold try_catch, listTransactions, bind, delay, modify. rewrite H1. simpl.
  rewrite H2. reflexivity.
Qed.

Lemma fetch_third_try b p w e1 e2 (r : result Page) :
  script w (calls w) = Throw e1 ->
  script w (1 + calls w) = Throw e2 ->
  script w (2 + calls w) = r ->
  fetchTransactionsWithRetry b p w
  = (r, advanced w 3 [RETRY_DELAY_MS * 1; RETRY_DELAY_MS * 2]).
Proof.
  intros H1 H2 H3. simpl in H2, H3. unfold fetchTransactionsWithRetry. simpl.
  unfold try_catch, listTransactions, bind, delay, modify. rewrite H1. simpl.
  rewrite H2. simpl. rewrite H3. unfold advanced. simpl. rewrite <- app_assoc.
  destruct r; reflexivity.
Qed.

(** The scripted gateway does not look at the request. *)
Lemma fetch_params_irrelevant left b p p' attempt w :
  fetchTransactionsWithRetry_from left b p attempt w
  = fetchTransactionsWithRetry_from left b p' attempt w.
Proof.
  revert attempt w. induction left as [|left IH]; intros attempt w; simpl.
  - reflexivity.
  - unfold try_catch, listTransactions.
    destruct (script w (calls w)); [reflexivity|].
    destruct (attempt <? MAX_RETRIES); [|reflexivity].
    unfold bind, delay, modify. apply IH.
Qed.

(** A fetch that throws makes the sync throw, on whatever page the
    loop is. *)
Lemma sync_loop_fetch_throws pages b p options batchSize cursor acc w e :
  fst (fetchTransactionsWithRetry b p w) = Throw e ->
  sync_loop (S pages) b options batchSize cursor acc w
  = (Throw e, snd (fetchTransactionsWithRetry b p w)).
Proof.
  intros H. simpl. unfold bind at 1.
  unfold fetchTransactionsWithRetry in *.
  rewrite (fetch_params_irrelevant _ _ _ p).
  destruct (fetchTransactionsWithRetry_from _ b p 1 w) as [r w'].
  simpl in H. subst r. reflexivity.
Qed.



(** The sync of the three pages of [flaky_script] completes with the
    five transactions and no error, after waiting 1000 and 2000 ms. *)
Example sync_retries_transparently :
  syncTransactions 10 "biz_1" None (mkWorld flaky_script 0 [])
  = (Ok (Some (5, [])), mkWorld flaky_script 5 [1000; 2000]).
Proof. vm_compute. reflexivity. Qed.

End TransactionSync.

(** * Further properties *)

(** ** Gateway statuses *)

Lemma mapStripePaymentStatus_cases (s : string) :
  (s = "succeeded" /\ PaymentService.mapStripePaymentStatus s = succeeded)
  \/ (s <> "succeeded"
      /\ (PaymentService.mapStripePaymentStatus s = processing
          \/ PaymentService.mapStripePaymentStatus s = pending
          \/ PaymentService.mapStripePaymentStatus s = pay_canceled
          \/ PaymentService.mapStripePaymentStatus s = failed)).
Proof.
  destruct (decide (s = "succeeded")) as [-> | Hne]; [left; split; reflexivity|].
  right. split; [exact Hne|].
  unfold PaymentService.mapStripePaymentStatus.
  repeat case_match; subst; try contradiction; auto.
Qed.

(** X1: the status of a payment intent maps to [succeeded] exactly
    when it is the string [succeeded], and never to [refunded] or
    [partially_refunded]. *)
Theorem mapStripePaymentStatus_succeeded_iff (s : string) :
  (PaymentService.mapStripePaymentStatus s = succeeded <-> s = "succeeded")
  /\ PaymentService.mapStripePaymentStatus s <> refunded
  /\ PaymentService.mapStripePaymentStatus s <> partially_refunded.
Proof.
  destruct (mapStripePaymentStatus_cases s)
    as [[-> ->] | [Hne [E | [E | [E | E]]]]]; rewrite ?E;
    (split; [split; [intros; congruence | intros; congruence]|]);
    split; discriminate.
Qed.

(** ** Webhook payment updates, in general *)

Lemma find_none_all {A} (f : A -> bool) (l : list A) :
  (forall x, In x l -> f x = false) -> List.find f l = None.
Proof.
  induction l as [|a l IH]; intros H; [reflexivity|].
  simpl. rewrite (H a) by (left; reflexivity).
  apply IH. intros x Hx. apply H. right. exact Hx.
Qed.

Lemma findByStripePaymentIntentId_unknown pi db :
  (forall id p, payments db !! id = Some p ->
                Payment.stripePaymentIntentId p <> Some pi) ->
  PaymentRepository.findByStripePaymentIntentId pi db = (Ok None, db).
Proof.
  intros H. unfold PaymentRepository.findByStripePaymentIntentId, gets.
  rewrite find_none_all; [reflexivity|].
  intros [id p] Hin. apply bool_decide_eq_false_2. simpl.
  apply (H id). apply elem_of_map_to_list. apply list_elem_of_In. exact Hin.
Qed.

Lemma findByStripePaymentIntentId_found pi db p :
  PaymentRepository.findByStripePaymentIntentId pi db = (Ok (Some p), db) ->
  Payment.stripePaymentIntentId p = Some pi
  /\ exists id, payments db !! id = Some p.
Proof.
  unfold PaymentRepository.findByStripePaymentIntentId, gets. intros H.
  destruct (List.find _ _) as [[id q]|] eqn:E; simpl in H; [|discriminate].
  injection H as <-. apply find_some in E as [Hin Hf].
  apply bool_decide_eq_true in Hf. simpl in Hf. split; [exact Hf|].
  exists id. apply elem_of_map_to_list. apply list_elem_of_In. exact Hin.
Qed.

(** The payment table after a repository update holds the same keys. *)
Lemma update_row_payments_frame id patch db :
  invoices (snd (PaymentRepository.update id patch db)) = invoices db
  /\ refunds (snd (PaymentRepository.update id patch db)) = refunds db
  /\ subscriptions (snd (PaymentRepository.update id patch db)) = subscriptions db
  /\ plans (snd (PaymentRepository.update id patch db)) = plans db
  /\ fst (PaymentRepository.update id patch db)
     = Ok (patch <$> payments db !! id).
Proof.
  unfold PaymentRepository.update, update_row.
  destruct (payments db !! id); simpl; repeat split; reflexivity.
Qed.

Lemma updateInvoicePayment_frame now id amt db :
  fst (PaymentService.updateInvoicePayment now id amt db) = Ok tt
  /\ payments (snd (PaymentService.updateInvoicePayment now id amt db)) = payments db
  /\ refunds (snd (PaymentService.updateInvoicePayment now id amt db)) = refunds db
  /\ subscriptions (snd (PaymentService.updateInvoicePayment now id amt db))
     = subscriptions db
  /\ plans (snd (PaymentService.updateInvoicePayment now id amt db)) = plans db.
Proof.
  destruct (invoices db !! id) as [inv|] eqn:E.
  - rewrite (updateInvoicePayment_run now id amt db inv E). cbv zeta.
    repeat split; reflexivity.
  - unfold PaymentService.updateInvoicePayment, bind, InvoiceRepository.findById,
      gets.
    rewrite E. repeat split; reflexivity.
Qed.

(** X2: [processWebhookPaymentUpdate] never throws and never touches
    the refunds, the subscriptions or the plans; with a status other
    than [succeeded] it leaves every invoice as it was; for a payment
    intent that no payment carries it leaves the whole store as it
    was. *)
Theorem webhook_update_scope (now : Dayjs.Date) (pi status : string) (db : Db) :
  let run := PaymentService.processWebhookPaymentUpdate now pi status db in
  fst run = Ok tt
  /\ refunds (snd run) = refunds db
  /\ subscriptions (snd run) = subscriptions db
  /\ plans (snd run) = plans db
  /\ (status <> "succeeded" -> invoices (snd run) = invoices db)
  /\ ((forall id p, payments db !! id = Some p ->
                    Payment.stripePaymentIntentId p <> Some pi) ->
      snd run = db).
Proof.
  cbv zeta. unfold PaymentService.processWebhookPaymentUpdate, bind.
  destruct (PaymentRepository.findByStripePaymentIntentId pi db) as [r db0] eqn:F.
  assert (db0 = db) as ->
    by (unfold PaymentRepository.findByStripePaymentIntentId, gets in F; congruence).
  destruct r as [[p|]|e].
  - set (patch := fun p0 => Payment.with_updatedAt now
                    (Payment.with_status
                       (PaymentService.mapStripePaymentStatus status) p0)).
    destruct (update_row_payments_frame (Payment.id p) patch db)
      as (Hi & Hr & Hs & Hp & Hf).
    destruct (PaymentRepository.update (Payment.id p) patch db) as [r1 db1].
    simpl in Hi, Hr, Hs, Hp, Hf. subst r1.
    assert (Hknown : (forall id p0, payments db !! id = Some p0 ->
                       Payment.stripePaymentIntentId p0 <> Some pi) -> False).
    { intros Hnone. apply findByStripePaymentIntentId_found in F
        as [Hpi [id Hid]]. exact (Hnone id p Hid Hpi). }
    destruct (Payment.invoiceId p) as [inv|];
      [destruct (bool_decide
                   (PaymentService.mapStripePaymentStatus status = succeeded))
         eqn:Hb; simpl; [destruct (truthy_string inv)|]|].
    + destruct (updateInvoicePayment_frame now inv (Payment.amount p) db1)
        as (H1 & H2 & H3 & H4 & H5).
      split; [exact H1|]. split; [congruence|]. split; [congruence|].
      split; [congruence|]. split.
      * intros Hne. apply bool_decide_eq_true in Hb.
        destruct (mapStripePaymentStatus_cases status)
          as [[E _] | [_ [E | [E | [E | E]]]]]; [contradiction | congruence..].
      * intros Hnone. destruct (Hknown Hnone).
    + repeat (split; [assumption || reflexivity|]).
      split; [intros; assumption | intros Hnone; destruct (Hknown Hnone)].
    + repeat (split; [assumption || reflexivity|]).
      split; [intros; assumption | intros Hnone; destruct (Hknown Hnone)].
    + repeat (split; [assumption || reflexivity|]).
      split; [intros; assumption | intros Hnone; destruct (Hknown Hnone)].
  - repeat split; reflexivity.
  - unfold PaymentRepository.findByStripePaymentIntentId, gets in F. discriminate.
Qed.

(** ** Confirming, capturing and canceling a payment *)

(** [confirmPayment] on a payment that is neither pending nor
    processing. *)
Lemma confirmPayment_refused api now id db p :
  payments db !! id = Some p ->
  Payment.status p <> pending ->
  Payment.status p <> processing ->
  PaymentService.confirmPayment api now id db
  = (Throw (mkError InvalidState
              "Payment cannot be confirmed in its current state"), db).
Proof.
  intros Hp H1 H2.
  unfold PaymentService.confirmPayment, bind, PaymentRepository.findById, gets.
  rewrite Hp. unfold throw_if.
  rewrite !bool_decide_eq_false_2 by assumption. reflexivity.
Qed.

(** A call of [confirmPayment] that returns: the payment was pending
    or processing, the gateway answered with a status, the row got it,
    and the linked invoice got the amount when the status is
    [succeeded]. *)
Lemma confirmPayment_returns api now id db r db' :
  PaymentService.confirmPayment api now id db = (Ok r, db') ->
  exists p pi st,
    payments db !! id = Some p
    /\ (Payment.status p = pending \/ Payment.status p = processing)
    /\ Payment.stripePaymentIntentId p = Some pi
    /\ Stripe.confirmPaymentIntent api pi = Ok st
    /\ let row := Payment.with_updatedAt now
                    (Payment.with_status
                       (PaymentService.mapStripePaymentStatus st) p) in
       let db1 := set_payments (insert id row) db in
       r = Some row
       /\ db' = match Payment.invoiceId p with
                | Some inv =>
                    if bool_decide (PaymentService.mapStripePaymentStatus st
                                    = succeeded) && truthy_string inv
                    then snd (PaymentService.updateInvoicePayment now inv
                                (Payment.amount p) db1)
                    else db1
                | None => db1
                end.
Proof.
  unfold PaymentService.confirmPayment, bind, PaymentRepository.findById, gets.
  destruct (payments db !! id) as [p|] eqn:Hp; [|discriminate].
  unfold throw_if.
  destruct (bool_decide (Payment.status p = pending)) eqn:E1;
    destruct (bool_decide (Payment.status p = processing)) eqn:E2; simpl;
    try discriminate.
  all: destruct (Payment.stripePaymentIntentId p) as [pi|] eqn:Hpi;
    try discriminate.
  all: destruct (truthy_string pi); try discriminate.
  all: unfold lift; destruct (Stripe.confirmPaymentIntent api pi) as [st|e] eqn:G;
    try discriminate.
  all: rewrite (update_row_payments _ _ _ _ Hp).
  all: assert (Hst : Payment.status p = pending \/ Payment.status p = processing)
    by (first [left; now apply bool_decide_eq_true in E1
              | right; now apply bool_decide_eq_true in E2]).
  all: intros H; exists p, pi, st; cbv zeta;
    repeat (split; [assumption || reflexivity|]).
  all: destruct (Payment.invoiceId p) as [inv|];
    [destruct (bool_decide (PaymentService.mapStripePaymentStatus st = succeeded)
               && truthy_string inv) eqn:Hb; simpl in H|simpl in H].
  all: try (destruct (updateInvoicePayment_frame now inv (Payment.amount p)
                        (set_payments
                           <[id:=Payment.with_updatedAt now
                                   (Payment.with_status
                                      (PaymentService.mapStripePaymentStatus st) p)]>
                           db)) as (Hf & _);
            destruct (PaymentService.updateInvoicePayment now inv _ _) as [u d];
            simpl in Hf; subst u).
  all: unfold ret in H; injection H as <- <-; split; reflexivity.
Qed.

(** A call of [confirmPayment] that throws leaves the store as it
    was: the row and the invoice are written after the gateway call,
    and nothing throws after them. *)
Lemma confirmPayment_throws_frame api now id db :
  is_ok (fst (PaymentService.confirmPayment api now id db)) = false ->
  snd (PaymentService.confirmPayment api now id db) = db.
Proof.
  unfold PaymentService.confirmPayment, bind, PaymentRepository.findById, gets.
  destruct (payments db !! id) as [p|] eqn:Hp; [|reflexivity].
  unfold throw_if.
  destruct (negb (bool_decide (Payment.status p = pending))
            && negb (bool_decide (Payment.status p = processing)));
    [reflexivity|]. simpl.
  destruct (Payment.stripePaymentIntentId p) as [pi|]; [|reflexivity].
  destruct (truthy_string pi); [|reflexivity].
  unfold lift. destruct (Stripe.confirmPaymentIntent api pi) as [st|e];
    [|reflexivity].
  rewrite (update_row_payments _ _ _ _ Hp).
  destruct (Payment.invoiceId p) as [inv|];
    [destruct (bool_decide (PaymentService.mapStripePaymentStatus st = succeeded)
               && truthy_string inv)|]; try discriminate.
  match goal with
  | |- context [PaymentService.updateInvoicePayment ?n ?i ?a ?d] =>
      destruct (updateInvoicePayment_frame n i a d) as (Hf & _);
      destruct (PaymentService.updateInvoicePayment n i a d) as [u d'];
      simpl in Hf; subst u
  end.
  discriminate.
Qed.

(** X3: [confirmPayment] throws [InvalidState] unless the payment is
    pending or processing, and a call that throws, for that or any
    other reason, leaves the store as it was.  When it returns, the
    payment was pending or processing, the gateway confirmed its
    intent and the stored status is the gateway status as
    [mapStripePaymentStatus] maps it; the amount and the refunded
    amount are kept; the invoices are untouched unless that status is
    [succeeded], in which case the linked invoice has the amount added
    to its amount paid, once; and if the stored status is neither
    pending nor processing, a [confirmPayment] on the store the call
    leaves throws and leaves it as it was.  (An operation that writes
    the status again, such as a webhook update or
    [retryFailedPayment], can make the payment confirmable again.) *)
Theorem confirmPayment_applies_once
    (api : Stripe.Api) (now : Dayjs.Date) (id : string) (db : Db) :
  let run := PaymentService.confirmPayment api now id db in
  (is_ok (fst run) = false -> snd run = db)
  /\ (forall p, payments db !! id = Some p ->
        Payment.status p <> pending -> Payment.status p <> processing ->
        run = (Throw (mkError InvalidState
                        "Payment cannot be confirmed in its current state"), db))
  /\ (forall r db', run = (Ok r, db') ->
      exists p p' pi st,
        payments db !! id = Some p
        /\ (Payment.status p = pending \/ Payment.status p = processing)
        /\ Payment.stripePaymentIntentId p = Some pi
        /\ Stripe.confirmPaymentIntent api pi = Ok st
        /\ payments db' !! id = Some p' /\ r = Some p'
        /\ Payment.status p' = PaymentService.mapStripePaymentStatus st
        /\ Payment.amount p' = Payment.amount p
        /\ Payment.refundedAmount p' = Payment.refundedAmount p
        /\ (Payment.status p' <> succeeded -> invoices db' = invoices db)
        /\ (forall inv i, Payment.status p' = succeeded ->
              Payment.invoiceId p = Some inv -> truthy_string inv = true ->
              invoices db !! inv = Some i ->
              exists i', invoices db' !! inv = Some i'
                         /\ Invoice.amountPaid i'
                            = (Invoice.amountPaid i + Payment.amount p)%float)
        /\ (Payment.status p' <> pending -> Payment.status p' <> processing ->
            forall api2 now2,
              PaymentService.confirmPayment api2 now2 id db'
              = (Throw (mkError InvalidState
                          "Payment cannot be confirmed in its current state"),
                 db'))).
Proof.
  cbv zeta. split; [apply confirmPayment_throws_frame|].
  split; [intros p Hp H1 H2; apply (confirmPayment_refused _ _ _ _ p Hp H1 H2)|].
  intros r db' Hrun.
  destruct (confirmPayment_returns _ _ _ _ _ _ Hrun)
    as (p & pi & st & Hp & Hst & Hpi & Hg & Hr & Hdb). cbv zeta in Hr, Hdb.
  set (row := Payment.with_updatedAt now
                (Payment.with_status (PaymentService.mapStripePaymentStatus st) p))
    in *.
  set (db1 := set_payments (insert id row) db) in *.
  assert (Hpay : payments db' = payments db1).
  { rewrite Hdb. destruct (Payment.invoiceId p) as [inv|]; [|reflexivity].
    destruct (_ && _); [|reflexivity].
    apply (updateInvoicePayment_frame now inv (Payment.amount p) db1). }
  assert (Hrow : payments db' !! id = Some row)
    by (rewrite Hpay; simpl; apply lookup_insert_eq).
  exists p, row, pi, st. split; [exact Hp|]. split; [exact Hst|].
  split; [exact Hpi|]. split; [exact Hg|].
  split; [exact Hrow|]. split; [exact Hr|]. split; [reflexivity|].
  split; [reflexivity|]. split; [reflexivity|]. split; [|split].
  - intros Hns. rewrite Hdb. simpl in Hns.
    destruct (Payment.invoiceId p) as [inv|]; [|reflexivity].
    rewrite bool_decide_eq_false_2 by exact Hns. reflexivity.
  - intros inv i Hs Hinv Ht Hi. simpl in Hs. rewrite Hdb, Hinv.
    rewrite bool_decide_eq_true_2 by exact Hs. rewrite Ht. simpl.
    assert (Hi1 : invoices db1 !! inv = Some i) by exact Hi.
    rewrite (updateInvoicePayment_run now inv (Payment.amount p) db1 i Hi1).
    cbv zeta. eexists. split; [apply lookup_set_invoices|]. simpl. reflexivity.
  - intros H1 H2 api2 now2.
    apply (confirmPayment_refused api2 now2 id db' row Hrow H1 H2).
Qed.

Lemma confirmPayment_applies_once_witness :
  let run := PaymentService.confirmPayment api_up Sample.t0 "pay_1" Sample.db in
  let row := Payment.with_updatedAt Sample.t0
               (Payment.with_status succeeded Sample.pay_1) in
  run = (Ok (Some row), snd run)
  /\ Invoice.amountPaid <$> invoices (snd run) !! "inv_1" = Some 50%float
  /\ forall api2 now2,
       PaymentService.confirmPayment api2 now2 "pay_1" (snd run)
       = (Throw (mkError InvalidState
                   "Payment cannot be confirmed in its current state"), snd run).
Proof.
  cbv zeta.
  assert (Hrun : PaymentService.confirmPayment api_up Sample.t0 "pay_1" Sample.db
                 = (Ok (Some (Payment.with_updatedAt Sample.t0
                                (Payment.with_status succeeded Sample.pay_1))),
                    snd (PaymentService.confirmPayment api_up Sample.t0 "pay_1"
                           Sample.db)))
    by (vm_compute; reflexivity).
  split; [exact Hrun|]. split; [vm_compute; reflexivity|].
  destruct (confirmPayment_applies_once api_up Sample.t0 "pay_1" Sample.db)
    as (_ & _ & Hret).
  destruct (Hret _ _ Hrun)
    as (p & p' & pi & st & _ & _ & _ & _ & _ & Hr & _ & _ & _ & _ & _ & Hagain).
  injection Hr as <-.
  apply Hagain; discriminate.
Defined.

(** X4: [cancelPayment] refuses a succeeded payment; a call that
    throws, for that reason or in the gateway, leaves the store as it
    was; a call that returns only rewrites the status, to [canceled],
    and the update time of the payment, and on the store it leaves,
    as on any store in which the payment is canceled, [refundPayment]
    and [confirmPayment] on that payment throw and leave the store as
    it was.  ([capturePayment] has no guard on the status and can make
    the payment [succeeded] again.) *)
Theorem cancelPayment_outcome
    (api : Stripe.Api) (now : Dayjs.Date) (id : string) (db : Db)
    (p : Payment.t) (Hrow : payments db !! id = Some p) :
  let run := PaymentService.cancelPayment api now id db in
  let row := Payment.with_updatedAt now (Payment.with_status pay_canceled p) in
  (Payment.status p = succeeded ->
   run = (Throw (mkError InvalidState
                   "Cannot cancel a succeeded payment, use refund instead"), db))
  /\ (is_ok (fst run) = false -> snd run = db)
  /\ (is_ok (fst run) = true ->
      Payment.status p <> succeeded
      /\ run = (Ok (Some row), set_payments (insert id row) db)
      /\ (forall gw now2 uuid amt reason,
            PaymentService.refundPayment gw now2 uuid
              (PaymentService.mkRefundInput id amt reason) (snd run)
            = (Throw (mkError InvalidState "Can only refund succeeded payments"),
               snd run))
      /\ (forall api2 now2,
            PaymentService.confirmPayment api2 now2 id (snd run)
            = (Throw (mkError InvalidState
                        "Payment cannot be confirmed in its current state"),
               snd run)))
  /\ (forall gw api2 now2 uuid amt reason db2 p2,
        payments db2 !! id = Some p2 ->
        Payment.status p2 = pay_canceled ->
        PaymentService.refundPayment gw now2 uuid
          (PaymentService.mkRefundInput id amt reason) db2
        = (Throw (mkError InvalidState "Can only refund succeeded payments"), db2)
        /\ PaymentService.confirmPayment api2 now2 id db2
           = (Throw (mkError InvalidState
                       "Payment cannot be confirmed in its current state"), db2)).
Proof.
  cbv zeta.
  enough (Hmain :
    let run := PaymentService.cancelPayment api now id db in
    let row := Payment.with_updatedAt now (Payment.with_status pay_canceled p) in
    (Payment.status p = succeeded ->
     run = (Throw (mkError InvalidState
                     "Cannot cancel a succeeded payment, use refund instead"), db))
    /\ (is_ok (fst run) = false -> snd run = db)
    /\ (is_ok (fst run) = true ->
        Payment.status p <> succeeded
        /\ run = (Ok (Some row), set_payments (insert id row) db)
        /\ (forall gw now2 uuid amt reason,
              PaymentService.refundPayment gw now2 uuid
                (PaymentService.mkRefundInput id amt reason) (snd run)
              = (Throw (mkError InvalidState "Can only refund succeeded payments"),
                 snd run))
        /\ (forall api2 now2,
              PaymentService.confirmPayment api2 now2 id (snd run)
              = (Throw (mkError InvalidState
                          "Payment cannot be confirmed in its current state"),
                 snd run)))).
  { cbv zeta in Hmain. destruct Hmain as (M1 & M2 & M3).
    split; [exact M1|]. split; [exact M2|]. split; [exact M3|].
    intros gw api2 now2 uuid amt reason db2 p2 H2 Hc. split.
    - apply (refundPayment_not_succeeded _ _ _ _ _ p2); [exact H2|].
      rewrite Hc. discriminate.
    - apply (confirmPayment_refused _ _ _ _ p2 H2); rewrite Hc; discriminate. }
  cbv zeta.
  unfold PaymentService.cancelPayment, bind, PaymentRepository.findById, gets.
  rewrite Hrow. unfold throw_if.
  destruct (bool_decide (Payment.status p = succeeded)) eqn:Hs; simpl.
  { apply bool_decide_eq_true in Hs.
    split; [reflexivity|]. split; [reflexivity | discriminate]. }
  apply bool_decide_eq_false in Hs.
  assert (Hdone :
    let row := Payment.with_updatedAt now (Payment.with_status pay_canceled p) in
    let db' := set_payments (insert id row) db in
    forall r, r = (Ok (Some row), db') ->
    (Payment.status p = succeeded -> r = (Throw (mkError InvalidState
       "Cannot cancel a succeeded payment, use refund instead"), db))
    /\ (is_ok (fst r) = false -> snd r = db)
    /\ (is_ok (fst r) = true ->
        Payment.status p <> succeeded
        /\ r = (Ok (Some row), db')
        /\ (forall gw now2 uuid amt reason,
              PaymentService.refundPayment gw now2 uuid
                (PaymentService.mkRefundInput id amt reason) (snd r)
              = (Throw (mkError InvalidState "Can only refund succeeded payments"),
                 snd r))
        /\ (forall api2 now2,
              PaymentService.confirmPayment api2 now2 id (snd r)
              = (Throw (mkError InvalidState
                          "Payment cannot be confirmed in its current state"),
                 snd r)))).
  { cbv zeta. intros r ->. simpl.
    split; [intros; contradiction|]. split; [discriminate|]. intros _.
    split; [exact Hs|]. split; [reflexivity|]. split.
    - intros gw now2 uuid amt reason.
      eapply refundPayment_not_succeeded; [simpl; apply lookup_insert_eq|].
      discriminate.
    - intros api2 now2.
      eapply confirmPayment_refused; [simpl; apply lookup_insert_eq| |];
        discriminate. }
  cbv zeta in Hdone.
  destruct (Payment.stripePaymentIntentId p) as [pi|];
    [destruct (truthy_string pi)|].
  - unfold lift. destruct (Stripe.cancelPaymentIntent api pi) as [[]|e]; simpl.
    + apply Hdone. rewrite (update_row_payments _ _ _ _ Hrow). reflexivity.
    + split; [intros; contradiction|]. split; [reflexivity | discriminate].
  - apply Hdone. unfold ret. rewrite (update_row_payments _ _ _ _ Hrow). reflexivity.
  - apply Hdone. unfold ret. rewrite (update_row_payments _ _ _ _ Hrow). reflexivity.
Qed.

Lemma cancelPayment_outcome_witness :
  payments Sample.db !! "pay_1" = Some Sample.pay_1
  /\ is_ok (fst (PaymentService.cancelPayment api_up Sample.t0 "pay_1" Sample.db))
     = true
  /\ forall gw now2 uuid amt reason,
       PaymentService.refundPayment gw now2 uuid
         (PaymentService.mkRefundInput "pay_1" amt reason)
         (snd (PaymentService.cancelPayment api_up Sample.t0 "pay_1" Sample.db))
       = (Throw (mkError InvalidState "Can only refund succeeded payments"),
          snd (PaymentService.cancelPayment api_up Sample.t0 "pay_1" Sample.db)).
Proof.
  assert (Hrow : payments Sample.db !! "pay_1" = Some Sample.pay_1)
    by (vm_compute; reflexivity).
  assert (Hok : is_ok (fst (PaymentService.cancelPayment api_up Sample.t0 "pay_1"
                              Sample.db)) = true)
    by (vm_compute; reflexivity).
  split; [exact Hrow|]. split; [exact Hok|].
  exact (proj1 (proj2 (proj2
           (proj1 (proj2 (proj2 (cancelPayment_outcome api_up Sample.t0 "pay_1"
                                   Sample.db Sample.pay_1 Hrow))) Hok)))).
Defined.

(** The amount [capturePayment] captures: [amount || payment.amount]. *)
Lemma capturePayment_zero_is_full api now id db :
  PaymentService.capturePayment api now id (Some 0%float) db
  = PaymentService.capturePayment api now id None db.
Proof. reflexivity. Qed.

(** X5: [capturePayment] has no guard on the status: whatever the
    status was, a call that returns leaves the payment [succeeded] with
    the captured amount, [amount || payment.amount], as its amount, and
    adds that amount to the amount paid of the linked invoice; an
    amount of 0 captures the full amount; a call that throws leaves the
    store as it was. *)
Theorem capturePayment_outcome
    (api : Stripe.Api) (now : Dayjs.Date) (id : string) (amount : option JS.number)
    (db : Db) (p : Payment.t) (Hrow : payments db !! id = Some p) :
  let run := PaymentService.capturePayment api now id amount db in
  let captured :=
    match amount with
    | Some a => if JS.truthy a then a else Payment.amount p
    | None => Payment.amount p
    end in
  (is_ok (fst run) = false -> snd run = db)
  /\ (is_ok (fst run) = true ->
      exists p',
        fst run = Ok (Some p')
        /\ payments (snd run) !! id = Some p'
        /\ Payment.status p' = succeeded
        /\ Payment.amount p' = captured
        /\ Payment.refundedAmount p' = Payment.refundedAmount p
        /\ (forall inv i,
              Payment.invoiceId p = Some inv -> truthy_string inv = true ->
              invoices db !! inv = Some i ->
              exists i', invoices (snd run) !! inv = Some i'
                         /\ Invoice.amountPaid i'
                            = (Invoice.amountPaid i + captured)%float))
  /\ PaymentService.capturePayment api now id (Some 0%float) db
     = PaymentService.capturePayment api now id None db.
Proof.
  cbv zeta. split; [|split; [|reflexivity]].
  - unfold PaymentService.capturePayment, bind, PaymentRepository.findById, gets.
    rewrite Hrow.
    destruct (Payment.stripePaymentIntentId p) as [pi|]; [|reflexivity].
    destruct (truthy_string pi); [|reflexivity].
    unfold lift. destruct (Stripe.capturePaymentIntent api pi _) as [[]|e];
      [|reflexivity].
    rewrite (update_row_payments _ _ _ _ Hrow).
    destruct (Payment.invoiceId p) as [inv|]; [destruct (truthy_string inv)|];
      try discriminate.
    match goal with
    | |- context [PaymentService.updateInvoicePayment ?n ?i ?a ?d] =>
        destruct (updateInvoicePayment_frame n i a d) as (Hf & _);
        destruct (PaymentService.updateInvoicePayment n i a d) as [u d'];
        simpl in Hf; subst u
    end.
    discriminate.
  - unfold PaymentService.capturePayment, bind, PaymentRepository.findById, gets.
    rewrite Hrow.
    destruct (Payment.stripePaymentIntentId p) as [pi|]; [|discriminate].
    destruct (truthy_string pi); [|discriminate].
    unfold lift. destruct (Stripe.capturePaymentIntent api pi _) as [[]|e];
      [|discriminate].
    rewrite (update_row_payments _ _ _ _ Hrow). intros _.
    set (captured := default (Payment.amount p)
                       match amount with
                       | Some a => if JS.truthy a then Some a else None
                       | None => None
                       end).
    assert (Hcap : captured = match amount with
                              | Some a => if JS.truthy a then a else Payment.amount p
                              | None => Payment.amount p
                              end).
    { unfold captured. destruct amount as [a|]; [|reflexivity].
      destruct (JS.truthy a); reflexivity. }
    rewrite <- Hcap.
    set (row := Payment.with_updatedAt now
                  (Payment.with_amount captured (Payment.with_status succeeded p))).
    set (db1 := set_payments (insert id row) db).
    exists row.
    destruct (Payment.invoiceId p) as [inv|] eqn:Hinv;
      [destruct (truthy_string inv) eqn:Ht|].
    + destruct (updateInvoicePayment_frame now inv captured db1)
        as (Hf & Hpay & _).
      destruct (invoices db !! inv) as [i|] eqn:Hi.
      * assert (Hi1 : invoices db1 !! inv = Some i) by exact Hi.
        rewrite (updateInvoicePayment_run now inv captured db1 i Hi1) in *.
        cbv zeta in *. simpl.
        split; [reflexivity|]. split; [apply lookup_insert_eq|].
        repeat (split; [reflexivity|]).
        intros inv0 i0 E _ Hi0. injection E as <-. rewrite Hi in Hi0.
        injection Hi0 as <-.
        eexists. split; [apply lookup_insert_eq|]. simpl. reflexivity.
      * destruct (PaymentService.updateInvoicePayment now inv captured db1)
          as [u d'] eqn:Hu. simpl in Hf, Hpay. subst u. simpl.
        split; [reflexivity|]. split; [rewrite Hpay; simpl; apply lookup_insert_eq|].
        repeat (split; [reflexivity|]).
        intros inv0 i0 E _ Hi0. injection E as <-. congruence.
    + simpl. split; [reflexivity|]. split; [apply lookup_insert_eq|].
      repeat (split; [reflexivity|]).
      intros inv0 i0 E Ht0. injection E as <-. congruence.
    + simpl. split; [reflexivity|]. split; [apply lookup_insert_eq|].
      repeat (split; [reflexivity|]).
      intros inv0 i0 E. discriminate.
Qed.

Lemma capturePayment_outcome_witness :
  payments Sample.db !! "pay_1" = Some Sample.pay_1
  /\ (is_ok (fst (PaymentService.capturePayment api_up Sample.t0 "pay_1"
                    (Some 20%float) Sample.db)) = false ->
      snd (PaymentService.capturePayment api_up Sample.t0 "pay_1" (Some 20%float)
             Sample.db) = Sample.db)
  /\ Invoice.amountPaid
       <$> invoices (snd (PaymentService.capturePayment api_up Sample.t0 "pay_1"
                            (Some 20%float) Sample.db)) !! "inv_1" = Some 20%float.
Proof.
  assert (Hrow : payments Sample.db !! "pay_1" = Some Sample.pay_1)
    by (vm_compute; reflexivity).
  split; [exact Hrow|].
  split; [|vm_compute; reflexivity].
  exact (proj1 (capturePayment_outcome api_up Sample.t0 "pay_1" (Some 20%float)
                  Sample.db Sample.pay_1 Hrow)).
Defined.

(** ** Payment summary *)

(** The reducer keeps four independent running sums. *)
Lemma summarize_fold (ps : list Payment.t) (acc : PaymentService.PaymentSummary) :
  fold_left PaymentService.summarize ps acc
  = PaymentService.mkSummary
      (sum_over in_paid (fun p => Payment.amount p - Payment.refundedAmount p)%float
         ps (PaymentService.totalPaid acc))
      (sum_over in_refunded refunded_part ps (PaymentService.totalRefunded acc))
      (sum_over in_pending Payment.amount ps (PaymentService.pendingAmount acc))
      (sum_over in_failed Payment.amount ps (PaymentService.failedAmount acc)).
Proof.
  revert acc. induction ps as [|p ps IH]; intros acc.
  - destruct acc. reflexivity.
  - simpl. rewrite IH. unfold sum_over, PaymentService.summarize,
      in_paid, in_refunded, in_pending, in_failed, refunded_part. simpl.
    destruct (Payment.status p) eqn:E; simpl; rewrite ?E; reflexivity.
Qed.

(** X6: [getPaymentSummary] never throws and leaves the store as it
    was.  Each of its four totals is the sum, taken from 0 in the
    order of the customer's payments, of one figure over the payments
    of some statuses: the paid total adds [amount - refundedAmount]
    over the succeeded and partially refunded payments; the refunded
    total adds [refundedAmount] over those and [amount] over the
    refunded ones; the pending total adds [amount] over the pending and
    processing payments; the failed total adds [amount] over the failed
    ones.  A canceled payment counts in none of them.  The currency is
    that of the first payment, USD when there is none. *)
Theorem getPaymentSummary_conserves (customerId : string) (db : Db) :
  exists summary currency ps,
    PaymentService.getPaymentSummary customerId db = (Ok (summary, currency), db)
    /\ fst (PaymentRepository.findByCustomerId customerId db) = Ok ps
    /\ PaymentService.totalPaid summary
       = sum_over in_paid
           (fun p => Payment.amount p - Payment.refundedAmount p)%float ps 0
    /\ PaymentService.totalRefunded summary
       = sum_over in_refunded refunded_part ps 0
    /\ PaymentService.pendingAmount summary
       = sum_over in_pending Payment.amount ps 0
    /\ PaymentService.failedAmount summary
       = sum_over in_failed Payment.amount ps 0
    /\ (forall p, Payment.status p = pay_canceled ->
          in_paid p = false /\ in_refunded p = false
          /\ in_pending p = false /\ in_failed p = false)
    /\ currency = from_option Payment.currency USD (head ps)
    /\ (ps = [] -> currency = USD).
Proof.
  unfold PaymentService.getPaymentSummary, bind,
    PaymentRepository.findByCustomerId, gets, ret.
  eexists _, _, _. split; [reflexivity|]. split; [reflexivity|].
  rewrite summarize_fold. simpl.
  repeat (split; [reflexivity|]).
  split; [|split; [reflexivity | intros ->; reflexivity]].
  intros p Hp. unfold in_paid, in_refunded, in_pending, in_failed.
  rewrite Hp. repeat split.
Qed.

(** ** Creating a payment *)

(** X7: [createPayment] throws [NotFound] for an unknown customer, and
    a call that throws leaves the store as it was.  A call that returns
    has stored the payment under the new id with nothing refunded; the
    payment of a customer without a gateway identity is pending, with
    no payment intent; the invoices are as they were unless the payment
    succeeded at once, in which case the linked invoice received the
    amount. *)
Theorem createPayment_outcome
    (api : Stripe.Api) (customers : gmap string Customer.t)
    (now : Dayjs.Date) (uuid : string)
    (input : PaymentService.CreatePaymentInput) (db : Db) :
  let run := PaymentService.createPayment api customers now uuid input db in
  (customers !! PaymentService.cp_customerId input = None ->
   run = (Throw (mkError NotFound "Customer not found"), db))
  /\ (is_ok (fst run) = false -> snd run = db)
  /\ (forall r, fst run = Ok r ->
        payments (snd run) !! uuid = Some r
        /\ Payment.id r = uuid
        /\ Payment.amount r = PaymentService.cp_amount input
        /\ Payment.refundedAmount r = 0%float
        /\ Payment.invoiceId r = PaymentService.cp_invoiceId input
        /\ (forall c, customers !! PaymentService.cp_customerId input = Some c ->
              Customer.stripeCustomerId c = None ->
              Payment.status r = pending
              /\ Payment.stripePaymentIntentId r = None)
        /\ (Payment.status r <> succeeded -> invoices (snd run) = invoices db)
        /\ (forall inv i,
              Payment.status r = succeeded ->
              PaymentService.cp_invoiceId input = Some inv ->
              truthy_string inv = true ->
              invoices db !! inv = Some i ->
              exists i', invoices (snd run) !! inv = Some i'
                         /\ Invoice.amountPaid i'
                             = (Invoice.amountPaid i
                                + PaymentService.cp_amount input)%float)).
Proof.
  cbv zeta. unfold PaymentService.createPayment.
  destruct (customers !! PaymentService.cp_customerId input) as [c|] eqn:Hc;
    [|split; [reflexivity|]; split; [reflexivity | discriminate]].
  split; [discriminate|].
  assert (Hcore : forall (pi : option string) (st : PaymentStatus),
    let row := Payment.mk uuid (PaymentService.cp_customerId input)
                 (PaymentService.cp_invoiceId input) pi
                 (PaymentService.cp_amount input)
                 (PaymentService.cp_currency input) st 0 now now in
    let run :=
      bind (PaymentRepository.create row)
        (fun created =>
           bind match PaymentService.cp_invoiceId input with
                | Some invoiceId =>
                    if truthy_string invoiceId && bool_decide (st = succeeded)
                    then PaymentService.updateInvoicePayment now invoiceId
                           (PaymentService.cp_amount input)
                    else ret tt
                | None => ret tt
                end
             (fun _ => ret created)) db in
    fst run = Ok row
    /\ payments (snd run) !! uuid = Some row
    /\ (st <> succeeded -> invoices (snd run) = invoices db)
    /\ (forall inv i, st = succeeded ->
          PaymentService.cp_invoiceId input = Some inv ->
          truthy_string inv = true ->
          invoices db !! inv = Some i ->
          exists i', invoices (snd run) !! inv = Some i'
                     /\ Invoice.amountPaid i'
                         = (Invoice.amountPaid i + PaymentService.cp_amount input)%float)).
  { intros pi st. cbv zeta. unfold bind at 1, PaymentRepository.create. simpl.
    set (row := Payment.mk uuid _ _ pi _ _ st 0 now now).
    unfold bind.
    destruct (PaymentService.cp_invoiceId input) as [inv|];
      [destruct (truthy_string inv) eqn:Ht;
       [destruct (bool_decide (st = succeeded)) eqn:Hs|]|]; simpl.
    - apply bool_decide_eq_true in Hs.
      destruct (updateInvoicePayment_frame now inv (PaymentService.cp_amount input)
                  (set_payments (insert uuid row) db)) as (Hf & Hpay & _).
      destruct (invoices db !! inv) as [i|] eqn:Hi.
      + assert (Hi1 : invoices (set_payments (insert uuid row) db) !! inv = Some i)
          by exact Hi.
        rewrite (updateInvoicePayment_run now inv _ _ i Hi1) in *. cbv zeta in *.
        simpl. split; [reflexivity|]. split; [apply lookup_insert_eq|].
        split; [intros; contradiction|].
        intros inv0 i0 _ E _ Hi0. injection E as <-. rewrite Hi in Hi0.
        injection Hi0 as <-. eexists. split; [apply lookup_insert_eq|].
        simpl. reflexivity.
      + destruct (PaymentService.updateInvoicePayment now inv _ _) as [u d'] eqn:Hu.
        simpl in Hf, Hpay. subst u. simpl.
        split; [reflexivity|]. split; [rewrite Hpay; apply lookup_insert_eq|].
        split; [intros; contradiction|].
        intros inv0 i0 _ E _ Hi0. injection E as <-. congruence.
    - apply bool_decide_eq_false in Hs.
      split; [reflexivity|]. split; [apply lookup_insert_eq|].
      split; [reflexivity|]. intros; contradiction.
    - split; [reflexivity|]. split; [apply lookup_insert_eq|].
      split; [reflexivity|]. intros inv0 i0 _ E Ht0. injection E as <-. congruence.
    - split; [reflexivity|]. split; [apply lookup_insert_eq|].
      split; [reflexivity|]. intros inv0 i0 _ E. discriminate. }
  assert (Hfinish : forall (pi : option string) (st : PaymentStatus)
                      (run : result Payment.t * Db),
    (Customer.stripeCustomerId c = None -> pi = None /\ st = pending) ->
    fst run = Ok (Payment.mk uuid (PaymentService.cp_customerId input)
                    (PaymentService.cp_invoiceId input) pi
                    (PaymentService.cp_amount input)
                    (PaymentService.cp_currency input) st 0 now now) ->
    payments (snd run) !! uuid
    = Some (Payment.mk uuid (PaymentService.cp_customerId input)
              (PaymentService.cp_invoiceId input) pi
              (PaymentService.cp_amount input)
              (PaymentService.cp_currency input) st 0 now now) ->
    (st <> succeeded -> invoices (snd run) = invoices db) ->
    (forall inv i, st = succeeded ->
       PaymentService.cp_invoiceId input = Some inv ->
       truthy_string inv = true ->
       invoices db !! inv = Some i ->
       exists i', invoices (snd run) !! inv = Some i'
                  /\ Invoice.amountPaid i'
                      = (Invoice.amountPaid i + PaymentService.cp_amount input)%float) ->
    (is_ok (fst run) = false -> snd run = db)
    /\ (forall r, fst run = Ok r ->
          payments (snd run) !! uuid = Some r
          /\ Payment.id r = uuid
          /\ Payment.amount r = PaymentService.cp_amount input
          /\ Payment.refundedAmount r = 0%float
          /\ Payment.invoiceId r = PaymentService.cp_invoiceId input
          /\ (forall c0, Some c = Some c0 ->
                Customer.stripeCustomerId c0 = None ->
                Payment.status r = pending
                /\ Payment.stripePaymentIntentId r = None)
          /\ (Payment.status r <> succeeded -> invoices (snd run) = invoices db)
          /\ (forall inv i,
                Payment.status r = succeeded ->
                PaymentService.cp_invoiceId input = Some inv ->
                truthy_string inv = true ->
                invoices db !! inv = Some i ->
                exists i', invoices (snd run) !! inv = Some i'
                           /\ Invoice.amountPaid i'
                               = (Invoice.amountPaid i
                                  + PaymentService.cp_amount input)%float))).
  { intros pi st run Hnone Hf Hp Hinv Hpaid.
    split; [rewrite Hf; discriminate|].
    intros r Hr. rewrite Hf in Hr. injection Hr as <-. simpl.
    split; [exact Hp|]. repeat (split; [reflexivity|]).
    split; [|split; assumption].
    intros c0 E Hn. injection E as <-. destruct (Hnone Hn) as [-> ->].
    split; reflexivity. }
  destruct (Customer.stripeCustomerId c) as [cus|] eqn:Hcus;
    [destruct (truthy_string cus)|].
  - unfold bind at 1, lift.
    destruct (Stripe.createPaymentIntent api _) as [[pid pst]|e]; simpl.
    + destruct (Hcore (Some pid) (PaymentService.mapStripePaymentStatus pst))
        as (H1 & H2 & H3 & H4).
      apply (Hfinish (Some pid) (PaymentService.mapStripePaymentStatus pst));
        try assumption. discriminate.
    + split; [reflexivity | discriminate].
  - unfold bind at 1. simpl.
    destruct (Hcore None pending) as (H1 & H2 & H3 & H4).
    apply (Hfinish None pending); try assumption. discriminate.
  - unfold bind at 1. simpl.
    destruct (Hcore None pending) as (H1 & H2 & H3 & H4).
    apply (Hfinish None pending); try assumption. intros _. split; reflexivity.
Qed.

(** ** Every delivery of a webhook counts *)

Lemma findByStripePaymentIntentId_sole pi id db p :
  payments db !! id = Some p ->
  Payment.stripePaymentIntentId p = Some pi ->
  sole_intent pi id db ->
  PaymentRepository.findByStripePaymentIntentId pi db = (Ok (Some p), db).
Proof.
  intros Hp Hpi Hsole.
  unfold PaymentRepository.findByStripePaymentIntentId, gets.
  destruct (List.find _ _) as [[id' q]|] eqn:E; simpl.
  - apply find_some in E as [Hin Hf]. apply bool_decide_eq_true in Hf. simpl in Hf.
    apply list_elem_of_In, elem_of_map_to_list in Hin.
    rewrite (Hsole id' q Hin Hf) in Hin. congruence.
  - exfalso.
    assert (Hin : In (id, p) (map_to_list (payments db)))
      by (apply list_elem_of_In, elem_of_map_to_list; exact Hp).
    pose proof (find_none _ _ E _ Hin) as Hf. simpl in Hf.
    apply bool_decide_eq_false in Hf. contradiction.
Qed.

(** One delivery of [succeeded] for the sole payment of an intent. *)
Lemma delivery_step now pi id inv db p i :
  payments db !! id = Some p ->
  Payment.id p = id ->
  Payment.stripePaymentIntentId p = Some pi ->
  sole_intent pi id db ->
  Payment.invoiceId p = Some inv ->
  truthy_string inv = true ->
  invoices db !! inv = Some i ->
  let db' := snd (PaymentService.processWebhookPaymentUpdate now pi "succeeded" db) in
  exists p' i',
    payments db' !! id = Some p'
    /\ Payment.id p' = id
    /\ Payment.stripePaymentIntentId p' = Some pi
    /\ Payment.invoiceId p' = Some inv
    /\ Payment.amount p' = Payment.amount p
    /\ Payment.status p' = succeeded
    /\ sole_intent pi id db'
    /\ invoices db' !! inv = Some i'
    /\ Invoice.amountPaid i' = (Invoice.amountPaid i + Payment.amount p)%float.
Proof.
  intros Hp Hid Hpi Hsole Hinv Ht Hi. cbv zeta.
  unfold PaymentService.processWebhookPaymentUpdate, bind.
  rewrite (findByStripePaymentIntentId_sole pi id db p Hp Hpi Hsole).
  rewrite Hid. rewrite (update_row_payments _ _ _ _ Hp).
  rewrite Hinv, Ht. simpl.
  set (row := Payment.with_updatedAt now (Payment.with_status succeeded p)).
  set (db1 := set_payments (insert id row) db).
  assert (Hi1 : invoices db1 !! inv = Some i) by exact Hi.
  rewrite (updateInvoicePayment_run now inv _ db1 i Hi1). cbv zeta. simpl.
  eexists row, _. split; [apply lookup_insert_eq|].
  repeat (split; [assumption || reflexivity|]).
  split; [|split; [apply lookup_insert_eq | simpl; reflexivity]].
  intros id' p' Hp' Hpi'. simpl in Hp'.
  destruct (decide (id' = id)) as [E | N]; [exact E|].
  rewrite lookup_insert_ne in Hp' by congruence.
  exact (Hsole id' p' Hp' Hpi').
Qed.

(** X8: when a payment is the only one with its payment intent and is
    linked to an invoice that exists, every delivery of the event
    [succeeded] for that intent adds the amount of the payment to the
    amount paid of the invoice: after [n] deliveries the amount paid is
    the old one with the amount added [n] times, one double addition
    per delivery, and after one delivery or more the payment is
    succeeded. *)
Theorem webhook_deliveries_accumulate
    (now : Dayjs.Date) (pi id inv : string) (db : Db)
    (p : Payment.t) (i : Invoice.t) (n : nat)
    (Hrow : payments db !! id = Some p)
    (Hid : Payment.id p = id)
    (Hpi : Payment.stripePaymentIntentId p = Some pi)
    (Hsole : sole_intent pi id db)
    (Hinv : Payment.invoiceId p = Some inv)
    (Htruthy : truthy_string inv = true)
    (Hinvoice : invoices db !! inv = Some i) :
  exists p' i',
    payments (deliveries n now pi db) !! id = Some p'
    /\ Payment.amount p' = Payment.amount p
    /\ ((0 < n)%nat -> Payment.status p' = succeeded)
    /\ invoices (deliveries n now pi db) !! inv = Some i'
    /\ Invoice.amountPaid i'
       = Nat.iter n (fun paid => (paid + Payment.amount p)%float)
           (Invoice.amountPaid i).
Proof.
  assert (H : exists p' i',
    payments (deliveries n now pi db) !! id = Some p'
    /\ Payment.id p' = id
    /\ Payment.stripePaymentIntentId p' = Some pi
    /\ Payment.invoiceId p' = Some inv
    /\ Payment.amount p' = Payment.amount p
    /\ ((0 < n)%nat -> Payment.status p' = succeeded)
    /\ sole_intent pi id (deliveries n now pi db)
    /\ invoices (deliveries n now pi db) !! inv = Some i'
    /\ Invoice.amountPaid i'
       = Nat.iter n (fun paid => (paid + Payment.amount p)%float)
           (Invoice.amountPaid i)).
  { induction n as [|n IH].
    - exists p, i. simpl. split; [exact Hrow|]. split; [exact Hid|].
      split; [exact Hpi|]. split; [exact Hinv|]. split; [reflexivity|].
      split; [lia|]. split; [exact Hsole|]. split; [exact Hinvoice|].
      reflexivity.
    - destruct IH as (p1 & i1 & H1 & H2 & H3 & H4 & H5 & _ & H6 & H7 & H8).
      unfold deliveries in *. simpl.
      destruct (delivery_step now pi id inv _ p1 i1 H1 H2 H3 H6 H4 Htruthy H7)
        as (p2 & i2 & G1 & G2 & G3 & G4 & G5 & G6 & G7 & G8 & G9).
      exists p2, i2. split; [exact G1|]. split; [exact G2|].
      split; [exact G3|]. split; [exact G4|]. split; [congruence|].
      split; [intros _; exact G6|]. split; [exact G7|]. split; [exact G8|].
      rewrite G9, H8, H5. reflexivity. }
  destruct H as (p' & i' & H1 & _ & _ & _ & H5 & H6 & _ & H7 & H8).
  exists p', i'. split; [exact H1|]. split; [exact H5|]. split; [exact H6|].
  split; [exact H7 | exact H8].
Qed.

Lemma sample_pay_1_sole : sole_intent "pi_1" "pay_1" Sample.db.
Proof.
  intros id' p' Hp' Hpi'.
  unfold Sample.db in Hp'. simpl in Hp'.
  destruct (decide (id' = "pay_1")) as [E|N]; [exact E|].
  rewrite lookup_insert_ne in Hp' by congruence.
  destruct (decide (id' = "pay_2")) as [E2|N2].
  - subst id'. rewrite lookup_insert_eq in Hp'. injection Hp' as <-. discriminate.
  - rewrite lookup_insert_ne in Hp' by congruence. rewrite lookup_empty in Hp'.
    discriminate.
Defined.

Lemma webhook_deliveries_accumulate_witness :
  exists p' i',
    payments (deliveries 3 Sample.t0 "pi_1" Sample.db) !! "pay_1" = Some p'
    /\ Payment.amount p' = 50%float
    /\ ((0 < 3)%nat -> Payment.status p' = succeeded)
    /\ invoices (deliveries 3 Sample.t0 "pi_1" Sample.db) !! "inv_1" = Some i'
    /\ Invoice.amountPaid i' = (0 + 50 + 50 + 50)%float.
Proof.
  apply (webhook_deliveries_accumulate Sample.t0 "pi_1" "pay_1" "inv_1" Sample.db
           Sample.pay_1 Sample.inv_1 3).
  - vm_compute. reflexivity.
  - reflexivity.
  - reflexivity.
  - exact sample_pay_1_sole.
  - reflexivity.
  - reflexivity.
  - vm_compute. reflexivity.
Defined.

(** ** The life of an invoice *)

(** What the four operations on draft invoices do to an invoice that
    is not a draft: they throw and leave the store as it was. *)
Lemma not_draft_refused api now uuid id db i :
  invoices db !! id = Some i ->
  Invoice.status i <> draft ->
  (forall input,
     InvoiceService.addLineItem now uuid id input db
     = (Throw (mkError InvalidState "Can only add line items to draft invoices"),
        db))
  /\ (forall item,
        InvoiceService.removeLineItem now id item db
        = (Throw (mkError InvalidState
                    "Can only remove line items from draft invoices"), db))
  /\ (forall due,
        InvoiceService.updateInvoice now id due db
        = (Throw (mkError InvalidState "Can only update draft invoices"), db))
  /\ InvoiceService.finalizeInvoice api now id db
     = (Throw (mkError InvalidState "Can only finalize draft invoices"), db).
Proof.
  intros Hi Hs.
  unfold InvoiceService.addLineItem, InvoiceService.removeLineItem,
    InvoiceService.updateInvoice, InvoiceService.finalizeInvoice, bind,
    InvoiceRepository.findById, gets, throw_if.
  rewrite Hi. rewrite bool_decide_eq_false_2 by exact Hs.
  repeat split; reflexivity.
Qed.

Lemma when_linked_invoice_cases (i : Invoice.t) (call : string -> result unit)
    (db : Db) :
  InvoiceService.when_linked i call db = (Ok tt, db)
  \/ exists e, InvoiceService.when_linked i call db = (Throw e, db).
Proof.
  unfold InvoiceService.when_linked.
  destruct (Invoice.stripeInvoiceId i) as [sid|]; [|left; reflexivity].
  destruct (truthy_string sid); [|left; reflexivity].
  unfold lift. destruct (call sid) as [[]|e]; [left | right; exists e]; reflexivity.
Qed.



(** X10: [payInvoice] refuses an invoice that is paid, and a call that
    throws leaves the store as it was.  A call that returns marks the
    invoice paid with [amountPaid = total] and [amountDue = 0], so that
    it is balanced when the total is a number, and keeps its total and
    line items; on the store the call leaves, and on any store in
    which the invoice is paid, [payInvoice] and [voidInvoice] throw and
    leave the store as it was.  ([markUncollectible] has no guard and
    takes the invoice out of the paid status, after which it can be
    paid or voided again.) *)
Theorem payInvoice_outcome
    (api : Stripe.Api) (now : Dayjs.Date) (id : string) (db : Db)
    (i : Invoice.t) (Hrow : invoices db !! id = Some i) :
  let run := InvoiceService.payInvoice api now id db in
  (Invoice.status i = paid ->
   run = (Throw (mkError InvalidState "Invoice is already paid"), db))
  /\ (is_ok (fst run) = false -> snd run = db)
  /\ (is_ok (fst run) = true ->
      exists i',
        fst run = Ok (Some i')
        /\ invoices (snd run) !! id = Some i'
        /\ Invoice.status i' = paid
        /\ Invoice.amountPaid i' = Invoice.total i
        /\ Invoice.amountDue i' = 0%float
        /\ Invoice.paidAt i' = Some now
        /\ Invoice.total i' = Invoice.total i
        /\ Invoice.lineItems i' = Invoice.lineItems i
        /\ (JS.isNaN (Invoice.total i) = false -> balanced i')
        /\ (forall api2 now2,
              InvoiceService.payInvoice api2 now2 id (snd run)
              = (Throw (mkError InvalidState "Invoice is already paid"), snd run))
        /\ (forall api2 now2,
              InvoiceService.voidInvoice api2 now2 id (snd run)
              = (Throw (mkError InvalidState "Cannot void a paid invoice"),
                 snd run)))
  /\ (forall api2 now2 db2 i2,
        invoices db2 !! id = Some i2 -> Invoice.status i2 = paid ->
        InvoiceService.payInvoice api2 now2 id db2
        = (Throw (mkError InvalidState "Invoice is already paid"), db2)
        /\ InvoiceService.voidInvoice api2 now2 id db2
           = (Throw (mkError InvalidState "Cannot void a paid invoice"), db2))
  /\ (forall now2 db2 i2,
        invoices db2 !! id = Some i2 ->
        Invoice.status
          <$> invoices (snd (InvoiceService.markUncollectible now2 id db2)) !! id
        = Some uncollectible).
Proof.
  cbv zeta.
  assert (Hpaid : forall api2 now2 db2 i2,
    invoices db2 !! id = Some i2 -> Invoice.status i2 = paid ->
    InvoiceService.payInvoice api2 now2 id db2
    = (Throw (mkError InvalidState "Invoice is already paid"), db2)
    /\ InvoiceService.voidInvoice api2 now2 id db2
       = (Throw (mkError InvalidState "Cannot void a paid invoice"), db2)).
  { intros api2 now2 db2 i2 H2 Hs.
    unfold InvoiceService.payInvoice, InvoiceService.voidInvoice, bind,
      InvoiceRepository.findById, gets, throw_if.
    rewrite H2, Hs. split; reflexivity. }
  assert (Hmark : forall now2 db2 i2,
    invoices db2 !! id = Some i2 ->
    Invoice.status
      <$> invoices (snd (InvoiceService.markUncollectible now2 id db2)) !! id
    = Some uncollectible).
  { intros now2 db2 i2 H2.
    unfold InvoiceService.markUncollectible, bind, InvoiceRepository.findById, gets.
    rewrite H2, (update_row_invoices _ _ _ _ H2). simpl.
    rewrite lookup_insert_eq. reflexivity. }
  split; [intros Hs; apply (Hpaid api now db i Hrow Hs)|].
  enough (Hmain :
    let run := InvoiceService.payInvoice api now id db in
    (is_ok (fst run) = false -> snd run = db)
    /\ (is_ok (fst run) = true ->
        exists i',
          fst run = Ok (Some i')
          /\ invoices (snd run) !! id = Some i'
          /\ Invoice.status i' = paid
          /\ Invoice.amountPaid i' = Invoice.total i
          /\ Invoice.amountDue i' = 0%float
          /\ Invoice.paidAt i' = Some now
          /\ Invoice.total i' = Invoice.total i
          /\ Invoice.lineItems i' = Invoice.lineItems i
          /\ (JS.isNaN (Invoice.total i) = false -> balanced i')
          /\ (forall api2 now2,
                InvoiceService.payInvoice api2 now2 id (snd run)
                = (Throw (mkError InvalidState "Invoice is already paid"),
                   snd run))
          /\ (forall api2 now2,
                InvoiceService.voidInvoice api2 now2 id (snd run)
                = (Throw (mkError InvalidState "Cannot void a paid invoice"),
                   snd run)))).
  { cbv zeta in Hmain. destruct Hmain as [M1 M2].
    split; [exact M1|]. split; [exact M2|]. split; [exact Hpaid | exact Hmark]. }
  cbv zeta.
  unfold InvoiceService.payInvoice, bind, InvoiceRepository.findById, gets.
  rewrite Hrow. unfold throw_if.
  destruct (bool_decide (Invoice.status i = paid)); simpl;
    [split; [reflexivity | discriminate]|].
  destruct (when_linked_invoice_cases i (Stripe.payInvoice api) db)
    as [E | [e E]]; rewrite E; [|split; [reflexivity | discriminate]].
  rewrite (update_row_invoices _ _ _ _ Hrow). simpl.
  split; [discriminate|]. intros _.
  eexists. split; [reflexivity|]. split; [apply lookup_insert_eq|].
  repeat (split; [reflexivity|]).
  split; [intros Hn; unfold balanced; simpl; apply add_zero_eq; exact Hn|].
  assert (Hl : invoices
                 (set_invoices
                    (insert id (Invoice.with_payment (Invoice.total i) 0 paid
                                  (Some now) now i)) db) !! id
               = Some (Invoice.with_payment (Invoice.total i) 0 paid
                         (Some now) now i))
    by apply lookup_set_invoices.
  split; intros api2 now2;
    [apply (proj1 (Hpaid api2 now2 _ _ Hl eq_refl))
    | apply (proj2 (Hpaid api2 now2 _ _ Hl eq_refl))].
Qed.

Lemma payInvoice_outcome_witness :
  invoices Sample.db !! "inv_1" = Some Sample.inv_1
  /\ is_ok (fst (InvoiceService.payInvoice api_up Sample.t0 "inv_1" Sample.db))
     = true
  /\ exists i',
       invoices (snd (InvoiceService.payInvoice api_up Sample.t0 "inv_1" Sample.db))
       !! "inv_1" = Some i'
       /\ Invoice.status i' = paid /\ balanced i'.
Proof.
  assert (Hrow : invoices Sample.db !! "inv_1" = Some Sample.inv_1)
    by (vm_compute; reflexivity).
  assert (Hok : is_ok (fst (InvoiceService.payInvoice api_up Sample.t0 "inv_1"
                              Sample.db)) = true)
    by (vm_compute; reflexivity).
  split; [exact Hrow|]. split; [exact Hok|].
  destruct (proj1 (proj2 (proj2 (payInvoice_outcome api_up Sample.t0 "inv_1"
                                   Sample.db Sample.inv_1 Hrow))) Hok)
    as (i' & _ & Hl & Hs & _ & _ & _ & _ & _ & Hb & _).
  exists i'. split; [exact Hl|]. split; [exact Hs|]. apply Hb. reflexivity.
Defined.

(** X11: [voidInvoice] refuses a paid invoice, and a call that throws
    leaves the store as it was; a call that returns sets the status to
    [void] and keeps the amounts and the line items.  [markUncollectible]
    has no guard: it returns for every invoice that exists, a paid one
    included, and only rewrites the status. *)
Theorem voidInvoice_outcome
    (api : Stripe.Api) (now : Dayjs.Date) (id : string) (db : Db)
    (i : Invoice.t) (Hrow : invoices db !! id = Some i) :
  let run := InvoiceService.voidInvoice api now id db in
  (Invoice.status i = paid ->
   run = (Throw (mkError InvalidState "Cannot void a paid invoice"), db))
  /\ (is_ok (fst run) = false -> snd run = db)
  /\ (is_ok (fst run) = true ->
      Invoice.status i <> paid
      /\ run = (Ok (Some (Invoice.with_status void now i)),
                set_invoices (insert id (Invoice.with_status void now i)) db))
  /\ InvoiceService.markUncollectible now id db
     = (Ok (Some (Invoice.with_status uncollectible now i)),
        set_invoices (insert id (Invoice.with_status uncollectible now i)) db)
  /\ Invoice.amountPaid (Invoice.with_status void now i) = Invoice.amountPaid i
  /\ Invoice.amountDue (Invoice.with_status void now i) = Invoice.amountDue i
  /\ Invoice.total (Invoice.with_status void now i) = Invoice.total i
  /\ Invoice.lineItems (Invoice.with_status void now i) = Invoice.lineItems i.
Proof.
  cbv zeta.
  assert (Hmark : InvoiceService.markUncollectible now id db
     = (Ok (Some (Invoice.with_status uncollectible now i)),
        set_invoices (insert id (Invoice.with_status uncollectible now i)) db)).
  { unfold InvoiceService.markUncollectible, bind, InvoiceRepository.findById, gets.
    rewrite Hrow. apply (update_row_invoices _ _ _ _ Hrow). }
  unfold InvoiceService.voidInvoice, bind, InvoiceRepository.findById, gets.
  rewrite Hrow. unfold throw_if.
  destruct (bool_decide (Invoice.status i = paid)) eqn:Hs; simpl.
  { repeat split; try reflexivity; try discriminate; exact Hmark. }
  apply bool_decide_eq_false in Hs.
  destruct (when_linked_invoice_cases i (Stripe.voidInvoice api) db)
    as [E | [e E]]; rewrite E.
  - rewrite (update_row_invoices _ _ _ _ Hrow). simpl.
    split; [intros; contradiction|]. split; [discriminate|].
    split; [intros _; split; [exact Hs | reflexivity]|].
    split; [exact Hmark|]. repeat split; reflexivity.
  - split; [intros; contradiction|]. split; [reflexivity|].
    split; [discriminate|]. split; [exact Hmark|]. repeat split; reflexivity.
Qed.

Lemma voidInvoice_outcome_witness :
  invoices Sample.db !! "inv_1" = Some Sample.inv_1
  /\ (Invoice.status Sample.inv_1 = paid ->
      InvoiceService.voidInvoice api_up Sample.t0 "inv_1" Sample.db
      = (Throw (mkError InvalidState "Cannot void a paid invoice"), Sample.db))
  /\ Invoice.status
       <$> invoices (snd (InvoiceService.voidInvoice api_up Sample.t0 "inv_1"
                            Sample.db)) !! "inv_1" = Some void.
Proof.
  assert (Hrow : invoices Sample.db !! "inv_1" = Some Sample.inv_1)
    by (vm_compute; reflexivity).
  split; [exact Hrow|]. split; [|vm_compute; reflexivity].
  exact (proj1 (voidInvoice_outcome api_up Sample.t0 "inv_1" Sample.db
                  Sample.inv_1 Hrow)).
Defined.

(** ** Sending an invoice *)

Lemma finalizeInvoice_draft api now id db i :
  invoices db !! id = Some i ->
  Invoice.status i = draft ->
  (InvoiceService.when_linked i (Stripe.finalizeInvoice api) db = (Ok tt, db)
   /\ InvoiceService.finalizeInvoice api now id db
      = (Ok (Some (Invoice.with_status open now i)),
         set_invoices (insert id (Invoice.with_status open now i)) db))
  \/ exists e,
       InvoiceService.when_linked i (Stripe.finalizeInvoice api) db = (Throw e, db)
       /\ InvoiceService.finalizeInvoice api now id db = (Throw e, db).
Proof.
  intros Hrow Hd.
  unfold InvoiceService.finalizeInvoice, bind, InvoiceRepository.findById, gets,
    throw_if.
  rewrite Hrow, Hd. simpl.
  destruct (when_linked_invoice_cases i (Stripe.finalizeInvoice api) db)
    as [E | [e E]]; rewrite E.
  - left. split; [reflexivity|]. apply (update_row_invoices _ _ _ _ Hrow).
  - right. exists e. split; reflexivity.
Qed.

(** X12: [sendInvoice] never writes an invoice that is not a draft,
    and returns it as it is stored.  It finalizes a draft first, and
    a call that returns has made it open; but it is not all or
    nothing: when the gateway finalizes the draft and then fails to
    send it, the call throws and the invoice stays open. *)
Theorem sendInvoice_outcome
    (api : Stripe.Api) (now : Dayjs.Date) (id : string) (db : Db)
    (i : Invoice.t) (Hrow : invoices db !! id = Some i) :
  let run := InvoiceService.sendInvoice api now id db in
  let opened := Invoice.with_status open now i in
  let db1 := set_invoices (insert id opened) db in
  (Invoice.status i <> draft ->
   snd run = db /\ forall r, fst run = Ok r -> r = Some i)
  /\ (Invoice.status i = draft ->
      (snd run = db \/ snd run = db1)
      /\ (forall r, fst run = Ok r -> r = Some opened /\ snd run = db1)
      /\ (forall sid e,
            Invoice.stripeInvoiceId i = Some sid -> sid <> "" ->
            Stripe.finalizeInvoice api sid = Ok tt ->
            Stripe.sendInvoice api sid = Throw e ->
            run = (Throw e, db1))).
Proof.
  cbv zeta.
  remember (InvoiceService.sendInvoice api now id db) as run eqn:Erun.
  unfold InvoiceService.sendInvoice in Erun. unfold bind at 1 in Erun.
  unfold InvoiceRepository.findById at 1, gets in Erun. rewrite Hrow in Erun.
  unfold bind at 1 in Erun.
  destruct (bool_decide (Invoice.status i = draft)) eqn:Hd.
  - apply bool_decide_eq_true in Hd. split; [intros Hn; contradiction|].
    intros _. unfold bind at 1 in Erun.
    destruct (finalizeInvoice_draft api now id db i Hrow Hd)
      as [[W E] | [e [W E]]]; rewrite E in Erun;
      cbv beta iota delta [ret] in Erun.
    + unfold bind at 1 in Erun.
      assert (Hlook : InvoiceRepository.findById id
                        (set_invoices (insert id (Invoice.with_status open now i)) db)
                      = (Ok (Some (Invoice.with_status open now i)),
                         set_invoices
                           (insert id (Invoice.with_status open now i)) db)).
      { unfold InvoiceRepository.findById, gets. simpl.
        rewrite lookup_insert_eq. reflexivity. }
      destruct (when_linked_invoice_cases i (Stripe.sendInvoice api)
                  (set_invoices (insert id (Invoice.with_status open now i)) db))
        as [S | [e S]]; rewrite S in Erun; cbv beta iota in Erun.
      * rewrite Hlook in Erun. subst run. simpl.
        split; [right; reflexivity|].
        split; [intros r Hr; injection Hr as <-; split; reflexivity|].
        intros sid e Hsid Hne _ Hsend. exfalso.
        unfold InvoiceService.when_linked, truthy_string, lift in S.
        rewrite Hsid, (proj2 (String.eqb_neq sid "") Hne), Hsend in S.
        discriminate.
      * subst run. simpl. split; [right; reflexivity|].
        split; [intros r Hr; discriminate|].
        intros sid e' Hsid Hne _ Hsend.
        unfold InvoiceService.when_linked, truthy_string, lift in S.
        rewrite Hsid, (proj2 (String.eqb_neq sid "") Hne), Hsend in S.
        simpl in S. injection S as ->. reflexivity.
    + subst run. simpl. split; [left; reflexivity|].
      split; [intros r Hr; discriminate|].
      intros sid e' Hsid Hne Hfin _. exfalso.
      unfold InvoiceService.when_linked, truthy_string, lift in W.
      rewrite Hsid, (proj2 (String.eqb_neq sid "") Hne), Hfin in W.
      discriminate.
  - apply bool_decide_eq_false in Hd. split; [|intros Hn; contradiction].
    intros _. cbv beta iota delta [ret] in Erun. unfold bind at 1 in Erun.
    destruct (when_linked_invoice_cases i (Stripe.sendInvoice api) db)
      as [S | [e S]]; rewrite S in Erun; cbv beta iota in Erun.
    + unfold InvoiceRepository.findById, gets in Erun. rewrite Hrow in Erun.
      subst run. simpl. split; [reflexivity|].
      intros r Hr. injection Hr as <-. reflexivity.
    + subst run. simpl. split; [reflexivity|]. intros r Hr. discriminate.
Qed.

Lemma sendInvoice_outcome_witness :
  invoices Sample.db !! "inv_2" = Some Sample.inv_2
  /\ Invoice.status Sample.inv_2 = draft
  /\ fst (InvoiceService.sendInvoice api_up Sample.t0 "inv_2" Sample.db)
     = Ok (Some (Invoice.with_status open Sample.t0 Sample.inv_2)).
Proof.
  assert (Hrow : invoices Sample.db !! "inv_2" = Some Sample.inv_2)
    by (vm_compute; reflexivity).
  assert (Hr : fst (InvoiceService.sendInvoice api_up Sample.t0 "inv_2" Sample.db)
               = Ok (invoices
                       (snd (InvoiceService.sendInvoice api_up Sample.t0 "inv_2"
                               Sample.db)) !! "inv_2"))
    by (vm_compute; reflexivity).
  split; [exact Hrow|]. split; [reflexivity|].
  pose proof (sendInvoice_outcome api_up Sample.t0 "inv_2" Sample.db Sample.inv_2
                Hrow) as T.
  cbv zeta in T. destruct T as [_ T].
  destruct (T eq_refl) as (_ & T2 & _).
  destruct (T2 _ Hr) as [E _].
  rewrite Hr, E. reflexivity.
Defined.

(** ** Line items *)

Lemma addLineItem_draft now uuid id input db i :
  invoices db !! id = Some i ->
  Invoice.status i = draft ->
  let item :=
    InvoiceLineItem.mk uuid id (InvoiceService.description input)
      (InvoiceService.quantity input) (InvoiceService.unitPrice input)
      (InvoiceService.quantity input * InvoiceService.unitPrice input)%float
      (InvoiceService.taxRate input) (Some (line_tax input)) in
  let sub := (InvoiceService.sum_amounts (Invoice.lineItems i)
              + InvoiceService.quantity input * InvoiceService.unitPrice input)%float in
  let tx := (InvoiceService.sum_taxes (Invoice.lineItems i)
             + JS.or_else (line_tax input) 0)%float in
  let i' := Invoice.with_lineItems (Invoice.lineItems i ++ [item]) sub tx
              (sub + tx)%float (sub + tx - Invoice.amountPaid i)%float now i in
  InvoiceService.addLineItem now uuid id input db
  = (Ok (Some i'), set_invoices (insert id i') db).
Proof.
  intros Hi Hd. cbv zeta.
  unfold InvoiceService.addLineItem, bind, InvoiceRepository.findById, gets.
  rewrite Hi, Hd. simpl.
  rewrite (update_row_invoices _ _ _ _ Hi).
  unfold InvoiceService.sum_amounts, InvoiceService.sum_taxes.
  rewrite !fold_left_app. reflexivity.
Qed.

(** X13: on a draft invoice [addLineItem] appends one line whose
    amount is [quantity * unitPrice], with the tax
    [amount * (taxRate / 100)] when a tax rate other than 0 is given;
    the subtotal and the tax of the invoice become the sums over the
    old lines plus the amount and the tax of the new line (a tax that
    is not a number counting as 0, as in [taxAmount || 0]), the total
    their sum; the status and the amount paid do not change. *)
Theorem addLineItem_adds_one_line
    (now : Dayjs.Date) (uuid id : string)
    (input : InvoiceService.CreateLineItemInput) (db : Db) (i : Invoice.t)
    (Hrow : invoices db !! id = Some i) (Hdraft : Invoice.status i = draft) :
  exists i' item,
    InvoiceService.addLineItem now uuid id input db
    = (Ok (Some i'), set_invoices (insert id i') db)
    /\ Invoice.lineItems i' = Invoice.lineItems i ++ [item]
    /\ InvoiceLineItem.id item = uuid
    /\ InvoiceLineItem.invoiceId item = id
    /\ InvoiceLineItem.amount item
       = (InvoiceService.quantity input * InvoiceService.unitPrice input)%float
    /\ InvoiceLineItem.taxAmount item = Some (line_tax input)
    /\ Invoice.subtotal i'
       = (InvoiceService.sum_amounts (Invoice.lineItems i)
          + InvoiceLineItem.amount item)%float
    /\ Invoice.tax i'
       = (InvoiceService.sum_taxes (Invoice.lineItems i)
          + JS.or_else (line_tax input) 0)%float
    /\ Invoice.total i' = (Invoice.subtotal i' + Invoice.tax i')%float
    /\ Invoice.status i' = draft
    /\ Invoice.amountPaid i' = Invoice.amountPaid i.
Proof.
  pose proof (addLineItem_draft now uuid id input db i Hrow Hdraft) as H.
  cbv zeta in H. eexists _, _. split; [exact H|]. simpl.
  repeat (split; [reflexivity|]). split; [exact Hdraft | reflexivity].
Qed.

Lemma addLineItem_adds_one_line_witness :
  invoices Sample.db !! "inv_2" = Some Sample.inv_2
  /\ Invoice.status Sample.inv_2 = draft
  /\ exists i' item,
       InvoiceService.addLineItem Sample.t0 "li_2" "inv_2"
         (InvoiceService.mkLineItemInput "support" 2 30 (Some 10%float)) Sample.db
       = (Ok (Some i'), set_invoices (insert "inv_2" i') Sample.db)
       /\ Invoice.lineItems i' = Invoice.lineItems Sample.inv_2 ++ [item]
       /\ Invoice.total i' = 166%float.
Proof.
  assert (Hrow : invoices Sample.db !! "inv_2" = Some Sample.inv_2)
    by (vm_compute; reflexivity).
  split; [exact Hrow|]. split; [reflexivity|].
  destruct (addLineItem_adds_one_line Sample.t0 "li_2" "inv_2"
              (InvoiceService.mkLineItemInput "support" 2 30 (Some 10%float))
              Sample.db Sample.inv_2 Hrow eq_refl)
    as (i' & item & Hrun & Hitems & _ & _ & Ha & _ & Hs & Ht & Htot & _).
  exists i', item. split; [exact Hrun|]. split; [exact Hitems|].
  rewrite Htot, Hs, Ht, Ha. vm_compute. reflexivity.
Defined.

Lemma removeLineItem_draft now id item db i :
  invoices db !! id = Some i ->
  Invoice.status i = draft ->
  let items :=
    List.filter (fun l => negb (String.eqb (InvoiceLineItem.id l) item))
      (Invoice.lineItems i) in
  let sub := InvoiceService.sum_amounts items in
  let tx := InvoiceService.sum_taxes items in
  let i' := Invoice.with_lineItems items sub tx (sub + tx)%float
              (sub + tx - Invoice.amountPaid i)%float now i in
  InvoiceService.removeLineItem now id item db
  = (Ok (Some i'), set_invoices (insert id i') db).
Proof.
  intros Hi Hd. cbv zeta.
  unfold InvoiceService.removeLineItem, bind, InvoiceRepository.findById, gets.
  rewrite Hi, Hd. simpl.
  rewrite (update_row_invoices _ _ _ _ Hi). reflexivity.
Qed.

Lemma filter_drops_new_line (uuid : string) (items : list InvoiceLineItem.t)
    (item : InvoiceLineItem.t) :
  Forall (fun l => InvoiceLineItem.id l <> uuid) items ->
  InvoiceLineItem.id item = uuid ->
  List.filter (fun l => negb (String.eqb (InvoiceLineItem.id l) uuid))
    (items ++ [item]) = items.
Proof.
  intros Hall Hid. induction Hall as [|l items Hl _ IH]; simpl.
  - rewrite Hid, String.eqb_refl. reflexivity.
  - apply String.eqb_neq in Hl. rewrite Hl. simpl. now rewrite IH.
Qed.

(** X14: adding a line to a draft invoice under an id that no line of
    the invoice has, then removing the line with that id, gives back
    the line items the invoice had; the subtotal and the tax are the
    sums over these lines, the total is their sum, the amount paid is
    as it was and the amount due is stored as the double difference
    [total - amountPaid]. *)
Theorem add_then_remove_line_item
    (now now2 : Dayjs.Date) (uuid id : string)
    (input : InvoiceService.CreateLineItemInput) (db : Db) (i : Invoice.t)
    (Hrow : invoices db !! id = Some i) (Hdraft : Invoice.status i = draft)
    (Hfresh : Forall (fun l => InvoiceLineItem.id l <> uuid) (Invoice.lineItems i)) :
  let db1 := snd (InvoiceService.addLineItem now uuid id input db) in
  let run := InvoiceService.removeLineItem now2 id uuid db1 in
  exists i2,
    fst run = Ok (Some i2)
    /\ invoices (snd run) !! id = Some i2
    /\ Invoice.lineItems i2 = Invoice.lineItems i
    /\ Invoice.subtotal i2 = InvoiceService.sum_amounts (Invoice.lineItems i)
    /\ Invoice.tax i2 = InvoiceService.sum_taxes (Invoice.lineItems i)
    /\ Invoice.total i2 = (Invoice.subtotal i2 + Invoice.tax i2)%float
    /\ Invoice.amountPaid i2 = Invoice.amountPaid i
    /\ Invoice.amountDue i2 = (Invoice.total i2 - Invoice.amountPaid i2)%float
    /\ Invoice.status i2 = draft.
Proof.
  cbv zeta.
  pose proof (addLineItem_draft now uuid id input db i Hrow Hdraft) as H.
  cbv zeta in H. rewrite H. simpl snd.
  match goal with
  | |- context [set_invoices (insert id ?r) db] => set (i1 := r)
  end.
  assert (H1 : invoices (set_invoices (insert id i1) db) !! id = Some i1)
    by apply lookup_set_invoices.
  assert (Hd1 : Invoice.status i1 = draft) by exact Hdraft.
  pose proof (removeLineItem_draft now2 id uuid _ i1 H1 Hd1) as H2.
  cbv zeta in H2. rewrite H2. clear H2.
  eexists. split; [reflexivity|]. split; [apply lookup_set_invoices|].
  assert (Hitems : List.filter
                     (fun l => negb (String.eqb (InvoiceLineItem.id l) uuid))
                     (Invoice.lineItems i1) = Invoice.lineItems i)
    by (unfold i1; simpl Invoice.lineItems;
        apply filter_drops_new_line; [exact Hfresh | reflexivity]).
  rewrite Hitems. simpl.
  repeat (split; [reflexivity|]). exact Hdraft.
Qed.

Lemma add_then_remove_line_item_witness :
  invoices Sample.db !! "inv_2" = Some Sample.inv_2
  /\ exists i2,
       invoices
         (snd (InvoiceService.removeLineItem Sample.t0 "inv_2" "li_2"
                 (snd (InvoiceService.addLineItem Sample.t0 "li_2" "inv_2"
                         (InvoiceService.mkLineItemInput "support" 2 30 None)
                         Sample.db)))) !! "inv_2" = Some i2
       /\ Invoice.lineItems i2 = Invoice.lineItems Sample.inv_2.
Proof.
  assert (Hrow : invoices Sample.db !! "inv_2" = Some Sample.inv_2)
    by (vm_compute; reflexivity).
  assert (Hfresh : Forall (fun l => InvoiceLineItem.id l <> "li_2")
                     (Invoice.lineItems Sample.inv_2))
    by (repeat constructor; discriminate).
  split; [exact Hrow|].
  destruct (add_then_remove_line_item Sample.t0 Sample.t0 "li_2" "inv_2"
              (InvoiceService.mkLineItemInput "support" 2 30 None)
              Sample.db Sample.inv_2 Hrow eq_refl Hfresh)
    as (i2 & _ & Hl & Hitems & _).
  exists i2. split; assumption.
Defined.

(** ** Creating an invoice *)

Lemma push_items_cases api sid items db :
  InvoiceService.push_items api sid items db = (Ok tt, db)
  \/ exists e, InvoiceService.push_items api sid items db = (Throw e, db).
Proof.
  induction items as [|item items IH]; [left; reflexivity|].
  cbn [InvoiceService.push_items]. unfold bind at 1, lift.
  destruct (Stripe.createInvoiceItem api sid _) as [[]|e];
    [exact IH | right; exists e; reflexivity].
Qed.

Lemma sum_amounts_imap (g : nat -> InvoiceService.CreateLineItemInput
                            -> InvoiceLineItem.t)
    (l : list InvoiceService.CreateLineItemInput) :
  (forall k x, InvoiceLineItem.amount (g k x)
               = (InvoiceService.quantity x * InvoiceService.unitPrice x)%float) ->
  forall a,
    fold_left (fun sum item => (sum + InvoiceLineItem.amount item)%float) (imap g l) a
    = fold_left
        (fun sum x => (sum + InvoiceService.quantity x
                             * InvoiceService.unitPrice x)%float) l a.
Proof.
  revert g. induction l as [|x l IH]; intros g Hg a; [reflexivity|].
  rewrite imap_cons. simpl. rewrite Hg. apply IH. intros k y. apply Hg.
Qed.

(** What [createInvoice] returns and stores. *)
Lemma createInvoice_spec
    (api : Stripe.Api) (customers : gmap string Customer.t)
    (countByMonth : Dayjs.Date -> Db -> Z) (now : Dayjs.Date)
    (uuid : nat -> string) (input : InvoiceService.CreateInvoiceInput) (db : Db) :
  let run := InvoiceService.createInvoice api customers countByMonth now uuid
               input db in
  (customers !! InvoiceService.ci_customerId input = None ->
   run = (Throw (mkError NotFound "Customer not found"), db))
  /\ (is_ok (fst run) = false -> snd run = db)
  /\ (forall r, fst run = Ok r ->
        invoices (snd run) !! Invoice.id r = Some r
        /\ Invoice.id r = uuid (length (InvoiceService.ci_lineItems input))
        /\ Invoice.status r = draft
        /\ Invoice.amountPaid r = 0%float
        /\ Invoice.amountDue r = Invoice.total r
        /\ Invoice.total r = (Invoice.subtotal r + Invoice.tax r)%float
        /\ Invoice.subtotal r
           = fold_left
               (fun sum x => (sum + InvoiceService.quantity x
                                    * InvoiceService.unitPrice x)%float)
               (InvoiceService.ci_lineItems input) 0%float
        /\ length (Invoice.lineItems r)
           = length (InvoiceService.ci_lineItems input)
        /\ Forall (fun l => InvoiceLineItem.invoiceId l = Invoice.id r)
             (Invoice.lineItems r)
        /\ (JS.isNaN (Invoice.total r) = false -> balanced r)
        /\ payments (snd run) = payments db
        /\ subscriptions (snd run) = subscriptions db
        /\ forall id', id' <> Invoice.id r ->
             invoices (snd run) !! id' = invoices db !! id').
Proof.
  cbv zeta. unfold InvoiceService.createInvoice.
  destruct (customers !! InvoiceService.ci_customerId input) as [c|];
    [|split; [reflexivity|]; split; [reflexivity | discriminate]].
  split; [discriminate|].
  assert (Hcore : forall sid : option string,
    let run :=
      bind (InvoiceService.generateInvoiceNumber countByMonth now)
        (fun invoiceNumber =>
           bind (InvoiceRepository.create
                   (Invoice.mk (uuid (length (InvoiceService.ci_lineItems input)))
                      (InvoiceService.ci_customerId input)
                      (InvoiceService.ci_subscriptionId input) sid invoiceNumber
                      draft (default USD (InvoiceService.ci_currency input))
                      (InvoiceService.sum_amounts
                         (imap (InvoiceService.line_item_of uuid)
                            (InvoiceService.ci_lineItems input)))
                      (InvoiceService.sum_taxes
                         (imap (InvoiceService.line_item_of uuid)
                            (InvoiceService.ci_lineItems input)))
                      (InvoiceService.sum_amounts
                         (imap (InvoiceService.line_item_of uuid)
                            (InvoiceService.ci_lineItems input))
                       + InvoiceService.sum_taxes
                           (imap (InvoiceService.line_item_of uuid)
                              (InvoiceService.ci_lineItems input)))%float
                      0
                      (InvoiceService.sum_amounts
                         (imap (InvoiceService.line_item_of uuid)
                            (InvoiceService.ci_lineItems input))
                       + InvoiceService.sum_taxes
                           (imap (InvoiceService.line_item_of uuid)
                              (InvoiceService.ci_lineItems input)))%float
                      (InvoiceLineItem.with_invoiceId ""
                         <$> imap (InvoiceService.line_item_of uuid)
                               (InvoiceService.ci_lineItems input))
                      (default (Dayjs.add now 30 Dayjs.day)
                         (InvoiceService.ci_dueDate input))
                      None now now))
             (fun created =>
                bind (InvoiceRepository.update (Invoice.id created)
                        (Invoice.with_lineItems_only
                           (InvoiceLineItem.with_invoiceId (Invoice.id created)
                              <$> Invoice.lineItems created)))
                  (fun _ =>
                     ret (Invoice.with_lineItems_only
                            (InvoiceLineItem.with_invoiceId (Invoice.id created)
                               <$> Invoice.lineItems created) created)))) db in
    (is_ok (fst run) = false -> snd run = db)
    /\ (forall r, fst run = Ok r ->
          invoices (snd run) !! Invoice.id r = Some r
          /\ Invoice.id r = uuid (length (InvoiceService.ci_lineItems input))
          /\ Invoice.status r = draft
          /\ Invoice.amountPaid r = 0%float
          /\ Invoice.amountDue r = Invoice.total r
          /\ Invoice.total r = (Invoice.subtotal r + Invoice.tax r)%float
          /\ Invoice.subtotal r
             = fold_left
                 (fun sum x => (sum + InvoiceService.quantity x
                                      * InvoiceService.unitPrice x)%float)
                 (InvoiceService.ci_lineItems input) 0%float
          /\ length (Invoice.lineItems r)
             = length (InvoiceService.ci_lineItems input)
          /\ Forall (fun l => InvoiceLineItem.invoiceId l = Invoice.id r)
               (Invoice.lineItems r)
          /\ (JS.isNaN (Invoice.total r) = false -> balanced r)
          /\ payments (snd run) = payments db
          /\ subscriptions (snd run) = subscriptions db
          /\ forall id', id' <> Invoice.id r ->
               invoices (snd run) !! id' = invoices db !! id')).
  { intros sid. cbv zeta.
    unfold bind at 1, InvoiceService.generateInvoiceNumber, bind at 1, gets, ret.
    unfold bind at 1, InvoiceRepository.create.
    unfold bind, InvoiceRepository.update, update_row. simpl.
    rewrite lookup_insert_eq. simpl.
    split; [discriminate|].
    intros r Hr. injection Hr as <-. simpl.
    split; [rewrite insert_insert_eq; apply lookup_insert_eq|].
    repeat (split; [reflexivity|]).
    split; [apply sum_amounts_imap; reflexivity|].
    split; [rewrite !length_fmap; apply length_imap|].
    split; [apply Forall_fmap, Forall_true; reflexivity|].
    split; [intros Hn; unfold balanced; simpl in *; apply zero_add_eq; exact Hn|].
    split; [reflexivity|]. split; [reflexivity|].
    intros id' Hne. simpl in Hne. rewrite insert_insert_eq.
    apply lookup_insert_ne. congruence. }
  destruct (Customer.stripeCustomerId c) as [cus|]; [destruct (truthy_string cus)|].
  - unfold bind, lift.
    destruct (Stripe.createInvoice api cus) as [sid|e];
      [|split; [reflexivity | discriminate]].
    destruct (push_items_cases api sid (InvoiceService.ci_lineItems input) db)
      as [E | [e E]]; rewrite !E;
      [|split; [reflexivity | discriminate]].
    apply (Hcore (Some sid)).
  - apply (Hcore None).
  - apply (Hcore None).
Qed.

(** X15: [createInvoice] throws [NotFound] for an unknown customer,
    and a call that throws, there or in the gateway, leaves the store
    as it was.  The invoice it returns is the stored row: a draft with
    nothing paid, [amountDue = total = subtotal + tax] (so that it is
    balanced when the total is a number), a subtotal that
    is the sum of [quantity * unitPrice] over the input lines, one line
    item per input line, each carrying the id of the invoice. *)
Theorem createInvoice_outcome
    (api : Stripe.Api) (customers : gmap string Customer.t)
    (countByMonth : Dayjs.Date -> Db -> Z) (now : Dayjs.Date)
    (uuid : nat -> string) (input : InvoiceService.CreateInvoiceInput) (db : Db) :
  let run := InvoiceService.createInvoice api customers countByMonth now uuid
               input db in
  (customers !! InvoiceService.ci_customerId input = None ->
   run = (Throw (mkError NotFound "Customer not found"), db))
  /\ (is_ok (fst run) = false -> snd run = db)
  /\ (forall r, fst run = Ok r ->
        invoices (snd run) !! Invoice.id r = Some r
        /\ Invoice.id r = uuid (length (InvoiceService.ci_lineItems input))
        /\ Invoice.status r = draft
        /\ Invoice.amountPaid r = 0%float
        /\ Invoice.amountDue r = Invoice.total r
        /\ Invoice.total r = (Invoice.subtotal r + Invoice.tax r)%float
        /\ Invoice.subtotal r
           = fold_left
               (fun sum x => (sum + InvoiceService.quantity x
                                    * InvoiceService.unitPrice x)%float)
               (InvoiceService.ci_lineItems input) 0%float
        /\ length (Invoice.lineItems r)
           = length (InvoiceService.ci_lineItems input)
        /\ Forall (fun l => InvoiceLineItem.invoiceId l = Invoice.id r)
             (Invoice.lineItems r)
        /\ (JS.isNaN (Invoice.total r) = false -> balanced r)
        /\ payments (snd run) = payments db
        /\ subscriptions (snd run) = subscriptions db).
Proof.
  cbv zeta.
  destruct (createInvoice_spec api customers countByMonth now uuid input db)
    as (H1 & H2 & H3).
  split; [exact H1|]. split; [exact H2|].
  intros r Hr.
  destruct (H3 r Hr)
    as (G1 & G2 & G3 & G4 & G5 & G6 & G7 & G8 & G9 & G10 & G11 & G12 & _).
  repeat (split; [assumption|]). assumption.
Qed.

(** ** Batches *)

Lemma invoice_update_lookup k patch db id :
  invoices (snd (InvoiceRepository.update k patch db)) !! id
  = if decide (id = k) then patch <$> invoices db !! k else invoices db !! id.
Proof.
  unfold InvoiceRepository.update, update_row.
  destruct (invoices db !! k) as [row|] eqn:E; simpl.
  - destruct (decide (id = k)) as [-> | N].
    + apply lookup_insert_eq.
    + apply lookup_insert_ne. congruence.
  - destruct (decide (id = k)) as [-> | N]; [exact E | reflexivity].
Qed.

Lemma subscription_update_lookup k patch db id :
  subscriptions (snd (SubscriptionRepository.update k patch db)) !! id
  = if decide (id = k) then patch <$> subscriptions db !! k
    else subscriptions db !! id.
Proof.
  unfold SubscriptionRepository.update, update_row.
  destruct (subscriptions db !! k) as [row|] eqn:E; simpl.
  - destruct (decide (id = k)) as [-> | N].
    + apply lookup_insert_eq.
    + apply lookup_insert_ne. congruence.
  - destruct (decide (id = k)) as [-> | N]; [exact E | reflexivity].
Qed.

Lemma invoice_update_frame k patch db :
  is_ok (fst (InvoiceRepository.update k patch db)) = true
  /\ payments (snd (InvoiceRepository.update k patch db)) = payments db
  /\ refunds (snd (InvoiceRepository.update k patch db)) = refunds db
  /\ subscriptions (snd (InvoiceRepository.update k patch db)) = subscriptions db
  /\ plans (snd (InvoiceRepository.update k patch db)) = plans db.
Proof.
  unfold InvoiceRepository.update, update_row.
  destruct (invoices db !! k); simpl; repeat split; reflexivity.
Qed.

Lemma subscription_update_frame k patch db :
  is_ok (fst (SubscriptionRepository.update k patch db)) = true
  /\ payments (snd (SubscriptionRepository.update k patch db)) = payments db
  /\ refunds (snd (SubscriptionRepository.update k patch db)) = refunds db
  /\ invoices (snd (SubscriptionRepository.update k patch db)) = invoices db
  /\ plans (snd (SubscriptionRepository.update k patch db)) = plans db.
Proof.
  unfold SubscriptionRepository.update, update_row.
  destruct (subscriptions db !! k); simpl; repeat split; reflexivity.
Qed.

Lemma mark_all_past_due_spec now (l : list Invoice.t) : forall acc db,
  exists db',
    InvoiceService.mark_all_past_due now acc l db
    = (Ok (fst acc + Z.of_nat (length l), snd acc), db')
    /\ payments db' = payments db
    /\ subscriptions db' = subscriptions db
    /\ forall id,
         invoices db' !! id
         = if decide (id ∈ Invoice.id <$> l)
           then Invoice.with_status inv_past_due now <$> invoices db !! id
           else invoices db !! id.
Proof.
  induction l as [|i l IH]; intros acc db.
  - exists db. cbn [InvoiceService.mark_all_past_due
                     SubscriptionService.expire_trials length Z.of_nat].
    unfold ret. rewrite Z.add_0_r.
    repeat (split; [destruct acc; reflexivity || reflexivity|]).
    intros id. rewrite fmap_nil. case_decide as H; [|reflexivity].
    apply elem_of_nil in H. destruct H.
  - cbn [InvoiceService.mark_all_past_due]. unfold bind at 1.
    unfold InvoiceService.mark_past_due, try_catch, bind at 1.
    pose proof (invoice_update_lookup (Invoice.id i)
                  (Invoice.with_status inv_past_due now) db) as Hl.
    destruct (invoice_update_frame (Invoice.id i)
                (Invoice.with_status inv_past_due now) db)
      as (Hok & Hp & _ & Hs & _).
    destruct (InvoiceRepository.update (Invoice.id i) _ db) as [r db1].
    simpl in Hl, Hok, Hp, Hs. destruct r as [r|e]; [|discriminate]. unfold ret.
    destruct (IH (fst acc + 1, snd acc) db1) as (db' & Hrun & Hp' & Hs' & Hl').
    exists db'. rewrite Hrun. simpl fst. simpl snd.
    split; [do 2 f_equal; apply pair_equal_spec; split; [|reflexivity];
            rewrite length_cons, Nat2Z.inj_succ; lia|].
    split; [congruence|]. split; [congruence|].
    intros id. rewrite Hl', Hl. rewrite fmap_cons.
    destruct (decide (id = Invoice.id i)) as [-> | N].
    + rewrite (decide_True (P := Invoice.id i ∈ Invoice.id i :: _))
        by (apply elem_of_cons; left; reflexivity).
      destruct (decide (Invoice.id i ∈ Invoice.id <$> l));
        destruct (invoices db !! Invoice.id i); reflexivity.
    + destruct (decide (id ∈ Invoice.id <$> l)) as [H|H].
      * rewrite decide_True by (apply elem_of_cons; right; exact H). reflexivity.
      * rewrite decide_False; [reflexivity|].
        intros H'. apply elem_of_cons in H' as [H'|H']; contradiction.
Qed.

(** X16: [processOverdueInvoices] counts every invoice that the
    overdue query lists as processed and none as failed; the rows of
    the listed ids end [past_due], with their amounts and line items
    as they were, whatever their status was; the other invoices, the
    payments and the subscriptions are as they were. *)
Theorem processOverdueInvoices_outcome
    (findOverdueUnpaginated : Db -> list Invoice.t) (now : Dayjs.Date) (db : Db) :
  let run := InvoiceService.processOverdueInvoices findOverdueUnpaginated now db in
  let listed := Invoice.id <$> findOverdueUnpaginated db in
  fst run = Ok (Z.of_nat (length listed), 0)
  /\ payments (snd run) = payments db
  /\ subscriptions (snd run) = subscriptions db
  /\ (forall id, id ∉ listed -> invoices (snd run) !! id = invoices db !! id)
  /\ (forall id, id ∈ listed ->
        invoices (snd run) !! id
        = Invoice.with_status inv_past_due now <$> invoices db !! id)
  /\ (forall i, Invoice.amountPaid (Invoice.with_status inv_past_due now i)
                = Invoice.amountPaid i
                /\ Invoice.amountDue (Invoice.with_status inv_past_due now i)
                   = Invoice.amountDue i
                /\ Invoice.total (Invoice.with_status inv_past_due now i)
                   = Invoice.total i
                /\ Invoice.lineItems (Invoice.with_status inv_past_due now i)
                   = Invoice.lineItems i).
Proof.
  cbv zeta. unfold InvoiceService.processOverdueInvoices, bind, gets.
  destruct (mark_all_past_due_spec now (findOverdueUnpaginated db) (0, 0) db)
    as (db' & Hrun & Hp & Hs & Hl).
  rewrite Hrun. simpl. rewrite length_fmap.
  split; [reflexivity|]. split; [exact Hp|]. split; [exact Hs|].
  split; [|split].
  - intros id Hn. rewrite Hl. now rewrite decide_False.
  - intros id Hin. rewrite Hl. now rewrite decide_True.
  - intros i. repeat split; reflexivity.
Qed.

Lemma expire_trials_spec now (l : list Subscription.t) : forall acc db,
  let patch := fun s => Subscription.with_updatedAt now
                          (Subscription.with_trialEnd None
                             (Subscription.with_status active s)) in
  exists db',
    SubscriptionService.expire_trials now acc l db
    = (Ok (fst acc + Z.of_nat (length l), snd acc), db')
    /\ payments db' = payments db
    /\ invoices db' = invoices db
    /\ forall id,
         subscriptions db' !! id
         = if decide (id ∈ Subscription.id <$> l)
           then patch <$> subscriptions db !! id
           else subscriptions db !! id.
Proof.
  cbv zeta. induction l as [|s l IH]; intros acc db.
  - exists db. cbn [InvoiceService.mark_all_past_due
                     SubscriptionService.expire_trials length Z.of_nat].
    unfold ret. rewrite Z.add_0_r.
    repeat (split; [destruct acc; reflexivity || reflexivity|]).
    intros id. rewrite fmap_nil. case_decide as H; [|reflexivity].
    apply elem_of_nil in H. destruct H.
  - cbn [SubscriptionService.expire_trials]. unfold bind at 1.
    unfold SubscriptionService.expire_trial, try_catch, bind at 1.
    set (patch := fun s0 => Subscription.with_updatedAt now
                              (Subscription.with_trialEnd None
                                 (Subscription.with_status active s0))).
    pose proof (subscription_update_lookup (Subscription.id s) patch db) as Hl.
    destruct (subscription_update_frame (Subscription.id s) patch db)
      as (Hok & Hp & _ & Hi & _).
    destruct (SubscriptionRepository.update (Subscription.id s) patch db)
      as [r db1].
    simpl in Hl, Hok, Hp, Hi. destruct r as [r|e]; [|discriminate]. unfold ret.
    destruct (IH (fst acc + 1, snd acc) db1) as (db' & Hrun & Hp' & Hi' & Hl').
    exists db'. rewrite Hrun. simpl fst. simpl snd.
    split; [do 2 f_equal; apply pair_equal_spec; split; [|reflexivity];
            rewrite length_cons, Nat2Z.inj_succ; lia|].
    split; [congruence|]. split; [congruence|].
    intros id. rewrite Hl', Hl. rewrite fmap_cons.
    destruct (decide (id = Subscription.id s)) as [-> | N].
    + rewrite (decide_True (P := Subscription.id s ∈ Subscription.id s :: _))
        by (apply elem_of_cons; left; reflexivity).
      destruct (decide (Subscription.id s ∈ Subscription.id <$> l));
        destruct (subscriptions db !! Subscription.id s); reflexivity.
    + destruct (decide (id ∈ Subscription.id <$> l)) as [H|H].
      * rewrite decide_True by (apply elem_of_cons; right; exact H). reflexivity.
      * rewrite decide_False; [reflexivity|].
        intros H'. apply elem_of_cons in H' as [H'|H']; contradiction.
Qed.

(** X17: [processExpiredTrials] counts every subscription that the
    expired-trial query lists as processed and none as failed; the rows
    of the listed ids end [active] with no [trialEnd], their plan,
    quantity and period as they were; the other subscriptions, the
    invoices and the payments are as they were. *)
Theorem processExpiredTrials_outcome
    (findExpiredTrials : Db -> list Subscription.t) (now : Dayjs.Date) (db : Db) :
  let run := SubscriptionService.processExpiredTrials findExpiredTrials now db in
  let listed := Subscription.id <$> findExpiredTrials db in
  fst run = Ok (Z.of_nat (length listed), 0)
  /\ payments (snd run) = payments db
  /\ invoices (snd run) = invoices db
  /\ (forall id, id ∉ listed ->
        subscriptions (snd run) !! id = subscriptions db !! id)
  /\ (forall id s, id ∈ listed -> subscriptions db !! id = Some s ->
        exists s',
          subscriptions (snd run) !! id = Some s'
          /\ Subscription.status s' = active
          /\ Subscription.trialEnd s' = None
          /\ Subscription.planId s' = Subscription.planId s
          /\ Subscription.quantity s' = Subscription.quantity s
          /\ Subscription.currentPeriodStart s' = Subscription.currentPeriodStart s
          /\ Subscription.currentPeriodEnd s' = Subscription.currentPeriodEnd s
          /\ Subscription.metadata s' = Subscription.metadata s).
Proof.
  cbv zeta. unfold SubscriptionService.processExpiredTrials, bind, gets.
  destruct (expire_trials_spec now (findExpiredTrials db) (0, 0) db)
    as (db' & Hrun & Hp & Hi & Hl).
  rewrite Hrun. simpl. rewrite length_fmap.
  split; [reflexivity|]. split; [exact Hp|]. split; [exact Hi|]. split.
  - intros id Hn. rewrite Hl. now rewrite decide_False.
  - intros id s Hin Hs. rewrite Hl. rewrite decide_True by exact Hin.
    rewrite Hs. simpl. eexists. split; [reflexivity|].
    repeat split; reflexivity.
Qed.

(** ** Retrying a failed payment *)

(** X18: [retryFailedPayment] only retries a failed payment, and a
    call that throws leaves the store as it was.  A call that returns
    has created a new payment intent for the amount in cents and
    stored its id and its mapped status on the payment; it writes
    nothing else: the invoice of the payment is not credited, even
    when the new intent has succeeded. *)
Theorem retryFailedPayment_outcome
    (api : Stripe.Api) (customers : gmap string Customer.t) (now : Dayjs.Date)
    (id : string) (db : Db) (p : Payment.t)
    (Hrow : payments db !! id = Some p) :
  let run := PaymentService.retryFailedPayment api customers now id db in
  (Payment.status p <> failed ->
   run = (Throw (mkError InvalidState "Can only retry failed payments"), db))
  /\ (is_ok (fst run) = false -> snd run = db)
  /\ (forall r, fst run = Ok r ->
      exists pi st,
        Payment.status p = failed
        /\ Stripe.createPaymentIntent api
             (JS.Math_round (Payment.amount p * 100)) = Ok (pi, st)
        /\ r = Some (Payment.with_updatedAt now
                       (Payment.with_status
                          (PaymentService.mapStripePaymentStatus st)
                          (Payment.with_stripePaymentIntentId (Some pi) p)))
        /\ payments (snd run) = <[id := default p r]> (payments db)
        /\ invoices (snd run) = invoices db
        /\ refunds (snd run) = refunds db).
Proof.
  cbv zeta.
  remember (PaymentService.retryFailedPayment api customers now id db)
    as run eqn:Erun.
  unfold PaymentService.retryFailedPayment in Erun. unfold bind at 1 in Erun.
  unfold PaymentRepository.findById, gets in Erun. rewrite Hrow in Erun.
  unfold bind at 1, throw_if in Erun.
  destruct (bool_decide (Payment.status p = failed)) eqn:Hf;
    cbv beta iota delta [negb ret throw] in Erun.
  2: { subst run. split; [reflexivity|]. split; [reflexivity|].
       intros r Hr. discriminate. }
  apply bool_decide_eq_true in Hf.
  split; [intros Hn; contradiction|].
  unfold bind at 1, throw_if in Erun.
  destruct (from_option _ false (customers !! Payment.customerId p));
    cbv beta iota delta [negb ret throw] in Erun.
  2: { subst run. split; [reflexivity|]. intros r Hr. discriminate. }
  unfold bind at 1, lift in Erun.
  destruct (Stripe.createPaymentIntent api
              (JS.Math_round (Payment.amount p * 100))) as [[pi st]|e] eqn:G.
  2: { subst run. split; [reflexivity|]. intros r Hr. discriminate. }
  unfold PaymentRepository.update, update_row in Erun. rewrite Hrow in Erun.
  subst run. cbn [fst snd]. split; [discriminate|].
  intros r Hr. injection Hr as <-. exists pi, st.
  split; [exact Hf|]. split; [reflexivity|]. split; [reflexivity|].
  repeat split.
Qed.

Lemma retryFailedPayment_outcome_witness :
  payments Sample.db !! "pay_2" = Some Sample.pay_2
  /\ PaymentService.retryFailedPayment api_up ∅ Sample.t0 "pay_2" Sample.db
     = (Throw (mkError InvalidState "Can only retry failed payments"), Sample.db).
Proof.
  assert (Hrow : payments Sample.db !! "pay_2" = Some Sample.pay_2)
    by (vm_compute; reflexivity).
  split; [exact Hrow|].
  apply (proj1 (retryFailedPayment_outcome api_up ∅ Sample.t0 "pay_2" Sample.db
                  Sample.pay_2 Hrow)).
  discriminate.
Defined.

(** ** Creating a subscription *)

(** X19: [createSubscription] needs a known customer and an active
    plan, and a call that throws leaves the store as it was.  A call
    that returns has stored the new subscription under a fresh id, on
    the plan and in the currency of the plan, with the quantity
    [input.quantity || 1], which is neither 0 nor NaN, neither canceled
    nor ended.  Without a gateway subscription the period starts now
    and ends one plan interval later, as [calculatePeriodEnd] computes
    it; when trial days other than 0 were given the subscription is
    trialing, from now until that many days later, and when none or 0
    were given it is active with no trial.  With a gateway
    subscription the period is the one of the gateway, and the
    subscription is trialing when the gateway reports the start of a
    trial, in the status the gateway reports otherwise. *)
Theorem createSubscription_outcome
    (gateway : string -> string -> JS.number ->
               result SubscriptionService.StripeSubscription)
    (customers : gmap string Customer.t) (now : Dayjs.Date) (uuid : string)
    (input : SubscriptionService.CreateSubscriptionInput) (db : Db) :
  let run :=
    SubscriptionService.createSubscription gateway customers now uuid input db in
  (is_ok (fst run) = false -> snd run = db)
  /\ (forall s, fst run = Ok s ->
      exists c p,
        customers !! SubscriptionService.cs_customerId input = Some c
        /\ plans db !! SubscriptionService.cs_planId input = Some p
        /\ Plan.active p = true
        /\ snd run = set_subscriptions (insert uuid s) db
        /\ Subscription.id s = uuid
        /\ Subscription.planId s = SubscriptionService.cs_planId input
        /\ Subscription.currency s = Plan.currency p
        /\ Subscription.quantity s
           = JS.opt_or_else (SubscriptionService.cs_quantity input) 1
        /\ JS.truthy (Subscription.quantity s) = true
        /\ Subscription.canceledAt s = None
        /\ Subscription.endedAt s = None
        /\ (Subscription.stripeSubscriptionId s = None ->
            Subscription.currentPeriodStart s = now
            /\ Subscription.currentPeriodEnd s
               = SubscriptionService.calculatePeriodEnd now (Plan.interval p)
                   (Plan.intervalCount p)
            /\ (forall d,
                  SubscriptionService.cs_trialDays input = Some d -> d <> 0 ->
                  Subscription.status s = trialing
                  /\ Subscription.trialStart s = Some now
                  /\ Subscription.trialEnd s = Some (Dayjs.add now d Dayjs.day))
            /\ (SubscriptionService.cs_trialDays input = None
                \/ SubscriptionService.cs_trialDays input = Some 0 ->
                Subscription.status s = active
                /\ Subscription.trialStart s = None
                /\ Subscription.trialEnd s = None))
        /\ (forall sid, Subscription.stripeSubscriptionId s = Some sid ->
            exists cus price ss,
              Customer.stripeCustomerId c = Some cus
              /\ Plan.stripePriceId p = Some price
              /\ gateway cus price (Subscription.quantity s) = Ok ss
              /\ sid = SubscriptionService.ss_id ss
              /\ Subscription.currentPeriodStart s
                 = SubscriptionService.current_period_start ss * 1000
              /\ Subscription.currentPeriodEnd s
                 = SubscriptionService.current_period_end ss * 1000
              /\ (SubscriptionService.truthy_number
                    (SubscriptionService.trial_start ss) = true ->
                  Subscription.status s = trialing)
              /\ (SubscriptionService.truthy_number
                    (SubscriptionService.trial_start ss) = false ->
                  Subscription.status s = SubscriptionService.ss_status ss
                  /\ Subscription.trialStart s = None
                  /\ Subscription.trialEnd s = None))).
Proof.
  cbv zeta.
  remember (SubscriptionService.createSubscription gateway customers now uuid
              input db) as run eqn:Erun.
  unfold SubscriptionService.createSubscription in Erun.
  unfold bind at 1 in Erun. unfold PlanRepository.findById, gets in Erun.
  destruct (customers !! SubscriptionService.cs_customerId input) as [c|] eqn:Hc;
    [|subst run; split; [reflexivity | intros s Hs; discriminate]].
  destruct (plans db !! SubscriptionService.cs_planId input) as [p|] eqn:Hp;
    [|subst run; split; [reflexivity | intros s Hs; discriminate]].
  unfold bind at 1, throw_if in Erun.
  destruct (Plan.active p) eqn:Ha;
    cbv beta iota delta [negb ret throw] in Erun;
    [|subst run; split; [reflexivity | intros s Hs; discriminate]].
  set (quantity := JS.opt_or_else (SubscriptionService.cs_quantity input) 1) in *.
  assert (Hq : JS.truthy quantity = true).
  { unfold quantity.
    destruct (opt_or_else_cases (SubscriptionService.cs_quantity input) 1)
      as [(v & _ & Hv & ->) | ->]; [exact Hv | reflexivity]. }
  assert (Hlocal :
    forall r,
      r = (let unlinked :=
             if SubscriptionService.truthy_number
                  (SubscriptionService.cs_trialDays input)
             then (None, now,
                   SubscriptionService.calculatePeriodEnd now (Plan.interval p)
                     (Plan.intervalCount p), trialing, Some now,
                   Some (Dayjs.add now
                           (default 0 (SubscriptionService.cs_trialDays input))
                           Dayjs.day))
             else (None, now,
                   SubscriptionService.calculatePeriodEnd now (Plan.interval p)
                     (Plan.intervalCount p), active, None, None) in
           (let '(stripeSubscriptionId, currentPeriodStart, currentPeriodEnd,
                  status, trialStart, trialEnd) := unlinked in
            SubscriptionRepository.create
              (Subscription.mk uuid (SubscriptionService.cs_customerId input)
                 stripeSubscriptionId status
                 (SubscriptionService.cs_planId input) quantity (Plan.currency p)
                 currentPeriodStart currentPeriodEnd
                 (default false (SubscriptionService.cs_cancelAtPeriodEnd input))
                 None None trialStart trialEnd
                 (default ∅ (SubscriptionService.cs_metadata input)) now now))
             db) ->
      (is_ok (fst r) = false -> snd r = db)
      /\ (forall s, fst r = Ok s ->
          exists c0 p0,
            Some c = Some c0 /\ Some p = Some p0 /\ Plan.active p0 = true
            /\ snd r = set_subscriptions (insert uuid s) db
            /\ Subscription.id s = uuid
            /\ Subscription.planId s = SubscriptionService.cs_planId input
            /\ Subscription.currency s = Plan.currency p0
            /\ Subscription.quantity s = quantity
            /\ JS.truthy (Subscription.quantity s) = true
            /\ Subscription.canceledAt s = None
            /\ Subscription.endedAt s = None
            /\ (Subscription.stripeSubscriptionId s = None ->
                Subscription.currentPeriodStart s = now
                /\ Subscription.currentPeriodEnd s
                   = SubscriptionService.calculatePeriodEnd now (Plan.interval p0)
                       (Plan.intervalCount p0)
                /\ (forall d,
                      SubscriptionService.cs_trialDays input = Some d -> d <> 0 ->
                      Subscription.status s = trialing
                      /\ Subscription.trialStart s = Some now
                      /\ Subscription.trialEnd s
                         = Some (Dayjs.add now d Dayjs.day))
                /\ (SubscriptionService.cs_trialDays input = None
                    \/ SubscriptionService.cs_trialDays input = Some 0 ->
                    Subscription.status s = active
                    /\ Subscription.trialStart s = None
                    /\ Subscription.trialEnd s = None))
            /\ (forall sid, Subscription.stripeSubscriptionId s = Some sid ->
                exists cus price ss,
                  Customer.stripeCustomerId c0 = Some cus
                  /\ Plan.stripePriceId p0 = Some price
                  /\ gateway cus price (Subscription.quantity s) = Ok ss
                  /\ sid = SubscriptionService.ss_id ss
                  /\ Subscription.currentPeriodStart s
                     = SubscriptionService.current_period_start ss * 1000
                  /\ Subscription.currentPeriodEnd s
                     = SubscriptionService.current_period_end ss * 1000
                  /\ (SubscriptionService.truthy_number
                        (SubscriptionService.trial_start ss) = true ->
                      Subscription.status s = trialing)
                  /\ (SubscriptionService.truthy_number
                        (SubscriptionService.trial_start ss) = false ->
                      Subscription.status s = SubscriptionService.ss_status ss
                      /\ Subscription.trialStart s = None
                      /\ Subscription.trialEnd s = None)))).
  { intros r ->. cbv zeta.
    destruct (SubscriptionService.cs_trialDays input) as [d|] eqn:Hd;
      [destruct (Z.eqb_spec d 0) as [Hz|Hz]|];
      unfold SubscriptionService.truthy_number;
      rewrite ?(proj2 (Z.eqb_eq d 0)) by assumption;
      rewrite ?(proj2 (Z.eqb_neq d 0)) by assumption;
      cbn [negb fst snd SubscriptionRepository.create Subscription.id];
      (split; [discriminate|]);
      intros s Hs; injection Hs as <-; exists c, p;
      do 3 (split; [reflexivity || assumption|]);
      (split; [reflexivity|]); do 4 (split; [reflexivity|]);
      (split; [exact Hq|]); do 2 (split; [reflexivity|]);
      (split; [|intros sid Hsid; discriminate]); intros _;
      do 2 (split; [reflexivity|]).
    - split; [intros d0 E N; injection E as <-; contradiction|].
      intros _. simpl. repeat split.
    - split; [intros d0 E N; injection E as <-; simpl; repeat split|].
      intros [E | E]; [discriminate | injection E as ->; contradiction].
    - split; [intros d0 E; discriminate|]. intros _. simpl. repeat split. }
  destruct (Customer.stripeCustomerId c) as [cus|] eqn:Hcus;
    [destruct (Plan.stripePriceId p) as [price|] eqn:Hprice;
       [destruct (truthy_string cus && truthy_string price)|]|].
  - unfold bind at 1 in Erun. unfold bind at 1, lift in Erun.
    destruct (gateway cus price quantity) as [ss|e] eqn:G;
      cbv beta iota delta [ret] in Erun;
      [|subst run; split; [reflexivity | intros s Hs; discriminate]].
    destruct (SubscriptionService.truthy_number
                (SubscriptionService.trial_start ss)) eqn:Htrial;
      subst run;
      cbn [fst snd SubscriptionRepository.create Subscription.id];
      (split; [discriminate|]);
      intros s Hs; injection Hs as <-; exists c, p;
      do 3 (split; [reflexivity || assumption|]);
      (split; [reflexivity|]); do 4 (split; [reflexivity|]);
      (split; [exact Hq|]); do 2 (split; [reflexivity|]);
      (split; [intros Hn; discriminate|]);
      intros sid Hsid; injection Hsid as <-;
      exists cus, price, ss;
      do 6 (split; [assumption || reflexivity|]);
      (split; [intros Ht | intros Ht]);
      first [congruence | simpl; repeat split].
  - unfold bind at 1 in Erun. cbv beta iota delta [ret] in Erun.
    apply Hlocal. exact Erun.
  - unfold bind at 1 in Erun. cbv beta iota delta [ret] in Erun.
    apply Hlocal. exact Erun.
  - unfold bind at 1 in Erun. cbv beta iota delta [ret] in Erun.
    apply Hlocal. exact Erun.
Qed.

(** ** Subscription lifecycle, in general *)

Lemma when_linked_pure (s : Subscription.t) (call : string -> M Db unit) db :
  (forall sid, snd (call sid db) = db) ->
  snd (SubscriptionService.when_linked s call db) = db.
Proof.
  intros H. unfold SubscriptionService.when_linked.
  destruct (Subscription.stripeSubscriptionId s) as [sid|]; [|reflexivity].
  destruct (truthy_string sid); [apply H | reflexivity].
Qed.

Lemma lifecycle_scope_throw id db e : lifecycle_scope id db (Throw e, db).
Proof. left. split; reflexivity. Qed.

Lemma lifecycle_scope_update id db s (patch : Subscription.t -> Subscription.t) :
  subscriptions db !! id = Some s ->
  Subscription.id (patch s) = Subscription.id s ->
  Subscription.customerId (patch s) = Subscription.customerId s ->
  Subscription.createdAt (patch s) = Subscription.createdAt s ->
  (forall k, is_Some (Subscription.metadata s !! k) ->
             is_Some (Subscription.metadata (patch s) !! k)) ->
  lifecycle_scope id db (SubscriptionRepository.update id patch db).
Proof.
  intros Hs H1 H2 H3 H4. right. exists s, (patch s).
  unfold SubscriptionRepository.update, update_row. rewrite Hs. simpl.
  split; [reflexivity|]. split; [reflexivity|].
  split; [apply lookup_insert_eq|].
  split; [|auto].
  unfold only_subscription. simpl. repeat split; try reflexivity.
  intros id' Hne. apply lookup_insert_ne. congruence.
Qed.

(** A gateway call leaves the store alone. *)
Ltac gateway_call :=
  intros;
  unfold PlanRepository.findById, bind, lift, gets, throw_if, throw, ret;
  repeat case_match; simplify_eq/=; reflexivity.

(** The guard of the gateway call, then the write of the row. *)
Ltac guarded_write Hs :=
  unfold bind;
  match goal with
  | |- context [SubscriptionService.when_linked ?s ?call ?db] =>
      let W := fresh "W" in
      assert (W : snd (SubscriptionService.when_linked s call db) = db)
        by (apply when_linked_pure; gateway_call);
      destruct (SubscriptionService.when_linked s call db) as [[[]|?] ?];
      simpl in W; subst;
      [apply (lifecycle_scope_update _ _ _ _ Hs); try reflexivity
      |apply lifecycle_scope_throw]
  end.

Lemma is_Some_insert_keep (m : Metadata) (k0 k : string) (v : MetaValue) :
  is_Some (m !! k) -> is_Some (<[k0 := v]> m !! k).
Proof.
  unfold Metadata in *. intros H. destruct (decide (k0 = k)) as [->|Hne].
  - rewrite lookup_insert_eq. eauto.
  - rewrite lookup_insert_ne by exact Hne. exact H.
Qed.

Lemma is_Some_union_keep (m0 m : Metadata) (k : string) :
  is_Some (m !! k) -> is_Some ((m0 ∪ m) !! k).
Proof.
  unfold Metadata in *. intros H. apply lookup_union_is_Some. right. exact H.
Qed.

(** X20: every lifecycle operation of a subscription calls the gateway
    before it writes: a call that throws leaves the store as it was,
    and a call that returns has rewritten the addressed row only,
    which keeps its id, its customer, its creation time and every
    metadata key it had. *)
Theorem subscription_lifecycle_scope
    (client : Stripe.Client) (api : Stripe.Api) (now : Dayjs.Date)
    (id : string) (db : Db) :
  (forall input,
     lifecycle_scope id db
       (SubscriptionService.updateSubscription client now id input db))
  /\ lifecycle_scope id db (SubscriptionService.resumeSubscription client now id db)
  /\ (forall behavior resumesAt,
        lifecycle_scope id db
          (SubscriptionService.pauseSubscription client now id behavior resumesAt db))
  /\ lifecycle_scope id db (SubscriptionService.unpauseSubscription client now id db)
  /\ (forall newPlanId prorate,
        lifecycle_scope id db
          (SubscriptionService.changePlan client now id newPlanId prorate db))
  /\ (forall quantity prorate,
        lifecycle_scope id db
          (SubscriptionService.updateQuantity client now id quantity prorate db))
  /\ (forall immediate,
        lifecycle_scope id db
          (SubscriptionService.cancelSubscription api now id immediate db)).
Proof.
  destruct (subscriptions db !! id) as [s|] eqn:Hs.
  2: { repeat split; intros;
       unfold SubscriptionService.updateSubscription,
         SubscriptionService.resumeSubscription,
         SubscriptionService.pauseSubscription,
         SubscriptionService.unpauseSubscription,
         SubscriptionService.changePlan,
         SubscriptionService.updateQuantity,
         SubscriptionService.cancelSubscription,
         bind, SubscriptionRepository.findById, PlanRepository.findById, gets;
       rewrite Hs; try apply lifecycle_scope_throw;
       destruct (plans db !! _); apply lifecycle_scope_throw. }
  split; [|split; [|split; [|split; [|split; [|split]]]]].
  - intros input. unfold SubscriptionService.updateSubscription.
    unfold bind at 1, SubscriptionRepository.findById, gets. rewrite Hs.
    guarded_write Hs.
    simpl. intros k Hk. apply is_Some_union_keep. exact Hk.
  - unfold SubscriptionService.resumeSubscription.
    unfold bind at 1, SubscriptionRepository.findById, gets. rewrite Hs.
    unfold bind at 1, throw_if.
    destruct (bool_decide (Subscription.status s = canceled));
      [apply lifecycle_scope_throw|].
    unfold ret at 1. guarded_write Hs.
    simpl. auto.
  - intros behavior resumesAt. unfold SubscriptionService.pauseSubscription.
    unfold bind at 1, SubscriptionRepository.findById, gets. rewrite Hs.
    guarded_write Hs.
    simpl. intros k Hk. do 3 apply is_Some_insert_keep. exact Hk.
  - unfold SubscriptionService.unpauseSubscription.
    unfold bind at 1, SubscriptionRepository.findById, gets. rewrite Hs.
    guarded_write Hs.
    simpl. intros k Hk. apply is_Some_insert_keep. exact Hk.
  - intros newPlanId prorate. unfold SubscriptionService.changePlan.
    unfold bind at 1, SubscriptionRepository.findById, gets. rewrite Hs.
    unfold bind at 1, PlanRepository.findById, gets.
    destruct (plans db !! newPlanId) as [p|]; [|apply lifecycle_scope_throw].
    unfold bind at 1, throw_if.
    destruct (negb (Plan.active p)); [apply lifecycle_scope_throw|].
    unfold ret at 1. guarded_write Hs.
    simpl. intros k Hk. do 2 apply is_Some_insert_keep. exact Hk.
  - intros quantity prorate. unfold SubscriptionService.updateQuantity.
    unfold bind at 1, SubscriptionRepository.findById, gets. rewrite Hs.
    unfold bind at 1, throw_if.
    destruct (JS.lt quantity 1); [apply lifecycle_scope_throw|].
    unfold ret at 1. guarded_write Hs.
    simpl. intros k Hk. do 2 apply is_Some_insert_keep. exact Hk.
  - intros immediate. unfold SubscriptionService.cancelSubscription.
    unfold bind at 1, SubscriptionRepository.findById, gets. rewrite Hs.
    guarded_write Hs; destruct immediate; simpl; auto.
Qed.

Lemma when_linked_bind {B} (s : Subscription.t) (call : string -> M Db unit)
    (k : unit -> M Db B) (db : Db) :
  (forall sid, snd (call sid db) = db) ->
  (exists e, bind (SubscriptionService.when_linked s call) k db = (Throw e, db))
  \/ bind (SubscriptionService.when_linked s call) k db = k tt db.
Proof.
  intros Hc. pose proof (when_linked_pure s call db Hc) as W. unfold bind.
  destruct (SubscriptionService.when_linked s call db) as [[[]|e] db1];
    simpl in W; subst db1; [right; reflexivity | left; eauto].
Qed.

(** The two outcomes of the part of an operation that starts at the
    gateway call. *)
Ltac linked_cases H E :=
  match type of H with
  | context [bind (SubscriptionService.when_linked ?s ?call) ?k ?db] =>
      destruct (when_linked_bind s call k db) as [[? E]|E];
      [gateway_call | rewrite E in H | rewrite E in H; cbv beta in H]
  end.

Lemma subscription_update_row id patch db s :
  subscriptions db !! id = Some s ->
  SubscriptionRepository.update id patch db
  = (Ok (Some (patch s)), set_subscriptions (insert id (patch s)) db).
Proof.
  intros Hs. unfold SubscriptionRepository.update, update_row. rewrite Hs.
  reflexivity.
Qed.

(** X21: a cancellation that returns stamps [canceledAt].  An
    immediate one ends the subscription, and on the store it leaves,
    as on any store in which the subscription is canceled,
    [resumeSubscription] throws and leaves the store as it was.  A
    cancellation at the end of the period keeps the status and only
    raises the flag, and a [resumeSubscription] on the store it leaves
    that returns gives back the row as it was before the cancellation,
    with the flag and [canceledAt] cleared.  ([unpauseSubscription]
    has no guard on the status: it makes a canceled subscription
    active again, after which [resumeSubscription] returns.) *)
Theorem cancel_then_resume
    (api : Stripe.Api) (client : Stripe.Client) (now now' : Dayjs.Date)
    (id : string) (immediate : bool) (db : Db) (s : Subscription.t)
    (Hs : subscriptions db !! id = Some s) :
  let run := SubscriptionService.cancelSubscription api now id immediate db in
  let again := SubscriptionService.resumeSubscription client now' id (snd run) in
  forall r, fst run = Ok r ->
  exists s1,
    r = Some s1
    /\ subscriptions (snd run) !! id = Some s1
    /\ Subscription.canceledAt s1 = Some now
    /\ if immediate then
         Subscription.status s1 = canceled
         /\ Subscription.endedAt s1 = Some now
         /\ Subscription.cancelAtPeriodEnd s1 = Subscription.cancelAtPeriodEnd s
         /\ again
            = (Throw (mkError InvalidState "Cannot resume a canceled subscription"),
               snd run)
         /\ (forall client2 now2 db2 s2,
               subscriptions db2 !! id = Some s2 ->
               Subscription.status s2 = canceled ->
               SubscriptionService.resumeSubscription client2 now2 id db2
               = (Throw (mkError InvalidState
                           "Cannot resume a canceled subscription"), db2))
       else
         Subscription.status s1 = Subscription.status s
         /\ Subscription.cancelAtPeriodEnd s1 = true
         /\ Subscription.endedAt s1 = Subscription.endedAt s
         /\ forall r2, fst again = Ok r2 ->
              r2 = Some (Subscription.with_updatedAt now'
                           (Subscription.with_cancel false None s))
              /\ subscriptions (snd again) !! id = r2.
Proof.
  cbv zeta.
  remember (SubscriptionService.cancelSubscription api now id immediate db)
    as run eqn:Erun.
  unfold SubscriptionService.cancelSubscription in Erun.
  unfold bind at 1 in Erun. unfold SubscriptionRepository.findById, gets in Erun.
  rewrite Hs in Erun.
  linked_cases Erun E; [subst run; intros r Hr; discriminate|].
  rewrite (subscription_update_row _ _ _ _ Hs) in Erun. subst run. simpl.
  intros r Hr. injection Hr as <-. eexists. split; [reflexivity|].
  split; [apply lookup_insert_eq|].
  destruct immediate; simpl.
  - split; [reflexivity|]. split; [reflexivity|]. split; [reflexivity|].
    split; [reflexivity|].
    split; [eapply resumeSubscription_canceled;
            [simpl; apply lookup_insert_eq | reflexivity]|].
    intros client2 now2 db2 s2 H2 Hc.
    apply (resumeSubscription_canceled _ _ _ _ s2 H2 Hc).
  - split; [reflexivity|]. split; [reflexivity|]. split; [reflexivity|].
    split; [reflexivity|].
    match goal with
    | |- context [SubscriptionService.resumeSubscription client now' id ?d] =>
        remember (SubscriptionService.resumeSubscription client now' id d)
          as again eqn:Eagain;
        assert (Hs1 : exists s1, subscriptions d !! id = Some s1
                  /\ Subscription.with_updatedAt now'
                       (Subscription.with_cancel false None s1)
                     = Subscription.with_updatedAt now'
                         (Subscription.with_cancel false None s)
                  /\ Subscription.status s1 = Subscription.status s)
          by (eexists; split; [simpl; apply lookup_insert_eq|];
              split; reflexivity)
    end.
    destruct Hs1 as (s1 & Hs1 & Hrow & Hst).
    unfold SubscriptionService.resumeSubscription in Eagain.
    unfold bind at 1 in Eagain.
    unfold SubscriptionRepository.findById, gets in Eagain.
    rewrite Hs1 in Eagain. unfold bind at 1, throw_if in Eagain.
    destruct (bool_decide (Subscription.status s1 = canceled));
      cbv beta iota delta [ret throw] in Eagain;
      [subst again; intros r2 Hr2; discriminate|].
    linked_cases Eagain E2; [subst again; intros r2 Hr2; discriminate|].
    rewrite (subscription_update_row _ _ _ _ Hs1) in Eagain. subst again.
    simpl. intros r2 Hr2. injection Hr2 as <-. rewrite Hrow.
    split; [reflexivity | apply lookup_insert_eq].
Qed.

Lemma cancel_then_resume_witness :
  exists s1,
    fst (SubscriptionService.cancelSubscription api_up Sample.t0 "sub_1" true
           Sample.db) = Ok (Some s1)
    /\ Subscription.status s1 = canceled
    /\ is_ok (fst (SubscriptionService.resumeSubscription gateway_up Sample.t0
                     "sub_1"
                     (snd (SubscriptionService.cancelSubscription api_up Sample.t0
                             "sub_1" true Sample.db)))) = false.
Proof.
  assert (Hs : subscriptions Sample.db !! "sub_1" = Some Sample.sub_1)
    by (vm_compute; reflexivity).
  assert (Hr : fst (SubscriptionService.cancelSubscription api_up Sample.t0
                      "sub_1" true Sample.db)
               = Ok (subscriptions
                       (snd (SubscriptionService.cancelSubscription api_up
                               Sample.t0 "sub_1" true Sample.db)) !! "sub_1"))
    by (vm_compute; reflexivity).
  destruct (cancel_then_resume api_up gateway_up Sample.t0 Sample.t0 "sub_1" true
              Sample.db Sample.sub_1 Hs _ Hr)
    as (s1 & E1 & _ & _ & E4 & _ & _ & E7 & _).
  exists s1. split; [rewrite Hr, E1; reflexivity|]. split; [exact E4|].
  rewrite E7. reflexivity.
Defined.

(** X22: [updateQuantity] refuses a quantity below 1 before it calls
    the gateway; a call that returns was given a quantity that is not
    below 1 (at least 1, when it is a number), has stored the new
    quantity and recorded the previous one and the time of the change
    in the metadata, and left the status, the plan and the period
    alone. *)
Theorem updateQuantity_outcome
    (client : Stripe.Client) (now : Dayjs.Date) (id : string) (quantity : JS.number)
    (prorate : bool) (db : Db) (s : Subscription.t)
    (Hs : subscriptions db !! id = Some s) :
  let run := SubscriptionService.updateQuantity client now id quantity prorate db in
  (JS.lt quantity 1 = true ->
   run = (Throw (mkError InvalidInput "Quantity must be at least 1"), db))
  /\ (forall r, fst run = Ok r ->
      JS.lt quantity 1 = false
      /\ (JS.isNaN quantity = false -> JS.le 1 quantity = true)
      /\ exists s',
           r = Some s'
           /\ subscriptions (snd run) !! id = Some s'
           /\ Subscription.quantity s' = quantity
           /\ Subscription.metadata s' !! "previousQuantity"
              = Some (MNum (Subscription.quantity s))
           /\ Subscription.metadata s' !! "quantityChangedAt"
              = Some (MStr (SubscriptionService.toISOString now))
           /\ Subscription.status s' = Subscription.status s
           /\ Subscription.planId s' = Subscription.planId s
           /\ Subscription.currentPeriodEnd s' = Subscription.currentPeriodEnd s).
Proof.
  cbv zeta.
  remember (SubscriptionService.updateQuantity client now id quantity prorate db)
    as run eqn:Erun.
  unfold SubscriptionService.updateQuantity in Erun.
  unfold bind at 1 in Erun. unfold SubscriptionRepository.findById, gets in Erun.
  rewrite Hs in Erun. unfold bind at 1, throw_if in Erun.
  destruct (JS.lt quantity 1) eqn:Hq;
    cbv beta iota delta [negb ret throw] in Erun.
  2: { linked_cases Erun E; subst run.
    + split; [intros Hlt; discriminate|]. intros r Hr. discriminate.
    + rewrite (subscription_update_row _ _ _ _ Hs).
      cbn [fst snd subscriptions set_subscriptions Subscription.metadata
           Subscription.with_updatedAt Subscription.with_metadata].
      split; [intros Hlt; discriminate|]. intros r Hr. injection Hr as <-.
      split; [reflexivity|].
      split; [intros Hn; apply not_gt_le; [reflexivity | exact Hn | exact Hq]|].
      eexists. split; [reflexivity|].
      split; [apply lookup_insert_eq|]. split; [reflexivity|].
      cbn [Subscription.metadata Subscription.with_updatedAt
           Subscription.with_metadata].
      unfold Metadata.
      split; [rewrite lookup_insert_ne by discriminate; apply lookup_insert_eq|].
      split; [apply lookup_insert_eq|].
      repeat split. }
  subst run.
  split; [reflexivity|]. intros r Hr. discriminate.
Qed.

Lemma updateQuantity_outcome_witness :
  subscriptions Sample.db !! "sub_1" = Some Sample.sub_1
  /\ SubscriptionService.updateQuantity gateway_up Sample.t0 "sub_1" 0.5 true
       Sample.db
     = (Throw (mkError InvalidInput "Quantity must be at least 1"), Sample.db).
Proof.
  assert (Hs : subscriptions Sample.db !! "sub_1" = Some Sample.sub_1)
    by (vm_compute; reflexivity).
  split; [exact Hs|].
  apply (proj1 (updateQuantity_outcome gateway_up Sample.t0 "sub_1" 0.5 true
                  Sample.db Sample.sub_1 Hs)).
  reflexivity.
Defined.

(** X23: [changePlan] needs the new plan to exist and to be active,
    and checks it before it calls the gateway; a call that returns
    has stored the new plan and its currency and recorded the previous
    plan in the metadata, and left the quantity and the current period
    as they were. *)
Theorem changePlan_outcome
    (client : Stripe.Client) (now : Dayjs.Date) (id newPlanId : string)
    (prorate : bool) (db : Db) (s : Subscription.t)
    (Hs : subscriptions db !! id = Some s) :
  let run := SubscriptionService.changePlan client now id newPlanId prorate db in
  (plans db !! newPlanId = None ->
   run = (Throw (mkError NotFound "Plan not found"), db))
  /\ (forall p, plans db !! newPlanId = Some p -> Plan.active p = false ->
      run = (Throw (mkError InvalidState "Cannot change to an inactive plan"), db))
  /\ (forall r, fst run = Ok r ->
      exists p s',
        plans db !! newPlanId = Some p
        /\ Plan.active p = true
        /\ r = Some s'
        /\ subscriptions (snd run) !! id = Some s'
        /\ Subscription.planId s' = newPlanId
        /\ Subscription.currency s' = Plan.currency p
        /\ Subscription.metadata s' !! "previousPlanId"
           = Some (MStr (Subscription.planId s))
        /\ Subscription.quantity s' = Subscription.quantity s
        /\ Subscription.currentPeriodStart s' = Subscription.currentPeriodStart s
        /\ Subscription.currentPeriodEnd s' = Subscription.currentPeriodEnd s).
Proof.
  cbv zeta.
  remember (SubscriptionService.changePlan client now id newPlanId prorate db)
    as run eqn:Erun.
  unfold SubscriptionService.changePlan in Erun.
  unfold bind at 1 in Erun. unfold SubscriptionRepository.findById, gets in Erun.
  rewrite Hs in Erun.
  unfold bind at 1 in Erun. unfold PlanRepository.findById, gets in Erun.
  destruct (plans db !! newPlanId) as [p|] eqn:Hp.
  2: { subst run. split; [reflexivity|]. split; [intros; discriminate|].
       intros r Hr. discriminate. }
  unfold bind at 1, throw_if in Erun.
  destruct (Plan.active p) eqn:Ha;
    cbv beta iota delta [negb ret throw] in Erun.
  2: { subst run. split; [intros; discriminate|].
       split; [intros p0 Hp0 _; reflexivity|].
       intros r Hr. discriminate. }
  linked_cases Erun E; subst run.
  - split; [intros; discriminate|].
    split; [intros p0 Hp0 Hf; injection Hp0 as <-; congruence|].
    intros r Hr. discriminate.
  - rewrite (subscription_update_row _ _ _ _ Hs).
    cbn [fst snd subscriptions set_subscriptions Subscription.metadata
         Subscription.with_updatedAt Subscription.with_metadata].
    split; [intros; discriminate|].
    split; [intros p0 Hp0 Hf; injection Hp0 as <-; congruence|].
    intros r Hr. injection Hr as <-.
    exists p. eexists. split; [reflexivity|]. split; [exact Ha|].
    split; [reflexivity|]. split; [apply lookup_insert_eq|].
    split; [reflexivity|]. split; [reflexivity|].
    cbn [Subscription.metadata Subscription.with_updatedAt
         Subscription.with_metadata].
    unfold Metadata.
    split; [rewrite lookup_insert_ne by discriminate; apply lookup_insert_eq|].
    repeat split.
Qed.

Lemma changePlan_outcome_witness :
  subscriptions Sample.db !! "sub_1" = Some Sample.sub_1
  /\ SubscriptionService.changePlan gateway_up Sample.t0 "sub_1" "plan_gone" true
       Sample.db
     = (Throw (mkError NotFound "Plan not found"), Sample.db).
Proof.
  assert (Hs : subscriptions Sample.db !! "sub_1" = Some Sample.sub_1)
    by (vm_compute; reflexivity).
  split; [exact Hs|].
  apply (proj1 (changePlan_outcome gateway_up Sample.t0 "sub_1" "plan_gone" true
                  Sample.db Sample.sub_1 Hs)).
  vm_compute. reflexivity.
Defined.

(** ** End-of-period billing, in general *)

(** X24: [processEndOfPeriodBilling] skips a subscription that is not
    active: it returns null and leaves the store as it was.  For an
    active one it stores an open invoice for the customer, linked to
    the subscription, due in thirty days, with no line, whose total
    and amount due are the quantity of the subscription, whatever the
    plan, with nothing paid (so that it is balanced when the quantity
    is a number); the payments and the other invoices are left
    alone. *)
Theorem processEndOfPeriodBilling_outcome
    (now : Dayjs.Date) (uuid id : string) (db : Db) (s : Subscription.t)
    (Hs : subscriptions db !! id = Some s) :
  let run := BillingService.processEndOfPeriodBilling now uuid id db in
  (Subscription.status s <> active -> run = (Ok None, db))
  /\ (Subscription.status s = active ->
      exists inv,
        fst run = Ok (Some inv)
        /\ invoices (snd run) !! uuid = Some inv
        /\ Invoice.status inv = open
        /\ Invoice.customerId inv = Subscription.customerId s
        /\ Invoice.subscriptionId inv = Some (Subscription.id s)
        /\ Invoice.total inv = Subscription.quantity s
        /\ Invoice.amountDue inv = Subscription.quantity s
        /\ Invoice.amountPaid inv = 0%float
        /\ Invoice.lineItems inv = []
        /\ Invoice.dueDate inv = Dayjs.add now 30 Dayjs.day
        /\ (JS.isNaN (Subscription.quantity s) = false -> balanced inv)
        /\ payments (snd run) = payments db
        /\ forall id', id' <> uuid ->
             invoices (snd run) !! id' = invoices db !! id').
Proof.
  cbv zeta.
  unfold BillingService.processEndOfPeriodBilling, bind,
    SubscriptionRepository.findById, gets.
  rewrite Hs.
  destruct (bool_decide (Subscription.status s = active)) eqn:Ha; simpl negb;
    cbv iota.
  - apply bool_decide_eq_true in Ha. split; [intros Hn; contradiction|].
    intros _.
    unfold BillingService.createInvoiceFromSubscription,
      InvoiceRepository.create, BillingService.advanceSubscriptionPeriod, bind,
      SubscriptionRepository.update, update_row, ret.
    simpl.
    destruct (subscriptions db !! Subscription.id s); simpl;
      (eexists; split; [reflexivity|]); (split; [apply lookup_insert_eq|]);
      simpl; do 8 (split; [reflexivity|]);
      (split; [intros Hn; unfold balanced; simpl; apply zero_add_eq; exact Hn|]);
      (split; [reflexivity|]);
      intros id' Hne; apply lookup_insert_ne; congruence.
  - apply bool_decide_eq_false in Ha. split; [reflexivity|].
    intros Hn. contradiction.
Qed.

Lemma processEndOfPeriodBilling_outcome_witness :
  subscriptions Sample.db !! "sub_2" = Some Sample.sub_2
  /\ BillingService.processEndOfPeriodBilling Sample.t0 "inv_new" "sub_2" Sample.db
     = (Ok None, Sample.db).
Proof.
  assert (Hs : subscriptions Sample.db !! "sub_2" = Some Sample.sub_2)
    by (vm_compute; reflexivity).
  split; [exact Hs|].
  apply (proj1 (processEndOfPeriodBilling_outcome Sample.t0 "inv_new" "sub_2"
                  Sample.db Sample.sub_2 Hs)).
  discriminate.
Defined.

(** ** Revenue breakdown *)

Lemma filter_filter_andb {A} (f g : A -> bool) (l : list A) :
  List.filter (fun x => f x && g x) l = List.filter g (List.filter f l).
Proof.
  induction l as [|a l IH]; simpl; [reflexivity|].
  destruct (f a); simpl; [destruct (g a); simpl; congruence | exact IH].
Qed.

(** A list splits between a filter and its complement. *)
Lemma filter_split_length {A} (f : A -> bool) (l : list A) :
  (length (List.filter f l) + length (List.filter (fun x => negb (f x)) l)
   = length l)%nat.
Proof.
  induction l as [|a l IH]; simpl; [reflexivity|].
  destruct (f a); simpl; lia.
Qed.

(** X25: [getRevenueBreakdown] never throws and leaves the store as
    it was.  The subscription revenue is the sum, taken from 0 in the
    order of the query, of the amounts of the payments of the period
    in the currency that have an invoice, whatever their status; the
    one-time charges are the same sum over those that have none, so
    that every payment of the period in the currency is counted in
    exactly one of the two; the usage revenue is 0; the refunds are
    the sum of the refunds of the period in the currency, reported
    negated; and the total is
    [subscriptions + oneTimeCharges + usage - refunds] as the doubles
    add up, from left to right. *)
Theorem getRevenueBreakdown_partition
    (findByDateRange : BillingService.DateRange -> Db -> list Payment.t)
    (findRefundsByDateRange : BillingService.DateRange -> Db -> list Refund.t)
    (dateRange : BillingService.DateRange) (currency : Currency) (db : Db) :
  let in_currency (p : Payment.t) := bool_decide (Payment.currency p = currency) in
  let invoiced (p : Payment.t) := BillingService.truthy_id (Payment.invoiceId p) in
  let payments_ := findByDateRange dateRange db in
  let refunded :=
    sum_over (fun r => bool_decide (Refund.currency r = currency)) Refund.amount
      (findRefundsByDateRange dateRange db) 0 in
  exists b,
    BillingService.getRevenueBreakdown findByDateRange findRefundsByDateRange
      dateRange currency db = (Ok b, db)
    /\ BillingService.rb_subscriptions b
       = sum_over (fun p => in_currency p && invoiced p) Payment.amount
           payments_ 0
    /\ BillingService.rb_oneTimeCharges b
       = sum_over (fun p => in_currency p && negb (invoiced p)) Payment.amount
           payments_ 0
    /\ (length (List.filter (fun p => in_currency p && invoiced p) payments_)
        + length (List.filter (fun p => in_currency p && negb (invoiced p))
                    payments_)
        = length (List.filter in_currency payments_))%nat
    /\ BillingService.rb_usage b = 0%float
    /\ BillingService.rb_refunds b = (- refunded)%float
    /\ BillingService.rb_total b
       = (BillingService.rb_subscriptions b + BillingService.rb_oneTimeCharges b
          + BillingService.rb_usage b - refunded)%float.
Proof.
  cbv zeta.
  unfold BillingService.getRevenueBreakdown, bind,
    BillingService.calculateSubscriptionRevenue,
    BillingService.calculateOneTimeRevenue,
    BillingService.calculateUsageRevenue,
    BillingService.calculateRefundAmount, gets, ret.
  eexists. split; [reflexivity|].
  cbn [BillingService.rb_subscriptions BillingService.rb_oneTimeCharges
       BillingService.rb_usage BillingService.rb_refunds BillingService.rb_total].
  split; [reflexivity|]. split; [reflexivity|].
  split; [|repeat split].
  rewrite !filter_filter_andb. apply filter_split_length.
Qed.

(** ** Credits *)

(** X26: the credit ledger is empty, so [applyCredits] never writes an
    invoice whose amount due is a number: for a known customer and
    invoice it returns the invoice as it is stored, otherwise it
    throws, and in both cases the store is left as it was. *)
Theorem applyCredits_never_writes
    (customers : gmap string Customer.t) (customerId invoiceId : string)
    (db : Db)
    (Hdue : forall inv, invoices db !! invoiceId = Some inv ->
              JS.isNaN (Invoice.amountDue inv) = false) :
  let run := BillingService.applyCredits customers customerId invoiceId db in
  snd run = db
  /\ (forall r, fst run = Ok r ->
      is_Some (customers !! customerId)
      /\ is_Some r /\ r = invoices db !! invoiceId)
  /\ (is_ok (fst run) = false ->
      customers !! customerId = None \/ invoices db !! invoiceId = None).
Proof.
  cbv zeta.
  unfold BillingService.applyCredits, bind, InvoiceRepository.findById, gets.
  destruct (customers !! customerId) as [c|];
    [destruct (invoices db !! invoiceId) as [inv|] eqn:Hi|].
  - unfold BillingService.getCustomerCredits, ret.
    rewrite (Math_min_zero_nonpos (Invoice.amountDue inv) (Hdue inv eq_refl)).
    simpl.
    split; [reflexivity|]. split; [|discriminate].
    intros r Hr. injection Hr as <-. repeat split; eauto.
  - simpl. split; [reflexivity|]. split; [discriminate|]. intros _. right.
    reflexivity.
  - simpl. destruct (invoices db !! invoiceId);
      (split; [reflexivity|]); (split; [discriminate|]); intros _; left;
      reflexivity.
Qed.

Lemma applyCredits_never_writes_witness :
  let customers : gmap string Customer.t :=
    <["cus_1" := Customer.mk "cus_1" None]> ∅ in
  let run := BillingService.applyCredits customers "cus_1" "inv_1" Sample.db in
  snd run = Sample.db /\ fst run = Ok (Some Sample.inv_1).
Proof.
  cbv zeta.
  assert (Hdue : forall inv, invoices Sample.db !! "inv_1" = Some inv ->
                   JS.isNaN (Invoice.amountDue inv) = false).
  { intros inv H. vm_compute in H. injection H as <-. reflexivity. }
  destruct (applyCredits_never_writes (<["cus_1" := Customer.mk "cus_1" None]> ∅)
              "cus_1" "inv_1" Sample.db Hdue) as (Hdb & _ & _).
  split; [exact Hdb|]. vm_compute. reflexivity.
Defined.

(** ** A sync over a gateway that answers *)

Section HealthySync.
Import RampSyncService.

Lemma process_items_count options items : forall acc w,
  process_items options acc items w
  = (Ok (fst acc + Z.of_nat (length (List.filter (kept options) items)), snd acc),
     w).
Proof.
  induction items as [|t items IH]; intros [n errs] w.
  - simpl. unfold ret. rewrite Z.add_0_r. reflexivity.
  - cbn [process_items]. unfold bind.
    assert (Hitem : process_item options (n, errs) t w
                    = (Ok (if kept options t then n + 1 else n, errs), w)).
    { unfold process_item, kept, skipped. cbn [fst snd].
      destruct options as [o|]; [|reflexivity].
      destruct (bool_decide (includeCleared o = Some false)
                && String.eqb (state t) "cleared"); [reflexivity|].
      destruct (bool_decide (includePending o = Some false)
                && String.eqb (state t) "pending"); reflexivity. }
    rewrite Hitem, IH. cbn [fst snd List.filter].
    destruct (kept options t); cbn [length]; [|reflexivity].
    rewrite Nat2Z.inj_succ. do 2 f_equal. f_equal. lia.
Qed.

Lemma healthy_run_tail w p ps :
  healthy_run w (p :: ps) ->
  healthy_run (mkWorld (script w) (1 + calls w) (delays w)) ps.
Proof.
  intros H i q Hq. destruct (H (S i) q Hq) as [H1 H2]. cbn [script calls].
  split.
  - rewrite <- H1. f_equal. lia.
  - rewrite H2. cbn [length]. apply bool_decide_ext. lia.
Qed.

Lemma sync_loop_healthy businessId options batchSize : forall ps pages cursor acc w,
  ps <> [] ->
  healthy_run w ps ->
  (length ps <= pages)%nat ->
  sync_loop pages businessId options batchSize cursor acc w
  = (Ok (Some (fst acc + synced_count options ps, snd acc)),
     mkWorld (script w) (length ps + calls w) (delays w)).
Proof.
  induction ps as [|p ps IH]; intros pages cursor acc w Hne Hh Hlen;
    [contradiction|].
  destruct pages as [|pages]; [simpl in Hlen; lia|].
  destruct (Hh 0%nat p eq_refl) as [Hcall Hnext]. simpl in Hcall.
  cbn [sync_loop]. unfold bind at 1.
  rewrite (fetch_first_try _ _ _ _ Hcall).
  unfold bind at 1. rewrite process_items_count. cbn [fst snd].
  destruct ps as [|p' ps].
  - cbn [length] in Hnext.
    rewrite bool_decide_eq_false_2 in Hnext by lia.
    cbn [synced_count fold_right length]. rewrite Z.add_0_r.
    destruct (next p) as [c|]; [simpl in Hnext; rewrite Hnext|]; reflexivity.
  - cbn [length] in Hnext.
    rewrite bool_decide_eq_true_2 in Hnext by lia.
    destruct (next p) as [c|]; [simpl in Hnext; rewrite Hnext | discriminate].
    rewrite (IH pages (Some c) _ _); [| discriminate
                                      | apply (healthy_run_tail w p); exact Hh
                                      | simpl in Hlen |- *; lia].
    cbn [fst snd script calls delays].
    f_equal; [do 2 f_equal; f_equal;
              change (synced_count options (p :: p' :: ps))
                with (Z.of_nat (length (List.filter (kept options) (transactions p)))
                      + synced_count options (p' :: ps)); lia|].
    f_equal. cbn [length]. lia.
Qed.

End HealthySync.

(** X27: when the gateway returns page after page, [syncTransactions]
    calls it once per page and never waits, follows the cursors to the
    last page, counts every transaction that the options keep, and
    returns no error: no transaction of a fetched page is lost or
    counted twice. *)
Theorem sync_counts_every_page
    (pages : nat) (businessId : string)
    (options : option RampSyncService.TransactionSyncOptions)
    (w : RampSyncService.World) (ps : list RampSyncService.Page)
    (Hne : ps <> []) (Hrun : healthy_run w ps) (Hlen : (length ps <= pages)%nat) :
  RampSyncService.syncTransactions pages businessId options w
  = (Ok (Some (synced_count options ps, [])),
     RampSyncService.mkWorld (RampSyncService.script w)
       (length ps + RampSyncService.calls w) (RampSyncService.delays w)).
Proof.
  unfold RampSyncService.syncTransactions.
  rewrite (sync_loop_healthy _ _ _ ps) by assumption. reflexivity.
Qed.

Lemma sync_counts_every_page_witness :
  RampSyncService.syncTransactions 5 "biz_1"
    (Some (RampSyncService.mkOptions None None None (Some false) None))
    (RampSyncService.mkWorld two_pages_script 0 [])
  = (Ok (Some (2, [])), RampSyncService.mkWorld two_pages_script 2 []).
Proof.
  apply (sync_counts_every_page 5 "biz_1"
           (Some (RampSyncService.mkOptions None None None (Some false) None))
           (RampSyncService.mkWorld two_pages_script 0 []) two_pages).
  - discriminate.
  - intros i p Hp.
    destruct i as [|[|i]]; simpl in Hp; [| |discriminate];
      injection Hp as <-; split; reflexivity.
  - simpl. lia.
Defined.

(** ** Transaction integrity *)

(** The amount check fires exactly on NaN. *)
Lemma amount_check_is_nan (x : JS.number) :
  negb (JS.truthy x) && negb (JS.strict_eq x 0) = JS.isNaN x.
Proof.
  unfold JS.truthy.
  destruct (JS.strict_eq x 0) eqn:E; destruct (JS.isNaN x) eqn:N; simpl;
    try reflexivity.
  apply isNaN_spec in N. unfold JS.strict_eq in E.
  rewrite FloatAxioms.eqb_spec, N in E. discriminate E.
Qed.

Lemma check_transaction_cases (t : RampSyncService.RampTransaction) :
  (RampSyncService.check_transaction t = []
   /\ RampSyncService.id t <> ""
   /\ JS.isNaN (RampSyncService.amount t) = false
   /\ RampSyncService.merchant_name t <> "")
  \/ ((exists d ds, RampSyncService.check_transaction t = d :: ds
                    /\ (length ds <= 1)%nat
                    /\ (JS.isNaN (RampSyncService.amount t) = false -> ds = []))
      /\ (RampSyncService.id t = ""
          \/ JS.isNaN (RampSyncService.amount t) = true
          \/ RampSyncService.merchant_name t = "")).
Proof.
  unfold RampSyncService.check_transaction, truthy_string.
  rewrite amount_check_is_nan.
  destruct (String.eqb_spec (RampSyncService.id t) "") as [E1|E1]; simpl.
  - right. split; [|left; exact E1].
    eexists _, _. split; [reflexivity|]. split; [simpl; lia | reflexivity].
  - destruct (JS.isNaN (RampSyncService.amount t)) eqn:En;
      destruct (String.eqb_spec (RampSyncService.merchant_name t) "") as [E2|E2];
      simpl.
    + right. split; [|right; left; reflexivity].
      eexists _, _. split; [reflexivity|]. split; [simpl; lia | discriminate].
    + right. split; [|right; left; reflexivity].
      eexists _, _. split; [reflexivity|]. split; [simpl; lia | reflexivity].
    + right. split; [|right; right; exact E2].
      eexists _, _. split; [reflexivity|]. split; [simpl; lia | reflexivity].
    + left. repeat split; assumption.
Qed.

Lemma check_all_cases (ts : list RampSyncService.RampTransaction) :
  (length (concat (RampSyncService.check_transaction <$> ts)) <= 2 * length ts)%nat
  /\ ((forall t, In t ts -> JS.isNaN (RampSyncService.amount t) = false) ->
      (length (concat (RampSyncService.check_transaction <$> ts)) <= length ts)%nat)
  /\ (concat (RampSyncService.check_transaction <$> ts) = []
      <-> forall t, In t ts ->
            RampSyncService.id t <> ""
            /\ JS.isNaN (RampSyncService.amount t) = false
            /\ RampSyncService.merchant_name t <> "").
Proof.
  induction ts as [|t ts (IH2 & IH1 & IHiff)].
  - simpl. split; [lia|]. split; [lia|]. split; [intros _ t []|reflexivity].
  - rewrite fmap_cons. cbn [concat]. rewrite length_app.
    destruct (check_transaction_cases t)
      as [(E & H1 & H2 & H3) | ((d & ds & E & Hds & Hnan) & H)]; rewrite E.
    + simpl. split; [lia|]. split.
      * intros Hall. specialize (IH1 (fun t' Hin => Hall t' (or_intror Hin))). lia.
      * rewrite IHiff. split.
        -- intros Hall t' [<-|Hin]; [repeat split; assumption | apply Hall; exact Hin].
        -- intros Hall t' Hin. apply Hall. right. exact Hin.
    + simpl. split; [lia|]. split.
      * intros Hall. specialize (IH1 (fun t' Hin => Hall t' (or_intror Hin))).
        rewrite (Hnan (Hall t (or_introl eq_refl))). simpl. lia.
      * split; [discriminate|].
        intros Hall. destruct (Hall t (or_introl eq_refl)) as (H1 & H2 & H3).
        destruct H as [H | [H | H]]; [contradiction | congruence | contradiction].
Qed.

(** X28: [validateTransactionIntegrity] reads one page with one
    gateway call and no retry, so a failing call is a throw.  On a
    page it reports at most two discrepancies per transaction, and at
    most one when the amounts are numbers; the page is valid exactly
    when no discrepancy is reported, which is exactly when every
    transaction has an id, an amount that is a number and a merchant
    name. *)
Theorem validateTransactionIntegrity_outcome
    (businessId : string) (w : RampSyncService.World) :
  let run := RampSyncService.validateTransactionIntegrity businessId w in
  snd run
  = RampSyncService.mkWorld (RampSyncService.script w)
      (S (RampSyncService.calls w)) (RampSyncService.delays w)
  /\ match RampSyncService.script w (RampSyncService.calls w) with
     | Throw e => fst run = Throw e
     | Ok page =>
         exists valid discrepancies,
           fst run = Ok (valid, discrepancies)
           /\ (length discrepancies
               <= 2 * length (RampSyncService.transactions page))%nat
           /\ ((forall t, In t (RampSyncService.transactions page) ->
                  JS.isNaN (RampSyncService.amount t) = false) ->
               (length discrepancies
                <= length (RampSyncService.transactions page))%nat)
           /\ (valid = true <-> discrepancies = [])
           /\ (valid = true <->
               forall t, In t (RampSyncService.transactions page) ->
                 RampSyncService.id t <> ""
                 /\ JS.isNaN (RampSyncService.amount t) = false
                 /\ RampSyncService.merchant_name t <> "")
     end.
Proof.
  cbv zeta. unfold RampSyncService.validateTransactionIntegrity, bind,
    RampSyncService.listTransactions, ret.
  destruct (RampSyncService.script w (RampSyncService.calls w)) as [page|e];
    cbn [fst snd]; [|split; reflexivity].
  split; [reflexivity|].
  destruct (check_all_cases (RampSyncService.transactions page))
    as (Hlen2 & Hlen & Hiff).
  eexists _, _. split; [reflexivity|]. split; [exact Hlen2|].
  split; [exact Hlen|].
  assert (Hvalid : bool_decide
            (length (concat (RampSyncService.check_transaction
                               <$> RampSyncService.transactions page)) = 0%nat)
          = true
          <-> concat (RampSyncService.check_transaction
                        <$> RampSyncService.transactions page) = []).
  { rewrite bool_decide_eq_true. apply length_zero_iff_nil. }
  split; [exact Hvalid|]. rewrite Hvalid. exact Hiff.
Qed.

(** ** The webhook endpoint *)

Lemma updateInvoicePayment_returns now id amt db :
  fst (PaymentService.updateInvoicePayment now id amt db) = Ok tt.
Proof.
  unfold PaymentService.updateInvoicePayment, bind, InvoiceRepository.findById,
    gets, InvoiceRepository.update, update_row.
  destruct (invoices db !! id) as [inv|] eqn:E; [|reflexivity].
  cbv zeta. rewrite E. reflexivity.
Qed.

Lemma processWebhookPaymentUpdate_returns now pi status db :
  fst (PaymentService.processWebhookPaymentUpdate now pi status db) = Ok tt.
Proof.
  unfold PaymentService.processWebhookPaymentUpdate, bind,
    PaymentRepository.findByStripePaymentIntentId, gets.
  destruct (snd <$> List.find _ _) as [p|]; [|reflexivity].
  destruct (PaymentRepository.update (Payment.id p) _ db) as [[r|e] db1] eqn:U.
  - destruct (Payment.invoiceId p) as [inv|]; [|reflexivity].
    destruct (bool_decide _ && truthy_string inv); [|reflexivity].
    apply updateInvoicePayment_returns.
  - unfold PaymentRepository.update, update_row in U.
    destruct (payments db !! Payment.id p); discriminate.
Qed.

(** X29: [handleStripeWebhook] always replies.  An event whose
    signature the gateway rejects gets 401 and nothing is written.
    Every verified event gets 200, also an event for a payment intent
    that no payment carries and an event of a type that is not
    handled: the store is the one that [processWebhookPaymentUpdate]
    leaves for [payment_intent.succeeded] (as [succeeded]) and
    [payment_intent.payment_failed] (as [failed]), and is left as it
    was for every other type. *)
Theorem handleStripeWebhook_outcome
    (api : Stripe.Api) (now : Dayjs.Date) (payload signature : string) (db : Db) :
  let run := WebhookController.handleStripeWebhook api now payload signature db in
  match Stripe.constructWebhookEvent api payload signature with
  | Throw _ => run = (Ok (WebhookController.mkReply 401 false), db)
  | Ok event =>
      fst run = Ok (WebhookController.mkReply 200 true)
      /\ (Stripe.event_type event = "payment_intent.succeeded" ->
          snd run
          = snd (PaymentService.processWebhookPaymentUpdate now
                   (Stripe.object_id event) "succeeded" db))
      /\ (Stripe.event_type event = "payment_intent.payment_failed" ->
          snd run
          = snd (PaymentService.processWebhookPaymentUpdate now
                   (Stripe.object_id event) "failed" db))
      /\ (Stripe.event_type event <> "payment_intent.succeeded" ->
          Stripe.event_type event <> "payment_intent.payment_failed" ->
          snd run = db)
  end.
Proof.
  cbv zeta. unfold WebhookController.handleStripeWebhook, try_catch.
  destruct (Stripe.constructWebhookEvent api payload signature) as [event|e];
    [|reflexivity].
  unfold bind, WebhookController.dispatch,
    WebhookController.handlePaymentIntentSucceeded,
    WebhookController.handlePaymentIntentFailed.
  destruct (String.eqb_spec (Stripe.event_type event) "payment_intent.succeeded")
    as [E1|E1].
  - pose proof (processWebhookPaymentUpdate_returns now (Stripe.object_id event)
                  "succeeded" db) as Hr.
    destruct (PaymentService.processWebhookPaymentUpdate now
                (Stripe.object_id event) "succeeded" db) as [r db1].
    simpl in Hr. subst r. cbn [fst snd ret].
    split; [reflexivity|]. split; [reflexivity|].
    split; [rewrite E1; discriminate | intros H; contradiction].
  - destruct (String.eqb_spec (Stripe.event_type event)
                "payment_intent.payment_failed") as [E2|E2].
    + pose proof (processWebhookPaymentUpdate_returns now (Stripe.object_id event)
                    "failed" db) as Hr.
      destruct (PaymentService.processWebhookPaymentUpdate now
                  (Stripe.object_id event) "failed" db) as [r db1].
      simpl in Hr. subst r. cbn [fst snd ret].
      split; [reflexivity|]. split; [intros H; contradiction|].
      split; [reflexivity | intros _ H; contradiction].
    + cbn [fst snd ret].
      split; [reflexivity|]. split; [intros H; contradiction|].
      split; [intros H; contradiction | reflexivity].
Qed.

(** ** The access token *)

(** X30: [getAccessToken] serves the cached token, without asking the
    token endpoint, as long as more than a minute of its life is
    left; otherwise it asks the endpoint, and caches the answer with
    its expiry, or fails and leaves the cache as it was.  A token
    that a call returned is served again by every later call made
    more than a minute before the cached expiry, whatever the
    endpoint would answer. *)
Theorem getAccessToken_cache
    (now : Z) (endpoint : result (string * Z)) (st : RampClient.TokenState) :
  let run := RampClient.getAccessToken now endpoint st in
  (forall token,
     RampClient.accessToken st = Some token -> token <> "" ->
     now < RampClient.tokenExpiresAt st - 60000 ->
     run = (Ok token, st))
  /\ (forall token expires_in,
        endpoint = Ok (token, expires_in) ->
        (RampClient.accessToken st = None
         \/ RampClient.accessToken st = Some ""
         \/ RampClient.tokenExpiresAt st - 60000 <= now) ->
        run = (Ok token,
               RampClient.mkTokenState (Some token) (now + expires_in * 1000)))
  /\ (is_ok (fst run) = false -> snd run = st /\ is_ok endpoint = false)
  /\ (forall token now' endpoint',
        fst run = Ok token -> token <> "" ->
        now' < RampClient.tokenExpiresAt (snd run) - 60000 ->
        RampClient.getAccessToken now' endpoint' (snd run) = (Ok token, snd run)).
Proof.
  cbv zeta.
  assert (Hhit : forall now0 endpoint0 st0 token,
            RampClient.accessToken st0 = Some token -> token <> "" ->
            now0 < RampClient.tokenExpiresAt st0 - 60000 ->
            RampClient.getAccessToken now0 endpoint0 st0 = (Ok token, st0)).
  { intros now0 endpoint0 st0 token Ht Hne Hlt.
    unfold RampClient.getAccessToken. rewrite Ht.
    unfold truthy_string. rewrite (proj2 (String.eqb_neq token "") Hne).
    rewrite (proj2 (Z.ltb_lt _ _) Hlt). reflexivity. }
  split; [intros token; apply Hhit|].
  split.
  { intros token expires_in -> Hmiss. unfold RampClient.getAccessToken.
    destruct Hmiss as [-> | [-> | Hexp]]; [reflexivity | reflexivity |].
    destruct (RampClient.accessToken st) as [t|]; [|reflexivity].
    rewrite (proj2 (Z.ltb_ge _ _) Hexp), andb_false_r. reflexivity. }
  split.
  { unfold RampClient.getAccessToken.
    destruct (RampClient.accessToken st) as [t|];
      [destruct (truthy_string t && (now <? RampClient.tokenExpiresAt st - 60000));
         [discriminate|]|];
      (destruct endpoint as [[token expires_in]|e];
         [discriminate | intros _; split; reflexivity]). }
  intros token now' endpoint' Hrun Hne Hlt.
  apply Hhit; [|exact Hne|exact Hlt].
  revert Hrun. unfold RampClient.getAccessToken.
  destruct (RampClient.accessToken st) as [t|] eqn:Ht;
    [destruct (truthy_string t && (now <? RampClient.tokenExpiresAt st - 60000));
       [cbn [fst snd]; congruence|]|];
    (destruct endpoint as [[token0 expires_in]|e]; cbn [fst snd];
       [intros H; injection H as <-; reflexivity | discriminate]).
Qed.

(** * The balance of an invoice *)

Lemma same_amounts_refl (i : Invoice.t) : same_amounts i i.
Proof. repeat split. Qed.

Lemma invoice_step_refl R db : invoice_step R db db.
Proof.
  intros id i' H. exists i'. split; [exact H | left; apply same_amounts_refl].
Qed.

Lemma invoice_step_same R db db' :
  invoices db' = invoices db -> invoice_step R db db'.
Proof.
  intros E id i' H. rewrite E in H. exists i'.
  split; [exact H | left; apply same_amounts_refl].
Qed.

Lemma invoice_added_refl db : invoice_added db db.
Proof.
  intros id i' H. right. exists i'. split; [exact H | apply same_amounts_refl].
Qed.

(** One row rewritten. *)
Lemma invoice_step_update R k patch db :
  (forall i, invoices db !! k = Some i ->
     same_amounts i (patch i) \/ R i (patch i)) ->
  invoice_step R db (snd (InvoiceRepository.update k patch db)).
Proof.
  intros H id i' Hi'. rewrite invoice_update_lookup in Hi'.
  destruct (decide (id = k)) as [-> | N].
  - destruct (invoices db !! k) as [i|] eqn:E; [|discriminate].
    injection Hi' as <-. exists i. split; [reflexivity | apply H; reflexivity].
  - exists i'. split; [exact Hi' | left; apply same_amounts_refl].
Qed.

Lemma amounts_kept_trans db db1 db2 :
  amounts_kept db db1 -> amounts_kept db1 db2 -> amounts_kept db db2.
Proof.
  intros H1 H2 id i2 Hi2.
  destruct (H2 id i2 Hi2) as (i1 & Hi1 & [(A & B & C) | []]).
  destruct (H1 id i1 Hi1) as (i & Hi & [(A' & B' & C') | []]).
  exists i. split; [exact Hi|]. left. repeat split; congruence.
Qed.

(** [updateInvoicePayment] books the payment on the invoice, if there
    is one, and touches no other invoice. *)
Lemma updateInvoicePayment_step now id amt db :
  invoice_step (payment_booked amt) db
    (snd (PaymentService.updateInvoicePayment now id amt db)).
Proof.
  unfold PaymentService.updateInvoicePayment, bind, InvoiceRepository.findById,
    gets.
  destruct (invoices db !! id) as [inv|] eqn:E; [|apply invoice_step_refl].
  match goal with
  | |- context [InvoiceRepository.update id ?patch db] =>
      pose proof (invoice_step_update (payment_booked amt) id patch db) as H;
      destruct (InvoiceRepository.update id patch db) as [[r|e] d]
  end; simpl in H |- *; apply H; intros i Hi; rewrite E in Hi;
    injection Hi as <-; right; repeat split.
Qed.

Ltac booked_by_payment :=
  match goal with
  | |- context [PaymentService.updateInvoicePayment ?n ?i ?a ?d] =>
      let Hstep := fresh "Hstep" in
      let Hf := fresh "Hf" in
      pose proof (updateInvoicePayment_step n i a d) as Hstep;
      destruct (updateInvoicePayment_frame n i a d) as (Hf & _);
      destruct (PaymentService.updateInvoicePayment n i a d) as [u d'];
      simpl in Hf, Hstep; subst u; simpl; exists a; exact Hstep
  end.

(** The payment operations write invoices through
    [updateInvoicePayment] only. *)
Lemma processWebhookPaymentUpdate_step now pi status db :
  exists amt,
    invoice_step (payment_booked amt) db
      (snd (PaymentService.processWebhookPaymentUpdate now pi status db)).
Proof.
  unfold PaymentService.processWebhookPaymentUpdate, bind,
    PaymentRepository.findByStripePaymentIntentId, gets.
  destruct (List.find _ _) as [[k p]|]; simpl;
    [|exists 0%float; apply invoice_step_same; reflexivity].
  unfold PaymentRepository.update, update_row.
  destruct (payments db !! Payment.id p); simpl;
    (destruct (Payment.invoiceId p) as [inv|];
     [destruct (bool_decide _ && truthy_string inv)|]);
    try (exists 0%float; apply invoice_step_same; reflexivity);
    booked_by_payment.
Qed.

Lemma confirmPayment_step api now id db :
  exists amt,
    invoice_step (payment_booked amt) db
      (snd (PaymentService.confirmPayment api now id db)).
Proof.
  destruct (PaymentService.confirmPayment api now id db) as [[r|e] db'] eqn:Hrun.
  - destruct (confirmPayment_returns _ _ _ _ _ _ Hrun)
      as (p & pi & st & Hp & _ & _ & _ & _ & Hdb). cbv zeta in Hdb.
    simpl. rewrite Hdb.
    destruct (Payment.invoiceId p) as [inv|];
      [destruct (bool_decide _ && truthy_string inv)|];
      try (exists 0%float; apply invoice_step_same; reflexivity).
    exists (Payment.amount p).
    apply (updateInvoicePayment_step now inv (Payment.amount p)
             (set_payments _ db)).
  - pose proof (confirmPayment_throws_frame api now id db) as H.
    rewrite Hrun in H. simpl in *. rewrite H by reflexivity.
    exists 0%float. apply invoice_step_refl.
Qed.

Lemma capturePayment_step api now id amount db :
  exists amt,
    invoice_step (payment_booked amt) db
      (snd (PaymentService.capturePayment api now id amount db)).
Proof.
  unfold PaymentService.capturePayment, bind, PaymentRepository.findById, gets.
  destruct (payments db !! id) as [p|] eqn:Hp;
    [|exists 0%float; apply invoice_step_same; reflexivity].
  destruct (Payment.stripePaymentIntentId p) as [pi|];
    [|exists 0%float; apply invoice_step_same; reflexivity].
  destruct (truthy_string pi); [|exists 0%float; apply invoice_step_same; reflexivity].
  unfold lift. destruct (Stripe.capturePaymentIntent api pi _) as [[]|e];
    [|exists 0%float; apply invoice_step_same; reflexivity].
  rewrite (update_row_payments _ _ _ _ Hp).
  destruct (Payment.invoiceId p) as [inv|]; [destruct (truthy_string inv)|];
    try (exists 0%float; apply invoice_step_same; reflexivity).
  booked_by_payment.
Qed.

Lemma createPayment_step api customers now uuid input db :
  exists amt,
    invoice_step (payment_booked amt) db
      (snd (PaymentService.createPayment api customers now uuid input db)).
Proof.
  unfold PaymentService.createPayment.
  destruct (customers !! PaymentService.cp_customerId input) as [c|];
    [|exists 0%float; apply invoice_step_same; reflexivity].
  assert (Hcore : forall (pi : option string) (st : PaymentStatus),
    exists amt,
      invoice_step (payment_booked amt) db
        (snd (bind (PaymentRepository.create
                      (Payment.mk uuid (PaymentService.cp_customerId input)
                         (PaymentService.cp_invoiceId input) pi
                         (PaymentService.cp_amount input)
                         (PaymentService.cp_currency input) st 0 now now))
                (fun created =>
                   bind match PaymentService.cp_invoiceId input with
                        | Some invoiceId =>
                            if truthy_string invoiceId
                               && bool_decide (st = succeeded)
                            then PaymentService.updateInvoicePayment now invoiceId
                                   (PaymentService.cp_amount input)
                            else ret tt
                        | None => ret tt
                        end
                     (fun _ => ret created)) db))).
  { intros pi st. unfold bind at 1, PaymentRepository.create. simpl.
    unfold bind.
    destruct (PaymentService.cp_invoiceId input) as [inv|];
      [destruct (truthy_string inv && bool_decide (st = succeeded))|];
      try (exists 0%float; apply invoice_step_same; reflexivity).
    booked_by_payment. }
  destruct (Customer.stripeCustomerId c) as [cus|];
    [destruct (truthy_string cus)|].
  - unfold bind at 1, lift.
    destruct (Stripe.createPaymentIntent api _) as [[pid pst]|e]; simpl;
      [apply Hcore | exists 0%float; apply invoice_step_same; reflexivity].
  - unfold bind at 1. simpl. apply Hcore.
  - unfold bind at 1. simpl. apply Hcore.
Qed.

(** [payInvoice] settles the invoice. *)
Lemma payInvoice_step api now id db :
  invoice_step settled db (snd (InvoiceService.payInvoice api now id db)).
Proof.
  unfold InvoiceService.payInvoice, bind, InvoiceRepository.findById, gets.
  destruct (invoices db !! id) as [i|] eqn:Hi; [|apply invoice_step_refl].
  unfold throw_if.
  destruct (bool_decide (Invoice.status i = paid)); simpl;
    [apply invoice_step_refl|].
  destruct (when_linked_invoice_cases i (Stripe.payInvoice api) db)
    as [E | [e E]]; rewrite E; [|apply invoice_step_refl].
  apply invoice_step_update. intros i0 H0. right. repeat split.
  simpl. congruence.
Qed.

(** The line item operations. *)
Lemma addLineItem_step now uuid id input db :
  invoice_step relined db (snd (InvoiceService.addLineItem now uuid id input db)).
Proof.
  unfold InvoiceService.addLineItem, bind, InvoiceRepository.findById, gets.
  destruct (invoices db !! id) as [i|] eqn:Hi; [|apply invoice_step_refl].
  unfold throw_if.
  destruct (negb (bool_decide (Invoice.status i = draft))); simpl;
    [apply invoice_step_refl|].
  apply invoice_step_update. intros i0 H0. right.
  assert (i0 = i) as -> by congruence. repeat split.
Qed.

Lemma removeLineItem_step now id item db :
  invoice_step relined db (snd (InvoiceService.removeLineItem now id item db)).
Proof.
  unfold InvoiceService.removeLineItem, bind, InvoiceRepository.findById, gets.
  destruct (invoices db !! id) as [i|] eqn:Hi; [|apply invoice_step_refl].
  unfold throw_if.
  destruct (negb (bool_decide (Invoice.status i = draft))); simpl;
    [apply invoice_step_refl|].
  apply invoice_step_update. intros i0 H0. right.
  assert (i0 = i) as -> by congruence. repeat split.
Qed.

(** The operations that write no amount. *)
Lemma updateInvoice_kept now id due db :
  amounts_kept db (snd (InvoiceService.updateInvoice now id due db)).
Proof.
  unfold InvoiceService.updateInvoice, bind, InvoiceRepository.findById, gets.
  destruct (invoices db !! id) as [i|] eqn:Hi; [|apply invoice_step_refl].
  unfold throw_if.
  destruct (negb (bool_decide (Invoice.status i = draft))); simpl;
    [apply invoice_step_refl|].
  apply invoice_step_update. intros i0 _. left. repeat split.
Qed.

Lemma finalizeInvoice_kept api now id db :
  amounts_kept db (snd (InvoiceService.finalizeInvoice api now id db)).
Proof.
  unfold InvoiceService.finalizeInvoice, bind, InvoiceRepository.findById, gets.
  destruct (invoices db !! id) as [i|] eqn:Hi; [|apply invoice_step_refl].
  unfold throw_if.
  destruct (negb (bool_decide (Invoice.status i = draft))); simpl;
    [apply invoice_step_refl|].
  destruct (when_linked_invoice_cases i (Stripe.finalizeInvoice api) db)
    as [E | [e E]]; rewrite E; [|apply invoice_step_refl].
  apply invoice_step_update. intros i0 _. left. repeat split.
Qed.

Lemma voidInvoice_kept api now id db :
  amounts_kept db (snd (InvoiceService.voidInvoice api now id db)).
Proof.
  unfold InvoiceService.voidInvoice, bind, InvoiceRepository.findById, gets.
  destruct (invoices db !! id) as [i|] eqn:Hi; [|apply invoice_step_refl].
  unfold throw_if.
  destruct (bool_decide (Invoice.status i = paid)); simpl;
    [apply invoice_step_refl|].
  destruct (when_linked_invoice_cases i (Stripe.voidInvoice api) db)
    as [E | [e E]]; rewrite E; [|apply invoice_step_refl].
  apply invoice_step_update. intros i0 _. left. repeat split.
Qed.

Lemma markUncollectible_kept now id db :
  amounts_kept db (snd (InvoiceService.markUncollectible now id db)).
Proof.
  unfold InvoiceService.markUncollectible, bind, InvoiceRepository.findById, gets.
  destruct (invoices db !! id) as [i|] eqn:Hi; [|apply invoice_step_refl].
  apply invoice_step_update. intros i0 _. left. repeat split.
Qed.

Lemma sendInvoice_kept api now id db :
  amounts_kept db (snd (InvoiceService.sendInvoice api now id db)).
Proof.
  unfold InvoiceService.sendInvoice. unfold bind at 1.
  unfold InvoiceRepository.findById at 1, gets.
  destruct (invoices db !! id) as [i|] eqn:Hi; [|apply invoice_step_refl].
  unfold bind at 1.
  destruct (bool_decide (Invoice.status i = draft)).
  - unfold bind at 1.
    pose proof (finalizeInvoice_kept api now id db) as Hfin.
    destruct (InvoiceService.finalizeInvoice api now id db) as [[r|e] d1];
      simpl in Hfin; [|exact Hfin].
    unfold ret at 1. unfold bind.
    destruct (when_linked_invoice_cases i (Stripe.sendInvoice api) d1)
      as [E | [e E]]; rewrite E; exact Hfin.
  - unfold ret at 1. unfold bind.
    destruct (when_linked_invoice_cases i (Stripe.sendInvoice api) db)
      as [E | [e E]]; rewrite E; apply invoice_step_refl.
Qed.

Lemma processOverdueInvoices_kept find now db :
  amounts_kept db (snd (InvoiceService.processOverdueInvoices find now db)).
Proof.
  unfold InvoiceService.processOverdueInvoices, bind, gets.
  destruct (mark_all_past_due_spec now (find db) (0, 0) db)
    as (db' & Hrun & _ & _ & Hl).
  rewrite Hrun. simpl. intros id i' Hi'. rewrite Hl in Hi'.
  destruct (decide (id ∈ Invoice.id <$> find db)).
  - destruct (invoices db !! id) as [i|]; [|discriminate].
    injection Hi' as <-. exists i. split; [reflexivity|]. left. repeat split.
  - exists i'. split; [exact Hi' | left; apply same_amounts_refl].
Qed.

(** The operations that create an invoice. *)
Lemma createInvoice_added api customers countByMonth now uuid input db :
  invoice_added db
    (snd (InvoiceService.createInvoice api customers countByMonth now uuid input
            db)).
Proof.
  destruct (createInvoice_spec api customers countByMonth now uuid input db)
    as (_ & Hthrow & Hret).
  destruct (InvoiceService.createInvoice api customers countByMonth now uuid input
              db) as [[r|e] db'].
  - simpl in *.
    destruct (Hret r eq_refl)
      as (G1 & _ & _ & G4 & G5 & _ & _ & _ & _ & _ & _ & _ & G13).
    intros id i' Hi'. destruct (decide (id = Invoice.id r)) as [-> | N].
    + rewrite G1 in Hi'. injection Hi' as <-. left. split; assumption.
    + rewrite (G13 id N) in Hi'. right. exists i'.
      split; [exact Hi' | apply same_amounts_refl].
  - simpl in *. rewrite Hthrow by reflexivity. apply invoice_added_refl.
Qed.

Lemma duplicateInvoice_added api customers countByMonth now uuid id db :
  invoice_added db
    (snd (InvoiceService.duplicateInvoice api customers countByMonth now uuid id
            db)).
Proof.
  unfold InvoiceService.duplicateInvoice, bind, InvoiceRepository.findById, gets.
  destruct (invoices db !! id); [|apply invoice_added_refl].
  apply createInvoice_added.
Qed.

Lemma processEndOfPeriodBilling_added now uuid id db :
  invoice_added db (snd (BillingService.processEndOfPeriodBilling now uuid id db)).
Proof.
  unfold BillingService.processEndOfPeriodBilling, bind,
    SubscriptionRepository.findById, gets.
  destruct (subscriptions db !! id) as [s|]; [|apply invoice_added_refl].
  destruct (negb (bool_decide (Subscription.status s = active)));
    [apply invoice_added_refl|].
  unfold BillingService.createInvoiceFromSubscription,
    InvoiceRepository.create, BillingService.advanceSubscriptionPeriod, bind,
    SubscriptionRepository.update, update_row, ret.
  simpl.
  destruct (subscriptions db !! Subscription.id s); simpl;
    intros k i' Hi'; simpl in Hi';
    (destruct (decide (k = uuid)) as [-> | N];
      [rewrite lookup_insert_eq in Hi'; injection Hi' as <-; left; split;
       reflexivity
      |rewrite lookup_insert_ne in Hi' by congruence; right; exists i';
       split; [exact Hi' | apply same_amounts_refl]]).
Qed.

(** [retryFailedPayment] of the billing service settles the invoice. *)
Lemma retryFailedPayment_step pay customers now uuid id method db :
  invoice_step settled db
    (snd (BillingService.retryFailedPayment pay customers now uuid id method db)).
Proof.
  unfold BillingService.retryFailedPayment, bind, InvoiceRepository.findById,
    gets.
  destruct (invoices db !! id) as [i|] eqn:Hi; [|apply invoice_step_refl].
  unfold throw_if.
  destruct (bool_decide (Invoice.status i = paid)); simpl;
    [apply invoice_step_refl|].
  destruct (negb _); simpl; [apply invoice_step_refl|].
  assert (Hcore : forall pi,
    invoice_step settled db
      (snd (bind (PaymentRepository.create
                    (Payment.mk uuid (Invoice.customerId i) (Some (Invoice.id i))
                       pi (Invoice.amountDue i) (Invoice.currency i) succeeded 0
                       now now))
              (fun payment =>
                 bind (InvoiceRepository.update id
                         (fun i0 => Invoice.with_payment (Invoice.total i) 0 paid
                                      (Some now) (Invoice.updatedAt i0) i0))
                   (fun _ => ret payment)) db))).
  { intros pi. unfold bind at 1, PaymentRepository.create. simpl. unfold bind.
    match goal with
    | |- context [InvoiceRepository.update id ?patch ?d] =>
        pose proof (invoice_step_update settled id patch d) as H;
        destruct (InvoiceRepository.update id patch d) as [[r|e] d']
    end; simpl in H |- *; refine (H _); intros i0 Hi0; right;
      (assert (i0 = i) as -> by (simpl in Hi0; congruence)); repeat split. }
  destruct (Invoice.stripeInvoiceId i) as [sid|];
    [destruct (truthy_string sid)|]; try apply Hcore.
  unfold lift. destruct (pay sid method) as [pi|e];
    [apply Hcore | apply invoice_step_refl].
Qed.

(** The sync with the gateway copies the amounts of the gateway. *)
Lemma syncStripeInvoice_synced now uuid n customerId g db :
  is_ok (fst (BillingService.syncStripeInvoice now uuid n customerId g db)) = true
  /\ forall id i',
       invoices (snd (BillingService.syncStripeInvoice now uuid n customerId g db))
       !! id = Some i' ->
       mirrors g i' \/ invoices db !! id = Some i'.
Proof.
  unfold BillingService.syncStripeInvoice, bind,
    InvoiceRepository.findByStripeId, gets.
  destruct (snd <$> List.find _ _) as [existing|].
  - pose proof (invoice_update_lookup (Invoice.id existing)
                  (fun i =>
                     Invoice.mk (Invoice.id i) customerId (Invoice.subscriptionId i)
                       (Some (BillingService.si_id g)) (Invoice.number i)
                       (BillingService.si_status g) (Invoice.currency i)
                       (BillingService.si_subtotal g / 100)%float
                       (JS.opt_or_else (BillingService.si_tax g) 0)
                       (BillingService.si_total g / 100)%float
                       (BillingService.si_amount_paid g / 100)%float
                       (BillingService.si_amount_due g / 100)%float
                       (Invoice.lineItems i) (Invoice.dueDate i) (Invoice.paidAt i)
                       (Invoice.createdAt i) now) db) as Hl.
    cbv zeta.
    destruct (InvoiceRepository.update (Invoice.id existing) _ db) as [[r|e] d']
      eqn:U.
    + simpl in *. split; [reflexivity|]. intros id i' Hi'. rewrite Hl in Hi'.
      destruct (decide (id = Invoice.id existing)); [|right; exact Hi'].
      destruct (invoices db !! Invoice.id existing); [|discriminate].
      injection Hi' as <-. left. repeat split.
    + unfold InvoiceRepository.update, update_row in U.
      destruct (invoices db !! Invoice.id existing); discriminate.
  - cbv zeta. unfold InvoiceRepository.create. simpl. split; [reflexivity|].
    intros id i' Hi'. destruct (decide (id = uuid n)) as [-> | N].
    + rewrite lookup_insert_eq in Hi'. injection Hi' as <-. left. repeat split.
    + rewrite lookup_insert_ne in Hi' by congruence. right. exact Hi'.
Qed.

Lemma sync_invoices_synced now uuid customerId gs : forall n db,
  invoices_synced gs db
    (snd (BillingService.sync_invoices now uuid n customerId gs db)).
Proof.
  induction gs as [|g gs IH]; intros n db id i' Hi'; [right; exact Hi'|].
  cbn [BillingService.sync_invoices] in Hi'. unfold bind in Hi'.
  destruct (syncStripeInvoice_synced now uuid n customerId g db) as [Hok Hstep].
  destruct (BillingService.syncStripeInvoice now uuid n customerId g db)
    as [[n'|e] d1]; [|discriminate].
  simpl in Hstep.
  destruct (IH n' d1 id i' Hi') as [(g' & Hin & Hm) | H1].
  - left. exists g'. split; [right; exact Hin | exact Hm].
  - destruct (Hstep id i' H1) as [Hm | H0]; [|right; exact H0].
    left. exists g. split; [left; reflexivity | exact Hm].
Qed.

Lemma sync_subscriptions_invoices now uuid customerId ss : forall n db,
  is_ok (fst (BillingService.sync_subscriptions now uuid n customerId ss db))
  = true
  /\ invoices (snd (BillingService.sync_subscriptions now uuid n customerId ss db))
     = invoices db.
Proof.
  induction ss as [|s ss IH]; intros n db; [split; reflexivity|].
  cbn [BillingService.sync_subscriptions]. unfold bind.
  assert (Hstep :
    is_ok (fst (BillingService.syncStripeSubscription now uuid n customerId s db))
    = true
    /\ invoices (snd (BillingService.syncStripeSubscription now uuid n customerId
                        s db)) = invoices db).
  { unfold BillingService.syncStripeSubscription, bind,
      SubscriptionRepository.findByStripeId, gets.
    destruct (snd <$> List.find _ _) as [existing|]; cbv zeta.
    - unfold SubscriptionRepository.update, update_row.
      destruct (subscriptions db !! Subscription.id existing); split; reflexivity.
    - split; reflexivity. }
  destruct Hstep as [Hok Hinv].
  destruct (BillingService.syncStripeSubscription now uuid n customerId s db)
    as [[n'|e] d1]; [|discriminate].
  simpl in Hinv. destruct (IH n' d1) as [IHok IHinv].
  split; [exact IHok | exact (eq_trans IHinv Hinv)].
Qed.

Lemma syncBillingWithStripe_synced listSubs listInvs customers now uuid
    customerId db :
  exists gs,
    invoices_synced gs db
      (snd (BillingService.syncBillingWithStripe listSubs listInvs customers now
              uuid customerId db))
    /\ (gs = []
        \/ exists c cus,
             customers !! customerId = Some c
             /\ Customer.stripeCustomerId c = Some cus
             /\ listInvs cus = Ok gs).
Proof.
  unfold BillingService.syncBillingWithStripe.
  assert (Hsame : exists gs,
    invoices_synced gs db db
    /\ (gs = []
        \/ exists c cus,
             customers !! customerId = Some c
             /\ Customer.stripeCustomerId c = Some cus
             /\ listInvs cus = Ok gs)).
  { exists []. split; [intros id i' H; right; exact H | left; reflexivity]. }
  destruct (customers !! customerId) as [c|] eqn:Hc; [|exact Hsame].
  destruct (Customer.stripeCustomerId c) as [cus|] eqn:Hcus; [|exact Hsame].
  destruct (truthy_string cus); [|exact Hsame].
  unfold bind at 1, lift. destruct (listSubs cus) as [ss|e]; [|exact Hsame].
  unfold bind at 1. destruct (listInvs cus) as [gs|e] eqn:Hgs; [|exact Hsame].
  unfold bind at 1.
  destruct (sync_subscriptions_invoices now uuid customerId ss 0%nat db)
    as [Hok Hinv].
  destruct (BillingService.sync_subscriptions now uuid 0 customerId ss db)
    as [[n|e] d1]; [|discriminate].
  simpl in Hinv. unfold bind.
  pose proof (sync_invoices_synced now uuid customerId gs n d1) as Hsync.
  exists gs. split; [|right; exists c, cus; repeat split; assumption].
  destruct (BillingService.sync_invoices now uuid n customerId gs d1)
    as [[n'|e] d2]; simpl in *; intros id i' Hi';
    (destruct (Hsync id i' Hi') as [H | H];
     [left; exact H | right; rewrite <- Hinv; exact H]).
Qed.



